(** * ValenceRTDisplay V2: the Valence RS485 protocol engine

    A shallow embedding of the protocol core of [ValenceRTDisplay_V2.ino]
    (CRC, discovery, polling, frame decoding, synthetic data) together with
    the properties the design document states about it.

    Conventions.
    - A [byte] of the sketch is a [Byte.byte]; [u8] gives its value in
      [0, 256).  C integers are [Z] with the wrap-around of their width
      written out ([to_u16], [to_i16], [to_i8], [to_u32]).
    - A C [float] is an IEEE-754 binary32 value and a [double] a binary64
      value, both carried by [spec_float] with the operations of
      [SpecFloat] at the corresponding precision.
    - The globals of the sketch and the hardware it talks to (millisecond
      clock, UART receive FIFO, the bytes still travelling on the line, the
      log of writes, the direction pin, the random source) form one
      [Machine]; the functions of the sketch are computations in a small
      state monad over it.  An access outside an array is [Undefined].
    - Debug printing on [Serial] and the display refresh are not part of the
      protocol engine and are left out. *)

From Stdlib Require Import ZArith List Bool Lia String Ascii.
From Stdlib Require Import Strings.Byte Floats.SpecFloat Numbers.DecimalString.
From stdpp Require Import base list.
Import ListNotations.
Local Open Scope Z_scope.

(* ===================================================================== *)
(** * Machine integers and bytes *)
(* ===================================================================== *)

Module Int.

(** Value of a byte, [0 <= u8 b < 256]. *)
Definition u8 (b : byte) : Z := Z.of_N (Byte.to_N b).

(** Conversions to the fixed-width types of the sketch. *)
Definition to_u16 (z : Z) : Z := z mod 65536.
Definition to_u32 (z : Z) : Z := z mod 4294967296.
Definition to_i16 (z : Z) : Z :=
  let u := z mod 65536 in if u <? 32768 then u else u - 65536.
Definition to_i8 (z : Z) : Z :=
  let u := z mod 256 in if u <? 128 then u else u - 256.

(** [(byte)x]: the low eight bits of an integer. *)
Definition to_byte (z : Z) : byte :=
  match Byte.of_N (Z.to_N (z mod 256)) with
  | Some b => b
  | None => x00
  end.

(** [data[i]] for a buffer held as a list.  Every read of the sketch is
    guarded by a length test, the default is never observed. *)
Definition at_ (data : list byte) (i : Z) : byte :=
  nth (Z.to_nat i) data x00.

(** [(hi << 8) | lo] on two bytes promoted to [int]. *)
Definition shl8_or (hi lo : byte) : Z :=
  Z.lor (Z.shiftl (u8 hi) 8) (u8 lo).

End Int.
Import Int.

(* ===================================================================== *)
(** * Floating point: binary32 [float] and binary64 [double] *)
(* ===================================================================== *)

Module Fp.

Definition float := spec_float.
Definition double := spec_float.

Definition dprec := 53.
Definition demax := 1024.
Definition fprec := 24.
Definition femax := 128.

(** Integer to [double] and to [float] (round to nearest even; exact for
    every integer the sketch converts). *)
Definition double_of_int (z : Z) : double := binary_normalize dprec demax z 0 false.
Definition float_of_int (z : Z) : float := binary_normalize fprec femax z 0 false.

(** Narrowing [double] to [float] and widening back. *)
Definition float_of_double (x : double) : float :=
  match x with
  | S754_finite s m e => binary_normalize fprec femax (cond_Zopp s (Zpos m)) e s
  | _ => x
  end.
Definition double_of_float (x : float) : double :=
  match x with
  | S754_finite s m e => binary_normalize dprec demax (cond_Zopp s (Zpos m)) e s
  | _ => x
  end.

Definition dadd : double -> double -> double := SFadd dprec demax.
Definition dmul : double -> double -> double := SFmul dprec demax.
Definition ddiv : double -> double -> double := SFdiv dprec demax.
Definition fmul : float -> float -> float := SFmul fprec femax.
Definition fabs : float -> float := SFabs.

(** A decimal literal [n / d] of the source, rounded to the nearest
    [double] as the compiler does. *)
Definition dlit (n d : Z) : double := ddiv (double_of_int n) (double_of_int d).

Definition d0_01 : double := Eval vm_compute in dlit 1 100.
Definition d0_1 : double := Eval vm_compute in dlit 1 10.
Definition d0_001 : double := Eval vm_compute in dlit 1 1000.
Definition d12_0 : double := Eval vm_compute in double_of_int 12.
Definition dm8_0 : double := Eval vm_compute in double_of_int (-8).
Definition d23_0 : double := Eval vm_compute in double_of_int 23.
Definition d4_0 : double := Eval vm_compute in double_of_int 4.

Definition fzero : float := S754_zero false.

End Fp.
Import Fp.

(* ===================================================================== *)
(** * CRC engine *)
(* ===================================================================== *)

(** One pass of the inner loop body of [calculateModbusCRC]:
<<
    if (crc & 1) { crc = (crc >> 1) ^ 0xA001; } else { crc >>= 1; }
>> *)
Definition crc_shift (crc : Z) : Z :=
  if negb (Z.land crc 1 =? 0)
  then to_u16 (Z.lxor (Z.shiftr crc 1) 0xA001)
  else to_u16 (Z.shiftr crc 1).

(** [for (int j = 0; j < 8; j++)] around [crc_shift]. *)
Fixpoint crc_inner (n : nat) (crc : Z) : Z :=
  match n with
  | O => crc
  | S n' => crc_inner n' (crc_shift crc)
  end.

(** [for (int i = 0; i < length; i++)]: [todo] iterations remain, the next
    one reads [data[i]]. *)
Fixpoint crc_outer (data : list byte) (todo : nat) (i : Z) (crc : Z) : Z :=
  match todo with
  | O => crc
  | S todo' =>
      let crc1 := to_u16 (Z.lxor crc (u8 (at_ data i))) in
      crc_outer data todo' (i + 1) (crc_inner 8 crc1)
  end.

Definition calculateModbusCRC (data : list byte) (length : Z) : Z :=
  crc_outer data (Z.to_nat length) 0 0xFFFF.

(* ===================================================================== *)
(** * Data model *)
(* ===================================================================== *)

Definition RS485_DE : Z := 33.
Definition MAX_BATTERIES : Z := 4.
Definition RESPONSE_TIMEOUT : Z := 1000.

(** [struct BatteryData]. *)
Record BatteryData : Type := mkBattery {
  voltage : float;
  current : float;
  power : float;
  soc : Z;
  temperature : float;
  cellVoltages : list float;      (* float cellVoltages[6] *)
  current2 : float;
  cycles : Z;
  valid : bool;
  lastUpdate : Z;
  batteryID : string
}.

Definition set_voltage (v : float) (b : BatteryData) : BatteryData :=
  mkBattery v (current b) (power b) (soc b) (temperature b) (cellVoltages b)
            (current2 b) (cycles b) (valid b) (lastUpdate b) (batteryID b).
Definition set_current (v : float) (b : BatteryData) : BatteryData :=
  mkBattery (voltage b) v (power b) (soc b) (temperature b) (cellVoltages b)
            (current2 b) (cycles b) (valid b) (lastUpdate b) (batteryID b).
Definition set_power (v : float) (b : BatteryData) : BatteryData :=
  mkBattery (voltage b) (current b) v (soc b) (temperature b) (cellVoltages b)
            (current2 b) (cycles b) (valid b) (lastUpdate b) (batteryID b).
Definition set_soc (v : Z) (b : BatteryData) : BatteryData :=
  mkBattery (voltage b) (current b) (power b) v (temperature b) (cellVoltages b)
            (current2 b) (cycles b) (valid b) (lastUpdate b) (batteryID b).
Definition set_temperature (v : float) (b : BatteryData) : BatteryData :=
  mkBattery (voltage b) (current b) (power b) (soc b) v (cellVoltages b)
            (current2 b) (cycles b) (valid b) (lastUpdate b) (batteryID b).
Definition set_cellVoltages (v : list float) (b : BatteryData) : BatteryData :=
  mkBattery (voltage b) (current b) (power b) (soc b) (temperature b) v
            (current2 b) (cycles b) (valid b) (lastUpdate b) (batteryID b).
Definition set_current2 (v : float) (b : BatteryData) : BatteryData :=
  mkBattery (voltage b) (current b) (power b) (soc b) (temperature b) (cellVoltages b)
            v (cycles b) (valid b) (lastUpdate b) (batteryID b).
Definition set_cycles (v : Z) (b : BatteryData) : BatteryData :=
  mkBattery (voltage b) (current b) (power b) (soc b) (temperature b) (cellVoltages b)
            (current2 b) v (valid b) (lastUpdate b) (batteryID b).
Definition set_valid (v : bool) (b : BatteryData) : BatteryData :=
  mkBattery (voltage b) (current b) (power b) (soc b) (temperature b) (cellVoltages b)
            (current2 b) (cycles b) v (lastUpdate b) (batteryID b).
Definition set_lastUpdate (v : Z) (b : BatteryData) : BatteryData :=
  mkBattery (voltage b) (current b) (power b) (soc b) (temperature b) (cellVoltages b)
            (current2 b) (cycles b) (valid b) v (batteryID b).
Definition set_batteryID (v : string) (b : BatteryData) : BatteryData :=
  mkBattery (voltage b) (current b) (power b) (soc b) (temperature b) (cellVoltages b)
            (current2 b) (cycles b) (valid b) (lastUpdate b) v.

(** The globals of the sketch that the protocol engine uses, and the
    hardware around it. *)
Record Machine : Type := mkMachine {
  (* globals *)
  batteries : list BatteryData;            (* BatteryData batteries[MAX_BATTERIES] *)
  activeBatteryCount : Z;
  protocolInitialized : bool;
  batteryIDsAssigned : list bool;          (* bool batteryIDsAssigned[MAX_BATTERIES] *)
  discoveredBatteryIDs : list string;      (* String discoveredBatteryIDs[MAX_BATTERIES] *)
  (* hardware *)
  clock : Z;                               (* what millis() returns, 32 bits *)
  rx_fifo : list byte;                     (* bytes received on Serial2, not yet read *)
  line : list (list byte);                 (* bytes that arrive during each coming millisecond *)
  sent : list (list byte);                 (* Serial2.write calls so far, oldest first *)
  de_pin : bool;                           (* level of the RS485 driver-enable pin *)
  entropy : nat -> Z;                      (* raw values of the random source *)
  draws : nat                              (* how many of them were consumed *)
}.

Definition with_batteries (v : list BatteryData) (m : Machine) : Machine :=
  mkMachine v (activeBatteryCount m) (protocolInitialized m) (batteryIDsAssigned m)
            (discoveredBatteryIDs m) (clock m) (rx_fifo m) (line m) (sent m)
            (de_pin m) (entropy m) (draws m).
Definition with_activeBatteryCount (v : Z) (m : Machine) : Machine :=
  mkMachine (batteries m) v (protocolInitialized m) (batteryIDsAssigned m)
            (discoveredBatteryIDs m) (clock m) (rx_fifo m) (line m) (sent m)
            (de_pin m) (entropy m) (draws m).
Definition with_protocolInitialized (v : bool) (m : Machine) : Machine :=
  mkMachine (batteries m) (activeBatteryCount m) v (batteryIDsAssigned m)
            (discoveredBatteryIDs m) (clock m) (rx_fifo m) (line m) (sent m)
            (de_pin m) (entropy m) (draws m).
Definition with_batteryIDsAssigned (v : list bool) (m : Machine) : Machine :=
  mkMachine (batteries m) (activeBatteryCount m) (protocolInitialized m) v
            (discoveredBatteryIDs m) (clock m) (rx_fifo m) (line m) (sent m)
            (de_pin m) (entropy m) (draws m).
Definition with_discoveredBatteryIDs (v : list string) (m : Machine) : Machine :=
  mkMachine (batteries m) (activeBatteryCount m) (protocolInitialized m)
            (batteryIDsAssigned m) v (clock m) (rx_fifo m) (line m) (sent m)
            (de_pin m) (entropy m) (draws m).
Definition with_time (c : Z) (rx : list byte) (ln : list (list byte)) (m : Machine) : Machine :=
  mkMachine (batteries m) (activeBatteryCount m) (protocolInitialized m)
            (batteryIDsAssigned m) (discoveredBatteryIDs m) c rx ln (sent m)
            (de_pin m) (entropy m) (draws m).
Definition with_rx_fifo (v : list byte) (m : Machine) : Machine :=
  mkMachine (batteries m) (activeBatteryCount m) (protocolInitialized m)
            (batteryIDsAssigned m) (discoveredBatteryIDs m) (clock m) v (line m) (sent m)
            (de_pin m) (entropy m) (draws m).
Definition with_sent (v : list (list byte)) (m : Machine) : Machine :=
  mkMachine (batteries m) (activeBatteryCount m) (protocolInitialized m)
            (batteryIDsAssigned m) (discoveredBatteryIDs m) (clock m) (rx_fifo m) (line m) v
            (de_pin m) (entropy m) (draws m).
Definition with_de_pin (v : bool) (m : Machine) : Machine :=
  mkMachine (batteries m) (activeBatteryCount m) (protocolInitialized m)
            (batteryIDsAssigned m) (discoveredBatteryIDs m) (clock m) (rx_fifo m) (line m)
            (sent m) v (entropy m) (draws m).
Definition with_draws (v : nat) (m : Machine) : Machine :=
  mkMachine (batteries m) (activeBatteryCount m) (protocolInitialized m)
            (batteryIDsAssigned m) (discoveredBatteryIDs m) (clock m) (rx_fifo m) (line m)
            (sent m) (de_pin m) (entropy m) v.

(* ===================================================================== *)
(** * The monad of the sketch *)
(* ===================================================================== *)

(** A computation ends with a value and a machine, performs an access
    outside an array ([Undefined]), or is cut short because a loop was given
    too few iterations ([Unfinished], shown not to happen). *)
Inductive outcome (A : Type) : Type :=
  | Done (a : A) (m : Machine)
  | Undefined
  | Unfinished.
Arguments Done {A} a m.
Arguments Undefined {A}.
Arguments Unfinished {A}.

Definition M (A : Type) : Type := Machine -> outcome A.

#[global] Instance M_ret : MRet M := fun A a m => Done a m.
#[global] Instance M_bind : MBind M := fun A B k c m =>
  match c m with
  | Done a m' => k a m'
  | Undefined => Undefined
  | Unfinished => Unfinished
  end.

Definition gets {A : Type} (f : Machine -> A) : M A := fun m => Done (f m) m.
Definition modify (f : Machine -> Machine) : M unit := fun m => Done tt (f m).
Definition undefined {A : Type} : M A := fun _ => Undefined.
Definition unfinished {A : Type} : M A := fun _ => Unfinished.

(** [when c body]: an [if] without [else]. *)
Definition when (c : bool) (body : M unit) : M unit :=
  if c then body else mret tt.

(* ===================================================================== *)
(** * Hardware and Arduino core *)
(* ===================================================================== *)

(** One millisecond passes: the clock advances (32-bit wrap) and the bytes
    that were on the line during that millisecond enter the receive FIFO. *)
Definition tick (m : Machine) : Machine :=
  with_time (to_u32 (clock m + 1)) (rx_fifo m ++ hd [] (line m)) (tl (line m)) m.

Definition millis : M Z := gets clock.

Definition delay (ms : Z) : M unit := modify (Nat.iter (Z.to_nat ms) tick).

(** Shorter than the resolution of the clock. *)
Definition delayMicroseconds (us : Z) : M unit := mret tt.

Definition digitalWrite_DE (level : bool) : M unit := modify (with_de_pin level).

Definition Serial2_available : M Z := gets (fun m => Z.of_nat (length (rx_fifo m))).

(** [Serial2.read()]: the oldest unread byte, or -1 when there is none. *)
Definition Serial2_read : M Z := fun m =>
  match rx_fifo m with
  | [] => Done (-1) m
  | b :: rest => Done (u8 b) (with_rx_fifo rest m)
  end.

Definition Serial2_write (frame : list byte) : M unit :=
  modify (fun m => with_sent (sent m ++ [frame]) m).

Definition Serial2_flush : M unit := mret tt.

(** [random(lo, hi)] of the Arduino core: [lo] when [lo >= hi], otherwise
    [lo] plus the next raw value of the random source reduced modulo
    [hi - lo]. *)
Definition random (lo hi : Z) : M Z := fun m =>
  if hi <=? lo then Done lo m
  else Done (lo + entropy m (draws m) mod (hi - lo)) (with_draws (S (draws m)) m).

(** [&batteries[i]] followed by reads, and the write-back of the fields
    assigned through that pointer. *)
Definition load_battery (i : Z) : M BatteryData := fun m =>
  if i <? 0 then Undefined
  else match batteries m !! Z.to_nat i with
       | Some b => Done b m
       | None => Undefined
       end.

Definition store_battery (i : Z) (b : BatteryData) : M unit := fun m =>
  if (0 <=? i) && (i <? Z.of_nat (length (batteries m)))
  then Done tt (with_batteries (<[Z.to_nat i := b]> (batteries m)) m)
  else Undefined.

Definition store_batteryIDsAssigned (i : Z) (v : bool) : M unit := fun m =>
  if (0 <=? i) && (i <? Z.of_nat (length (batteryIDsAssigned m)))
  then Done tt (with_batteryIDsAssigned (<[Z.to_nat i := v]> (batteryIDsAssigned m)) m)
  else Undefined.

Definition store_discoveredBatteryIDs (i : Z) (v : string) : M unit := fun m =>
  if (0 <=? i) && (i <? Z.of_nat (length (discoveredBatteryIDs m)))
  then Done tt (with_discoveredBatteryIDs (<[Z.to_nat i := v]> (discoveredBatteryIDs m)) m)
  else Undefined.

(* ===================================================================== *)
(** * Discovery: identifier extraction *)
(* ===================================================================== *)

(** [data[i] >= 0x20 && data[i] <= 0x7E] *)
Definition printable (b : byte) : bool := (0x20 <=? u8 b) && (u8 b <=? 0x7E).

(** [for (int i = 3; i < length - 2; i++)] of [parseBatteryID]; [todo]
    iterations remain, the next one looks at [data[i]]. *)
Fixpoint id_loop (data : list byte) (todo : nat) (i : Z) (batteryID : string) : string :=
  match todo with
  | O => batteryID
  | S todo' =>
      let batteryID' :=
        if printable (at_ data i)
        then String.append batteryID (String (ascii_of_byte (at_ data i)) EmptyString)
        else batteryID in
      id_loop data todo' (i + 1) batteryID'
  end.

Definition parseBatteryID (data : list byte) (length : Z) : string :=
  if length <? 15 then EmptyString
  else id_loop data (Z.to_nat (length - 2 - 3)) 3 EmptyString.

(* ===================================================================== *)
(** * Frame decoder *)
(* ===================================================================== *)

(** [for (int i = 0; i < 6 && (20 + i * 2 + 1) < length; i++)] *)
Fixpoint cell_loop (data : list byte) (length : Z) (todo : nat) (i : Z)
         (battery : BatteryData) : BatteryData :=
  match todo with
  | O => battery
  | S todo' =>
      if (i <? 6) && (20 + i * 2 + 1 <? length) then
        let cellVoltageRaw := to_u16 (shl8_or (at_ data (21 + i * 2)) (at_ data (20 + i * 2))) in
        let v := float_of_double (dmul (double_of_int cellVoltageRaw) d0_001) in
        cell_loop data length todo' (i + 1)
                  (set_cellVoltages (<[Z.to_nat i := v]> (cellVoltages battery)) battery)
      else battery
  end.

(** The field assignments of [parseValenceBatteryData] up to and including
    [battery->valid = true], on the struct [battery] points to. *)
Definition decode_fields (data : list byte) (length : Z) (battery : BatteryData) : BatteryData :=
  let voltageRaw := to_u16 (shl8_or (at_ data 11) (at_ data 10)) in
  let battery := set_voltage (float_of_double (dmul (double_of_int voltageRaw) d0_01)) battery in
  let currentRaw := to_i16 (shl8_or (at_ data 13) (at_ data 12)) in
  let battery := set_current (float_of_double (dmul (double_of_int currentRaw) d0_1)) battery in
  let battery := if 15 <? length then set_soc (u8 (at_ data 15)) battery else battery in
  let battery :=
    if 16 <? length
    then set_temperature (float_of_int (to_i8 (u8 (at_ data 16)))) battery
    else battery in
  let battery := if 30 <? length then cell_loop data length 6 0 battery else battery in
  let battery :=
    if 35 <? length then
      let current2Raw := to_i16 (shl8_or (at_ data 35) (at_ data 34)) in
      set_current2 (float_of_double (dmul (double_of_int current2Raw) d0_1)) battery
    else battery in
  let battery := set_power (fmul (voltage battery) (fabs (current battery))) battery in
  set_valid true battery.

Definition parseValenceBatteryData (data : list byte) (length : Z) (batteryIndex : Z) : M bool :=
  if (length <? 20) || (MAX_BATTERIES <=? batteryIndex) then mret false
  else if negb (u8 (at_ data 0) =? 0xFF) then mret false
  else
    battery ← load_battery batteryIndex;
    let battery := decode_fields data length battery in
    now ← millis;
    store_battery batteryIndex (set_lastUpdate now battery);;
    mret true.

(* ===================================================================== *)
(** * Synthetic data generator *)
(* ===================================================================== *)

(** [String(n)] for an [int]. *)
Definition String_of_int (n : Z) : string := NilZero.string_of_int (Z.to_int n).

(** [for (int j = 0; j < 6; j++)] of [generateTestData]. *)
Fixpoint gen_cells (todo : nat) (j : Z) (avgCellVoltage : float)
         (battery : BatteryData) : M BatteryData :=
  match todo with
  | O => mret battery
  | S todo' =>
      r ← random (-30) 30;
      let v := float_of_double (dadd (double_of_float avgCellVoltage)
                                     (dmul (double_of_int r) d0_001)) in
      gen_cells todo' (j + 1) avgCellVoltage
                (set_cellVoltages (<[Z.to_nat j := v]> (cellVoltages battery)) battery)
  end.

(** Body of the outer loop of [generateTestData] for slot [i]. *)
Definition gen_slot (i : Z) : M unit :=
  battery ← load_battery i;
  r ← random (-20) 20;
  let battery :=
    set_voltage (float_of_double
                   (dadd (dadd d12_0 (dmul (double_of_int i) d0_1))
                         (dmul (double_of_int r) d0_01))) battery in
  r ← random (-40) 40;
  let battery :=
    set_current (float_of_double (dadd dm8_0 (dmul (double_of_int r) d0_1))) battery in
  let battery := set_power (fabs (fmul (voltage battery) (current battery))) battery in
  r ← random (-8) 8;
  let battery := set_soc (65 + i * 8 + r) battery in
  r ← random (-5) 12;
  let battery :=
    set_temperature (float_of_double (dadd d23_0 (double_of_int r))) battery in
  let avgCellVoltage := float_of_double (ddiv (double_of_float (voltage battery)) d4_0) in
  battery ← gen_cells 6 0 avgCellVoltage battery;
  r ← random (-5) 5;
  let battery :=
    set_current2 (float_of_double (dadd (double_of_float (current battery))
                                        (dmul (double_of_int r) d0_01))) battery in
  let battery := set_cycles (to_u16 (180 + i * 25)) battery in
  let battery :=
    set_batteryID (String.append "TEST_BAT_" (String_of_int (i + 1))) battery in
  let battery := set_valid true battery in
  now ← millis;
  let battery := set_lastUpdate now battery in
  let battery := if 100 <? soc battery then set_soc 100 battery else battery in
  let battery := if soc battery <? 0 then set_soc 0 battery else battery in
  store_battery i battery.

(** [for (int i = 0; i < activeBatteryCount; i++)] of [generateTestData]. *)
Fixpoint gen_loop (todo : nat) (i : Z) : M unit :=
  n ← gets activeBatteryCount;
  if i <? n then
    match todo with
    | O => unfinished
    | S todo' => gen_slot i;; gen_loop todo' (i + 1)
    end
  else mret tt.

Definition generateTestData : M unit :=
  modify (with_activeBatteryCount 4);;
  gen_loop 4 0;;
  modify (with_protocolInitialized true).

(* ===================================================================== *)
(** * Transport loops *)
(* ===================================================================== *)

(** [while (Serial2.available()) { Serial2.read(); }] *)
Fixpoint drain_loop (todo : nat) : M unit :=
  avail ← Serial2_available;
  if negb (avail =? 0) then
    match todo with
    | O => unfinished
    | S todo' => Serial2_read;; drain_loop todo'
    end
  else mret tt.

Definition drain : M unit :=
  avail ← Serial2_available;
  drain_loop (Z.to_nat avail).

(** [while (Serial2.available() && bytesRead < 64) response[bytesRead++] = Serial2.read();]
    The local array is carried as the list of the bytes stored so far,
    [bytesRead] is its length. *)
Fixpoint read_available (todo : nat) (response : list byte) : M (list byte) :=
  avail ← Serial2_available;
  if negb (avail =? 0) && (Z.of_nat (length response) <? 64) then
    match todo with
    | O => unfinished
    | S todo' =>
        c ← Serial2_read;
        read_available todo' (response ++ [to_byte c])
    end
  else mret response.

(** Body of the receive loop of [requestSingleBatteryData]:
<<
    if (Serial2.available()) {
        response[bytesReceived++] = Serial2.read();
        timeout = millis() + 100;
    }
    delay(1);
>>  It returns the deadline and the buffer after the iteration. *)
Definition receive_step (timeout : Z) (response : list byte) : M (Z * list byte) :=
  avail ← Serial2_available;
  '(timeout', response') ←
    (if negb (avail =? 0) then
       c ← Serial2_read;
       now ← millis;
       mret (to_u32 (now + 100), response ++ [to_byte c])
     else mret (timeout, response));
  delay 1;;
  mret (timeout', response').

(** [while (millis() < timeout && bytesReceived < 128)] *)
Fixpoint receive_loop (fuel : nat) (timeout : Z) (response : list byte) : M (list byte) :=
  now ← millis;
  if (now <? timeout) && (Z.of_nat (length response) <? 128) then
    match fuel with
    | O => unfinished
    | S fuel' =>
        '(timeout', response') ← receive_step timeout response;
        receive_loop fuel' timeout' response'
    end
  else mret response.

(** Iterations that always suffice for [receive_loop]: at most 128 bytes,
    each followed by fewer than 101 idle milliseconds, after at most 1000
    initial ones. *)
Definition receive_fuel : nat := Z.to_nat (128 * 101 + 1000 + 1).

(* ===================================================================== *)
(** * Polling protocol *)
(* ===================================================================== *)

(** [byte dataRequest[] = {0xFF, 0x61, 0x06, (byte)batteryIndex, 0, 0, 0}]
    with the CRC of its first five bytes stored in the last two. *)
Definition dataRequest (batteryIndex : Z) : list byte :=
  let dataRequest := [xff; x61; x06; to_byte batteryIndex; x00; x00; x00] in
  let crc := calculateModbusCRC dataRequest (7 - 2) in
  let dataRequest := <[5%nat := to_byte (Z.land crc 0xFF)]> dataRequest in
  <[6%nat := to_byte (Z.land (Z.shiftr crc 8) 0xFF)]> dataRequest.

Definition requestSingleBatteryData (batteryIndex : Z) : M bool :=
  if MAX_BATTERIES <=? batteryIndex then mret false
  else
    drain;;
    Serial2_write (dataRequest batteryIndex);;
    Serial2_flush;;
    now ← millis;
    let timeout := to_u32 (now + RESPONSE_TIMEOUT) in
    response ← receive_loop receive_fuel timeout [];
    let bytesReceived := Z.of_nat (length response) in
    if 20 <=? bytesReceived then
      parseValenceBatteryData response bytesReceived batteryIndex
    else
      n ← gets activeBatteryCount;
      if n =? 0 then generateTestData;; mret true
      else mret false.

(** [for (int i = 0; i < activeBatteryCount; i++)] of [requestBatteryData].
    The progress message at the head of the body reads
    [batteries[i].batteryID], before the bound check of
    [requestSingleBatteryData]. *)
Fixpoint poll_loop (todo : nat) (i : Z) : M unit :=
  n ← gets activeBatteryCount;
  if i <? n then
    match todo with
    | O => unfinished
    | S todo' =>
        load_battery i;;
        requestSingleBatteryData i;;
        delay 150;;
        poll_loop todo' (i + 1)
    end
  else mret tt.

(** The [updateCurrentDisplay()] that ends the function acts on the display
    state only; it is added in [Ui.requestBatteryData]. *)
Definition requestBatteryData : M unit :=
  init ← gets protocolInitialized;
  if negb init then mret tt
  else
    when (0 <=? RS485_DE) (digitalWrite_DE true;; delayMicroseconds 100);;
    n ← gets activeBatteryCount;
    poll_loop (Z.to_nat n) 0;;
    when (0 <=? RS485_DE) (delayMicroseconds 100;; digitalWrite_DE false).

(* ===================================================================== *)
(** * Discovery protocol *)
(* ===================================================================== *)

Definition initSeq : list byte :=
  [xff; x43; x06; x06; x42; x46; xff; x43; x06; x06; x42; x46].

(** [byte pollMsg[] = {0xFF, 0x50, 0x06, 0x0, (byte)batteryAddr, 0, 0}]
    with the CRC of its first five bytes stored in the last two. *)
Definition pollMsg (batteryAddr : Z) : list byte :=
  let pollMsg := [xff; x50; x06; x00; to_byte batteryAddr; x00; x00] in
  let crc := calculateModbusCRC pollMsg (7 - 2) in
  let pollMsg := <[5%nat := to_byte (Z.land crc 0xFF)]> pollMsg in
  <[6%nat := to_byte (Z.land (Z.shiftr crc 8) 0xFF)]> pollMsg.

(** The first loop of [initializeValenceProtocol]. *)
Fixpoint clear_loop (todo : nat) (i : Z) : M unit :=
  if i <? MAX_BATTERIES then
    match todo with
    | O => unfinished
    | S todo' =>
        battery ← load_battery i;
        store_battery i (set_valid false battery);;
        store_batteryIDsAssigned i false;;
        store_discoveredBatteryIDs i EmptyString;;
        clear_loop todo' (i + 1)
    end
  else mret tt.

(** What one address contributes to [foundBatteries]: the body of
    [if (Serial2.available() >= 10) { ... }]. *)
Definition take_response (foundBatteries : Z) : M Z :=
  response ← read_available 64 [];
  let bytesRead := Z.of_nat (length response) in
  if (10 <=? bytesRead) && (u8 (at_ response 0) =? 0xFF) && (u8 (at_ response 1) =? 0x70)
  then
    let batteryID := parseBatteryID response bytesRead in
    if (0 <? String.length batteryID)%nat then
      store_discoveredBatteryIDs foundBatteries batteryID;;
      battery ← load_battery foundBatteries;
      store_battery foundBatteries (set_batteryID batteryID battery);;
      mret (foundBatteries + 1)
    else mret foundBatteries
  else mret foundBatteries.

(** Body of the address loop. *)
Definition scan_address (batteryAddr foundBatteries : Z) : M Z :=
  Serial2_write (pollMsg batteryAddr);;
  Serial2_flush;;
  delay 200;;
  avail ← Serial2_available;
  foundBatteries' ← (if 10 <=? avail then take_response foundBatteries
                     else mret foundBatteries);
  drain;;
  delay 100;;
  mret foundBatteries'.

(** [for (int batteryAddr = 0; batteryAddr <= 5 && foundBatteries < MAX_BATTERIES; batteryAddr++)] *)
Fixpoint scan_loop (todo : nat) (batteryAddr foundBatteries : Z) : M Z :=
  if (batteryAddr <=? 5) && (foundBatteries <? MAX_BATTERIES) then
    match todo with
    | O => unfinished
    | S todo' =>
        foundBatteries' ← scan_address batteryAddr foundBatteries;
        scan_loop todo' (batteryAddr + 1) foundBatteries'
    end
  else mret foundBatteries.

(** The [updateCurrentDisplay()] that ends the function acts on the display
    state only; it is added in [Ui.initializeValenceProtocol]. *)
Definition initializeValenceProtocol : M unit :=
  clear_loop 4 0;;
  modify (with_activeBatteryCount 0);;
  when (0 <=? RS485_DE) (digitalWrite_DE true;; delayMicroseconds 100);;
  Serial2_write initSeq;;
  Serial2_flush;;
  delay 100;;
  foundBatteries ← scan_loop 6 0 0;
  (if 0 <? foundBatteries then
     Serial2_write initSeq;;
     Serial2_flush;;
     delay 100;;
     modify (with_activeBatteryCount foundBatteries);;
     modify (with_protocolInitialized true)
   else
     generateTestData;;
     modify (with_protocolInitialized true));;
  when (0 <=? RS485_DE) (delayMicroseconds 100;; digitalWrite_DE false).

(* ===================================================================== *)
(** * The design document's vocabulary *)
(* ===================================================================== *)

(** The definitions of this module follow the wording of the design
    document, not the code; the theorems below compare the two. *)
Module Spec.

(** "if low bit set, shift right and XOR 0xA001; else shift right" *)
Definition crc16_step (crc : Z) : Z :=
  if Z.odd crc then Z.lxor (crc / 2) 0xA001 else crc / 2.

(** "for each input byte, XOR into the low byte of the running value, then
    perform 8 iterations" *)
Definition crc16_byte (crc : Z) (b : byte) : Z :=
  Nat.iter 8 crc16_step (Z.lxor crc (u8 b)).

(** "seed 0xFFFF" *)
Definition crc16 (bytes : list byte) : Z := fold_left crc16_byte bytes 0xFFFF.

(** "Two trailing bytes of every outgoing frame are the CRC in
    little-endian order": [frame] is a body followed by the low and the
    high byte of the CRC of that body. *)
Definition crc_terminated (frame : list byte) : Prop :=
  exists body lo hi,
    frame = body ++ [lo; hi] /\ u8 lo + 256 * u8 hi = crc16 body.

(** Unsigned and signed little-endian 16-bit values at an offset, and a
    signed byte. *)
Definition le_u16 (data : list byte) (off : Z) : Z :=
  u8 (at_ data off) + 256 * u8 (at_ data (off + 1)).
Definition le_i16 (data : list byte) (off : Z) : Z :=
  let u := le_u16 data off in if u <? 32768 then u else u - 65536.
Definition s8 (b : byte) : Z := if u8 b <? 128 then u8 b else u8 b - 256.

(** Scalings of the decoder table: raw value times 0.01, 0.1, 0.001,
    computed in [double] and stored in a [float]. *)
Definition centi (raw : Z) : float := float_of_double (dmul (double_of_int raw) d0_01).
Definition deci (raw : Z) : float := float_of_double (dmul (double_of_int raw) d0_1).
Definition milli (raw : Z) : float := float_of_double (dmul (double_of_int raw) d0_001).

(** "the maximal run of printable ASCII characters starting at offset 3
    and ending 2 bytes before the end" *)
Fixpoint take_while {A : Type} (p : A -> bool) (l : list A) : list A :=
  match l with
  | [] => []
  | x :: l' => if p x then x :: take_while p l' else []
  end.
Fixpoint drop_while {A : Type} (p : A -> bool) (l : list A) : list A :=
  match l with
  | [] => []
  | x :: l' => if p x then drop_while p l' else l
  end.
Definition id_span (data : list byte) : list byte :=
  take (length data - 2 - 3) (drop 3 data).
Definition printable_run (data : list byte) : string :=
  string_of_list_byte (take_while printable (id_span data)).

(** What the address loop reads at [n] successive addresses when the
    receive FIFO holds [rx] and [ln] is still on the line: at each address
    200 ms of line are let in, at most 64 bytes are read, the rest is
    discarded and 100 more ms pass. *)
Fixpoint heard (n : nat) (rx : list byte) (ln : list (list byte)) : list (list byte) :=
  match n with
  | O => []
  | S n' =>
      take 64 (rx ++ concat (take 200 ln))
        :: heard n' (concat (take 100 (drop 200 ln))) (drop 300 ln)
  end.

(** A valid discovery response: at least 10 bytes, header [FF 70], and a
    non-empty identifier; [identifier_of] is that identifier. *)
Definition identifier_of (response : list byte) : option string :=
  if (10 <=? Z.of_nat (length response))
     && (u8 (at_ response 0) =? 0xFF) && (u8 (at_ response 1) =? 0x70)
     && (0 <? String.length (parseBatteryID response (Z.of_nat (length response))))%nat
  then Some (parseBatteryID response (Z.of_nat (length response)))
  else None.

(** Identifiers of the valid responses among those heard during a
    discovery pass started on machine [m] (the wake-up takes 100 ms). *)
Definition discovered (m : Machine) : list string :=
  omap identifier_of
       (heard 6 (rx_fifo m ++ concat (take 100 (line m))) (drop 100 (line m))).

End Spec.
Import Spec.

(** The transport half of [requestSingleBatteryData]: flush the FIFO, send
    the request for slot [batteryIndex], collect the response. *)
Definition exchange (batteryIndex : Z) : M (list byte) :=
  drain;;
  Serial2_write (dataRequest batteryIndex);;
  Serial2_flush;;
  now ← millis;
  receive_loop receive_fuel (to_u32 (now + RESPONSE_TIMEOUT)) [].

(** The arrays have the sizes they are declared with and the clock is a
    32-bit value. *)
Definition wf_machine (m : Machine) : Prop :=
  length (batteries m) = 4%nat /\
  length (batteryIDsAssigned m) = 4%nat /\
  length (discoveredBatteryIDs m) = 4%nat /\
  Forall (fun b => length (cellVoltages b) = 6%nat) (batteries m) /\
  0 <= clock m < 4294967296.

(** Writes of a computation: what [sent] gained. *)
Definition writes (m m' : Machine) : list (list byte) :=
  drop (length (sent m)) (sent m').

(* ===================================================================== *)
(** * Concrete machines and buffers *)
(* ===================================================================== *)

Module Sample.

Definition bytes (l : list Z) : list byte := map to_byte l.

Definition blank : BatteryData :=
  mkBattery fzero fzero fzero 0 fzero (repeat fzero 6) fzero 0 false 0 EmptyString.

(** The machine after [setup()], with [ln] on the line. *)
Definition boot (ln : list (list byte)) : Machine :=
  mkMachine (repeat blank 4) 0 false (repeat false 4) (repeat EmptyString 4)
            0 [] ln [] false (fun n => Z.of_nat n * 7919) 0.

(** A line on which the identifier response below arrives while address 1
    is being polled (the wake-up takes 100 ms, each address 300 ms). *)
Definition answer_at_1 (response : list byte) : list (list byte) :=
  repeat [] 450 ++ [response].

(** The identifier response quoted in the source of [parseBatteryID]. *)
Definition id_response : list byte :=
  bytes [0xFF; 0x70; 0x11; 0x43; 0x42; 0x42; 0x31; 0x31; 0x32; 0x38;
         0x31; 0x30; 0x33; 0x31; 0x38; 0x50; 0xb9].

(** A ten-byte response with header [FF 70] and five printable bytes. *)
Definition short_response : list byte :=
  bytes [0xFF; 0x70; 0x11; 0x41; 0x42; 0x43; 0x44; 0x45; 0x50; 0xb9].

(** A 17-byte response in which a non-printable byte (offset 5) splits the
    printable bytes. *)
Definition split_response : list byte :=
  bytes [0xFF; 0x70; 0x11; 0x41; 0x42; 0x00; 0x43; 0x44; 0x45; 0x46;
         0x47; 0x48; 0x49; 0x4A; 0x4B; 0x50; 0xb9].

(** The 20-byte data frame of the design document's scenario. *)
Definition frame20 : list byte :=
  bytes [0xFF; 0; 0; 0; 0; 0; 0; 0; 0; 0; 0x88; 0x13; 0x50; 0; 0; 0x64; 0x17; 0; 0; 0].

(** The same frame extended to 31 and to 36 bytes. *)
Definition frame31 : list byte :=
  frame20 ++ bytes [0xE4; 0x0C; 0xE5; 0x0C; 0xE6; 0x0C; 0xE7; 0x0C; 0xE8; 0x0C; 0xE9].
Definition frame36 : list byte :=
  frame31 ++ bytes [0x0C; 0; 0; 0xB0; 0xFF].

(** Machines in which slot 0 has been discovered and decoded once. *)
Definition reading : BatteryData :=
  mkBattery (centi 1234) (deci (-15)) (fmul (centi 1234) (fabs (deci (-15)))) 80
            (float_of_int 21) (repeat (milli 3300) 6) (deci (-14)) 0 true 777
            "CBB112810318".
Definition polled (ln : list (list byte)) : Machine :=
  mkMachine (reading :: repeat blank 3) 1 true (repeat false 4)
            ("CBB112810318"%string :: repeat EmptyString 3)
            5000 [] ln [] false (fun n => Z.of_nat n * 7919) 0.


(** A machine that claims to be initialised with no active battery. *)
Definition idle : Machine :=
  mkMachine (repeat blank 4) 0 true (repeat false 4) (repeat EmptyString 4)
            5000 [] [] [] false (fun n => Z.of_nat n * 7919) 0.

End Sample.

(** The clock after [n] milliseconds. *)
Definition clock_after (n : nat) (c : Z) : Z := Nat.iter n (fun c => to_u32 (c + 1)) c.

(** What [receive_loop] still has to do: 101 for every byte the buffer can
    still take, plus the milliseconds left until the deadline. *)
Definition receive_measure (timeout : Z) (response : list byte) (m : Machine) : Z :=
  (128 - Z.of_nat (length response)) * 101 + Z.max 0 (timeout - clock m).

(** The part of [requestSingleBatteryData] that follows the receive loop. *)
Definition judge_response (batteryIndex : Z) (response : list byte) : M bool :=
  let bytesReceived := Z.of_nat (length response) in
  if 20 <=? bytesReceived then
    parseValenceBatteryData response bytesReceived batteryIndex
  else
    n ← gets activeBatteryCount;
    if n =? 0 then generateTestData;; mret true
    else mret false.

(** What the generator leaves in slot [k] when run at time [now]. *)
Definition synthetic (k : nat) (now : Z) (b : BatteryData) : Prop :=
  valid b = true /\ lastUpdate b = now /\
  batteryID b = String.append "TEST_BAT_" (String_of_int (Z.of_nat k + 1)) /\
  0 <= soc b <= 100 /\
  cycles b = to_u16 (180 + Z.of_nat k * 25).

(** Slots [found], [found + 1], ... receive the identifiers [ids], in
    [batteries] and in [discoveredBatteryIDs]. *)
Fixpoint assign_all (found : nat) (ids : list string) (m : Machine) : Machine :=
  match ids with
  | [] => m
  | id :: ids' =>
      assign_all (S found) ids'
        (with_batteries (alter (set_batteryID id) found (batteries m))
           (with_discoveredBatteryIDs (<[found := id]> (discoveredBatteryIDs m)) m))
  end.

(** The identifier a response contributes, as a list of zero or one. *)
Definition accepted (response : list byte) : list string :=
  option_list (identifier_of response).

(** The globals after the first loop of discovery. *)
Definition cleared (m : Machine) : Machine :=
  with_discoveredBatteryIDs (replicate 4 EmptyString)
    (with_batteryIDsAssigned (replicate 4 false)
       (with_batteries (set_valid false <$> batteries m) m)).

(** The responses a discovery pass started on [m] hears at the six
    addresses (if it gets that far). *)
Definition heard_by (m : Machine) : list (list byte) :=
  heard 6 (rx_fifo m ++ concat (take 100 (line m))) (drop 100 (line m)).

(** What a polling pass keeps: the identity of the registry (active count,
    flags, identifiers, cycle counts, array sizes), the random source, the
    direction pin, and the validity of every slot that was valid. *)
Definition keeps_registry (m m' : Machine) : Prop :=
  activeBatteryCount m' = activeBatteryCount m /\
  protocolInitialized m' = protocolInitialized m /\
  batteryIDsAssigned m' = batteryIDsAssigned m /\
  discoveredBatteryIDs m' = discoveredBatteryIDs m /\
  de_pin m' = de_pin m /\
  entropy m' = entropy m /\
  draws m' = draws m /\
  length (batteries m') = length (batteries m) /\
  (forall j b, batteries m !! j = Some b ->
     exists b', batteries m' !! j = Some b' /\
                batteryID b' = batteryID b /\ cycles b' = cycles b /\
                (valid b = true -> valid b' = true) /\
                length (cellVoltages b') = length (cellVoltages b)).

(** A write that consists of CRC-terminated frames, one after the other. *)
Definition framed (w : list byte) : Prop :=
  exists frames : list (list byte), w = concat frames /\ Forall crc_terminated frames.

(** Tactics that evaluate record projections and the straight-line part of
    a computation. *)
Ltac battery_fields :=
  cbn [set_voltage set_current set_power set_soc set_temperature set_cellVoltages
       set_current2 set_cycles set_valid set_lastUpdate set_batteryID
       voltage current power soc temperature cellVoltages current2 cycles valid
       lastUpdate batteryID].

Ltac battery_fields_in H :=
  cbn [set_voltage set_current set_power set_soc set_temperature set_cellVoltages
       set_current2 set_cycles set_valid set_lastUpdate set_batteryID
       voltage current power soc temperature cellVoltages current2 cycles valid
       lastUpdate batteryID] in H.

Ltac run_head :=
  cbv beta delta [mbind M_bind mret M_ret gets modify when millis
                  delayMicroseconds digitalWrite_DE Serial2_available
                  Serial2_write Serial2_flush] iota.

Ltac machine_fields :=
  cbn [with_batteries with_activeBatteryCount with_protocolInitialized
       with_batteryIDsAssigned with_discoveredBatteryIDs with_time with_rx_fifo
       with_sent with_de_pin with_draws cleared
       batteries activeBatteryCount protocolInitialized batteryIDsAssigned
       discoveredBatteryIDs clock rx_fifo line sent de_pin entropy draws].

Ltac machine_fields_in H :=
  cbn [with_batteries with_activeBatteryCount with_protocolInitialized
       with_batteryIDsAssigned with_discoveredBatteryIDs with_time with_rx_fifo
       with_sent with_de_pin with_draws cleared
       batteries activeBatteryCount protocolInitialized batteryIDsAssigned
       discoveredBatteryIDs clock rx_fifo line sent de_pin entropy draws] in H.

(** The machines the sketch runs on: well-formed, and with between one and
    four active batteries once the protocol is initialised. *)
Definition ready (m : Machine) : Prop :=
  wf_machine m /\ (protocolInitialized m = true -> 1 <= activeBatteryCount m <= 4).


(* ===================================================================== *)
(** * Colour coding of the display *)
(* ===================================================================== *)

(** The three colours the helpers return ([TFT_GREEN], [TFT_YELLOW] and
    [TFT_RED] of the display library). *)
Inductive Colour : Type := TFT_GREEN | TFT_YELLOW | TFT_RED.

(** [x >= y] on [double]; false when either side is not a number. *)
Definition dge (x y : double) : bool :=
  match SFcompare x y with
  | Some Gt | Some Eq => true
  | _ => false
  end.

Definition d11_5 : double := Eval vm_compute in dlit 115 10.
Definition d3_0 : double := Eval vm_compute in double_of_int 3.
Definition d2_8 : double := Eval vm_compute in dlit 28 10.

(** The [float] argument is widened to [double] for the comparison with
    the literal. *)
Definition getVoltageColor (voltage : float) : Colour :=
  if dge (double_of_float voltage) d12_0 then TFT_GREEN
  else if dge (double_of_float voltage) d11_5 then TFT_YELLOW
  else TFT_RED.

Definition getSOCColor (soc : Z) : Colour :=
  if 80 <=? soc then TFT_GREEN
  else if 40 <=? soc then TFT_YELLOW
  else TFT_RED.

Definition getCellVoltageColor (cellV : float) : Colour :=
  if dge (double_of_float cellV) d3_0 then TFT_GREEN
  else if dge (double_of_float cellV) d2_8 then TFT_YELLOW
  else TFT_RED.

(** [p] holds of every [k]-bit number with prefix [base]: of the numbers
    from [base * 2^k] up to, not including, [(base + 1) * 2^k]. *)
Fixpoint forall_bits (k : nat) (base : Z) (p : Z -> bool) : bool :=
  match k with
  | O => p base
  | S k' => forall_bits k' (2 * base) p && forall_bits k' (2 * base + 1) p
  end.



(** The colours that thresholds [green] and [yellow] on the raw reading
    give. *)
Definition colour_by_raw (green yellow raw : Z) : Colour :=
  if green <=? raw then TFT_GREEN
  else if yellow <=? raw then TFT_YELLOW
  else TFT_RED.

Definition Colour_eqb (a b : Colour) : bool :=
  match a, b with
  | TFT_GREEN, TFT_GREEN | TFT_YELLOW, TFT_YELLOW | TFT_RED, TFT_RED => true
  | _, _ => false
  end.

(* ===================================================================== *)
(** * The sketch: [setup], [loop], buttons and display scheduling *)
(* ===================================================================== *)

Module Ui.

Definition BUTTON_DEBOUNCE : Z := 50.
Definition POLL_INTERVAL : Z := 5000.

(** Levels of a pin. *)
Definition HIGH : bool := true.
Definition LOW : bool := false.

(** What is put on the display, named after the function that draws it:
    the start-up screen, the notice of a manual scan ("Initializing..."),
    and the four pages of [updateCurrentDisplay].  The text of a page is a
    function of the globals at that time and is not recorded. *)
Inductive Screen : Type :=
  | showStartupScreen
  | Initializing
  | showBatteryData
  | showCellVoltages
  | showSystemInfo
  | showDebugInfo.

(** The globals and function statics of the sketch that are not part of
    [Machine], the two button pins and the display.  [pins k] is what the
    [k]-th pair of [digitalRead]s returns for (BUTTON_1, BUTTON_2). *)
Record Sketch : Type := mkSketch {
  machine : Machine;
  lastUpdate : Z;
  lastButtonCheck : Z;
  displayMode : Z;
  autoUpdate : bool;
  lastButton1State : bool;
  lastButton2State : bool;
  lastButton1Press : Z;
  lastButton2Press : Z;
  lastDisplayUpdate : Z;
  pins : nat -> bool * bool;
  reads : nat;
  screens : list Screen
}.

Definition with_machine (v : Machine) (s : Sketch) : Sketch :=
  mkSketch v (lastUpdate s) (lastButtonCheck s) (displayMode s) (autoUpdate s)
           (lastButton1State s) (lastButton2State s) (lastButton1Press s)
           (lastButton2Press s) (lastDisplayUpdate s) (pins s) (reads s) (screens s).
Definition with_lastUpdate (v : Z) (s : Sketch) : Sketch :=
  mkSketch (machine s) v (lastButtonCheck s) (displayMode s) (autoUpdate s)
           (lastButton1State s) (lastButton2State s) (lastButton1Press s)
           (lastButton2Press s) (lastDisplayUpdate s) (pins s) (reads s) (screens s).
Definition with_lastButtonCheck (v : Z) (s : Sketch) : Sketch :=
  mkSketch (machine s) (lastUpdate s) v (displayMode s) (autoUpdate s)
           (lastButton1State s) (lastButton2State s) (lastButton1Press s)
           (lastButton2Press s) (lastDisplayUpdate s) (pins s) (reads s) (screens s).
Definition with_displayMode (v : Z) (s : Sketch) : Sketch :=
  mkSketch (machine s) (lastUpdate s) (lastButtonCheck s) v (autoUpdate s)
           (lastButton1State s) (lastButton2State s) (lastButton1Press s)
           (lastButton2Press s) (lastDisplayUpdate s) (pins s) (reads s) (screens s).
Definition with_buttonStates (b1 b2 : bool) (s : Sketch) : Sketch :=
  mkSketch (machine s) (lastUpdate s) (lastButtonCheck s) (displayMode s) (autoUpdate s)
           b1 b2 (lastButton1Press s)
           (lastButton2Press s) (lastDisplayUpdate s) (pins s) (reads s) (screens s).
Definition with_lastButton1Press (v : Z) (s : Sketch) : Sketch :=
  mkSketch (machine s) (lastUpdate s) (lastButtonCheck s) (displayMode s) (autoUpdate s)
           (lastButton1State s) (lastButton2State s) v
           (lastButton2Press s) (lastDisplayUpdate s) (pins s) (reads s) (screens s).
Definition with_lastButton2Press (v : Z) (s : Sketch) : Sketch :=
  mkSketch (machine s) (lastUpdate s) (lastButtonCheck s) (displayMode s) (autoUpdate s)
           (lastButton1State s) (lastButton2State s) (lastButton1Press s)
           v (lastDisplayUpdate s) (pins s) (reads s) (screens s).
Definition with_lastDisplayUpdate (v : Z) (s : Sketch) : Sketch :=
  mkSketch (machine s) (lastUpdate s) (lastButtonCheck s) (displayMode s) (autoUpdate s)
           (lastButton1State s) (lastButton2State s) (lastButton1Press s)
           (lastButton2Press s) v (pins s) (reads s) (screens s).
Definition with_reads (v : nat) (s : Sketch) : Sketch :=
  mkSketch (machine s) (lastUpdate s) (lastButtonCheck s) (displayMode s) (autoUpdate s)
           (lastButton1State s) (lastButton2State s) (lastButton1Press s)
           (lastButton2Press s) (lastDisplayUpdate s) (pins s) v (screens s).
Definition draw (v : Screen) (s : Sketch) : Sketch :=
  mkSketch (machine s) (lastUpdate s) (lastButtonCheck s) (displayMode s) (autoUpdate s)
           (lastButton1State s) (lastButton2State s) (lastButton1Press s)
           (lastButton2Press s) (lastDisplayUpdate s) (pins s) (reads s)
           (screens s ++ [v]).

(** How a function of the sketch ends: normally, in a state; with an
    access outside an array; or with its loops unfinished. *)
Inductive result : Type :=
  | Next (s : Sketch)
  | Fault
  | Stuck.

Definition andThen (r : result) (k : Sketch -> result) : result :=
  match r with
  | Next s => k s
  | Fault => Fault
  | Stuck => Stuck
  end.

(** A call of one of the protocol functions. *)
Definition call (c : M unit) (s : Sketch) : result :=
  match c (machine s) with
  | Done _ m' => Next (with_machine m' s)
  | Undefined => Fault
  | Unfinished => Stuck
  end.

(** [millis()] *)
Definition now (s : Sketch) : Z := clock (machine s).

(** [switch (displayMode)]: no page for a mode outside 0..3. *)
Definition page (s : Sketch) : Sketch :=
  if displayMode s =? 0 then draw showBatteryData s
  else if displayMode s =? 1 then draw showCellVoltages s
  else if displayMode s =? 2 then draw showSystemInfo s
  else if displayMode s =? 3 then draw showDebugInfo s
  else s.

Definition updateCurrentDisplay (s : Sketch) : Sketch :=
  if to_u32 (now s - lastDisplayUpdate s) <? 500 then s
  else page (with_lastDisplayUpdate (now s) s).

(** [initializeValenceProtocol()] and [requestBatteryData()] with the
    [updateCurrentDisplay()] that ends them; [requestBatteryData] returns
    before it when the protocol is not initialised. *)
Definition initializeValenceProtocol (s : Sketch) : result :=
  andThen (call initializeValenceProtocol s) (fun s => Next (updateCurrentDisplay s)).

Definition requestBatteryData (s : Sketch) : result :=
  if negb (protocolInitialized (machine s)) then Next s
  else andThen (call requestBatteryData s) (fun s => Next (updateCurrentDisplay s)).

Definition handleButtons (s : Sketch) : result :=
  if to_u32 (now s - lastButtonCheck s) <? BUTTON_DEBOUNCE then Next s
  else
    let s := with_lastButtonCheck (now s) s in
    let button1State := fst (pins s (reads s)) in
    let button2State := snd (pins s (reads s)) in
    let s := with_reads (S (reads s)) s in
    andThen
      (if Bool.eqb (lastButton1State s) HIGH && Bool.eqb button1State LOW then
         if 500 <? to_u32 (now s - lastButton1Press s) then
           let s := draw Initializing s in
           let s := with_machine (with_protocolInitialized false (machine s)) s in
           andThen (initializeValenceProtocol s)
                   (fun s => Next (with_lastButton1Press (now s) s))
         else Next s
       else Next s)
      (fun s =>
         let s :=
           if Bool.eqb (lastButton2State s) HIGH && Bool.eqb button2State LOW then
             if 200 <? to_u32 (now s - lastButton2Press s) then
               let s := with_displayMode (Z.rem (displayMode s + 1) 4) s in
               let s := updateCurrentDisplay s in
               with_lastButton2Press (now s) s
             else s
           else s in
         Next (with_buttonStates button1State button2State s)).

Definition loop (s : Sketch) : result :=
  andThen (handleButtons s) (fun s =>
  andThen
    (if autoUpdate s && (POLL_INTERVAL <? to_u32 (now s - lastUpdate s)) then
       andThen
         (if negb (protocolInitialized (machine s))
          then initializeValenceProtocol s
          else requestBatteryData s)
         (fun s => Next (with_lastUpdate (now s) s))
     else Next s)
    (fun s => call (delay 50) (updateCurrentDisplay s))).

(** The loop of [setup] that resets the slots; [todo] iterations remain. *)
Fixpoint reset_loop (todo : nat) (i : Z) : M unit :=
  if i <? MAX_BATTERIES then
    match todo with
    | O => unfinished
    | S todo' =>
        battery ← load_battery i;
        store_battery i
          (set_batteryID EmptyString (set_lastUpdate 0 (set_valid false battery)));;
        store_batteryIDsAssigned i false;;
        store_discoveredBatteryIDs i EmptyString;;
        reset_loop todo' (i + 1)
    end
  else mret tt.

(** [setup()]; the serial ports and the display are taken as opened, and
    [showStartupScreen] holds the screen for three seconds. *)
Definition setup (s : Sketch) : result :=
  andThen
    (call (when (0 <=? RS485_DE) (digitalWrite_DE false);; reset_loop 4 0) s)
    (fun s => call (delay 3000) (draw showStartupScreen s)).

(** [n] passes through [loop]. *)
Fixpoint loops (n : nat) (s : Sketch) : result :=
  match n with
  | O => Next s
  | S n' => andThen (loop s) (loops n')
  end.

(** The sketch as the board starts it: [setup()] once, then [loop()] over
    and over. *)
Definition run (n : nat) (s : Sketch) : result := andThen (setup s) (loops n).

(** The condition under which [handleButtons] starts a manual scan, and the
    one under which [loop] starts a discovery or polling pass. *)
Definition scan_due (s : Sketch) : bool :=
  negb (to_u32 (now s - lastButtonCheck s) <? BUTTON_DEBOUNCE)
  && Bool.eqb (lastButton1State s) HIGH
  && Bool.eqb (fst (pins s (reads s))) LOW
  && (500 <? to_u32 (now s - lastButton1Press s)).

Definition poll_due (s : Sketch) : bool :=
  autoUpdate s && (POLL_INTERVAL <? to_u32 (now s - lastUpdate s)).

(** What holds between two passes through [loop]. *)
Definition steady (s : Sketch) : Prop :=
  ready (machine s) /\ 0 <= displayMode s <= 3.

(** The globals as the C++ runtime initialises them, on a machine [m]. *)
Definition power_on (m : Machine) (p : nat -> bool * bool) : Sketch :=
  mkSketch m 0 0 0 true HIGH HIGH 0 0 0 p 0 [].

End Ui.

Ltac ui_fields :=
  unfold Ui.now;
  cbn [Ui.machine Ui.lastUpdate Ui.lastButtonCheck Ui.displayMode Ui.autoUpdate
       Ui.lastButton1State Ui.lastButton2State Ui.lastButton1Press Ui.lastButton2Press
       Ui.lastDisplayUpdate Ui.pins Ui.reads Ui.screens
       Ui.with_machine Ui.with_lastUpdate Ui.with_lastButtonCheck Ui.with_displayMode
       Ui.with_buttonStates Ui.with_lastButton1Press Ui.with_lastButton2Press
       Ui.with_lastDisplayUpdate Ui.with_reads Ui.draw Ui.andThen].

Ltac ui_fields_in H :=
  unfold Ui.now in H;
  cbn [Ui.machine Ui.lastUpdate Ui.lastButtonCheck Ui.displayMode Ui.autoUpdate
       Ui.lastButton1State Ui.lastButton2State Ui.lastButton1Press Ui.lastButton2Press
       Ui.lastDisplayUpdate Ui.pins Ui.reads Ui.screens
       Ui.with_machine Ui.with_lastUpdate Ui.with_lastButtonCheck Ui.with_displayMode
       Ui.with_buttonStates Ui.with_lastButton1Press Ui.with_lastButton2Press
       Ui.with_lastDisplayUpdate Ui.with_reads Ui.draw Ui.andThen] in H.

Module Sample_ui.

(** Nobody touches the buttons. *)
Definition released : nat -> bool * bool := fun _ => (true, true).

(** Button 1 is held down from the start. *)
Definition scan_pressed : nat -> bool * bool := fun _ => (false, true).

(** Button 2 is held down from the start. *)
Definition mode_pressed : nat -> bool * bool := fun _ => (true, false).

Definition fresh : Ui.Sketch := Ui.power_on (Sample.boot []) released.

(** Between two passes, after a discovery that found one battery. *)
Definition settled (p : nat -> bool * bool) : Ui.Sketch :=
  Ui.mkSketch (Sample.polled []) 4000 4950 0 true true true 0 0 4950 p 0 [].

End Sample_ui.
(* ===================================================================== *)
(** * Bytes and fixed-width integers *)
(* ===================================================================== *)

Lemma u8_range (b : byte) : 0 <= u8 b < 256.
Proof.
  unfold u8. pose proof (Byte.to_N_bounded b) as H.
  split; [apply N2Z.is_nonneg | ].
  apply N.le_lteq in H. lia.
Qed.

Lemma to_byte_u8 (b : byte) : to_byte (u8 b) = b.
Proof.
  unfold to_byte. pose proof (u8_range b) as H.
  rewrite Z.mod_small by exact H.
  unfold u8. rewrite N2Z.id, Byte.of_to_N. reflexivity.
Qed.

Lemma u8_to_byte (z : Z) : u8 (to_byte z) = z mod 256.
Proof.
  unfold to_byte, u8.
  assert (Hr : 0 <= z mod 256 < 256) by (apply Z.mod_pos_bound; lia).
  destruct (Byte.of_N (Z.to_N (z mod 256))) as [b|] eqn:E.
  - apply Byte.to_of_N in E. rewrite E. rewrite Z2N.id; lia.
  - exfalso.
    assert (Hn : (Z.to_N (z mod 256) <= 255)%N) by lia.
    pose proof (Byte.to_of_N_option_map (Z.to_N (z mod 256))) as Hm.
    rewrite E in Hm. apply N.leb_le in Hn. rewrite Hn in Hm. discriminate.
Qed.

Lemma lxor_range (a b n : Z) :
  0 <= n -> 0 <= a < 2 ^ n -> 0 <= b < 2 ^ n -> 0 <= Z.lxor a b < 2 ^ n.
Proof.
  intros Hn Ha Hb.
  assert (H0 : 0 <= Z.lxor a b) by (apply Z.lxor_nonneg; lia).
  split; [exact H0 | ].
  destruct (Z.eq_dec (Z.lxor a b) 0) as [E|E]; [rewrite E; lia | ].
  assert (Hpos : 0 < n).
  { destruct (Z.eq_dec n 0) as [->|]; [ | lia].
    exfalso. apply E. replace a with 0 by lia. replace b with 0 by lia. reflexivity. }
  apply Z.log2_lt_pow2; [lia | ].
  eapply Z.le_lt_trans; [apply Z.log2_lxor; lia | ].
  apply Z.max_lub_lt.
  - destruct (Z.eq_dec a 0) as [->|]; [simpl; lia | apply Z.log2_lt_pow2; lia].
  - destruct (Z.eq_dec b 0) as [->|]; [simpl; lia | apply Z.log2_lt_pow2; lia].
Qed.

Lemma shl8_or_eq (hi lo : byte) : shl8_or hi lo = u8 lo + 256 * u8 hi.
Proof.
  unfold shl8_or.
  pose proof (u8_range hi) as Hh. pose proof (u8_range lo) as Hl.
  rewrite Z.shiftl_mul_pow2 by lia. change (2 ^ 8) with 256.
  pose proof (Z.add_lor_land (u8 hi * 256) (u8 lo)) as Hsum.
  assert (E : Z.land (u8 hi * 256) (u8 lo) = 0).
  { apply Z.bits_inj'. intros n Hn.
    rewrite Z.land_spec, Z.bits_0.
    destruct (Z.lt_ge_cases n 8) as [Hlt|Hge].
    - change 256 with (2 ^ 8). rewrite Z.mul_pow2_bits_low by lia. reflexivity.
    - assert (Z.testbit (u8 lo) n = false) as ->; [ | apply andb_false_r].
      destruct (Z.eq_dec (u8 lo) 0) as [->|Hne]; [apply Z.bits_0 | ].
      apply Z.bits_above_log2; [lia | ].
      assert (Z.log2 (u8 lo) < 8) by (apply Z.log2_lt_pow2; lia). lia. }
  rewrite E in Hsum. lia.
Qed.

Lemma shl8_or_range (hi lo : byte) : 0 <= shl8_or hi lo < 65536.
Proof.
  rewrite shl8_or_eq.
  pose proof (u8_range hi). pose proof (u8_range lo). lia.
Qed.

Lemma to_u16_small (z : Z) : 0 <= z < 65536 -> to_u16 z = z.
Proof. intros H. unfold to_u16. apply Z.mod_small. exact H. Qed.

Lemma to_u16_shl8_or (hi lo : byte) (data : list byte) (off : Z) :
  lo = at_ data off -> hi = at_ data (off + 1) ->
  to_u16 (shl8_or hi lo) = le_u16 data off.
Proof.
  intros -> ->. rewrite to_u16_small by apply shl8_or_range.
  rewrite shl8_or_eq. reflexivity.
Qed.

Lemma to_i16_shl8_or (hi lo : byte) (data : list byte) (off : Z) :
  lo = at_ data off -> hi = at_ data (off + 1) ->
  to_i16 (shl8_or hi lo) = le_i16 data off.
Proof.
  intros -> ->. unfold to_i16, le_i16.
  rewrite Z.mod_small by apply shl8_or_range.
  rewrite shl8_or_eq. reflexivity.
Qed.

Lemma to_i8_u8 (b : byte) : to_i8 (u8 b) = s8 b.
Proof.
  unfold to_i8, s8. rewrite Z.mod_small by apply u8_range. reflexivity.
Qed.

Lemma at_lookup (data : list byte) (k : nat) (b : byte) :
  data !! k = Some b -> at_ data (Z.of_nat k) = b.
Proof.
  intros H. unfold at_. rewrite Nat2Z.id.
  rewrite nth_lookup, H. reflexivity.
Qed.

(* ===================================================================== *)
(** * CRC engine: the loops compute the MODBUS CRC-16 *)
(* ===================================================================== *)

Lemma crc16_step_range (crc : Z) : 0 <= crc < 65536 -> 0 <= crc16_step crc < 65536.
Proof.
  intros H. unfold crc16_step.
  assert (Hd : 0 <= crc / 2 < 65536).
  { split; [apply Z.div_pos; lia | apply Z.div_lt_upper_bound; lia]. }
  destruct (Z.odd crc); [ | exact Hd].
  apply (lxor_range _ _ 16); [lia | exact Hd | lia].
Qed.

Lemma crc_shift_step (crc : Z) : 0 <= crc < 65536 -> crc_shift crc = crc16_step crc.
Proof.
  intros H. pose proof (crc16_step_range crc H) as Hr.
  unfold crc_shift, crc16_step in *.
  rewrite Z.shiftr_div_pow2 by lia. change (2 ^ 1) with 2.
  change 1 with (Z.ones 1) at 1. rewrite Z.land_ones by lia.
  change (2 ^ 1) with 2. rewrite Zmod_odd.
  destruct (Z.odd crc); simpl; apply to_u16_small; exact Hr.
Qed.

Lemma iter_crc16_step_range (n : nat) (crc : Z) :
  0 <= crc < 65536 -> 0 <= Nat.iter n crc16_step crc < 65536.
Proof.
  intros H. induction n as [|n IH]; simpl; [exact H | ].
  apply crc16_step_range. exact IH.
Qed.

Lemma crc_inner_iter (n : nat) (crc : Z) :
  0 <= crc < 65536 -> crc_inner n crc = Nat.iter n crc16_step crc.
Proof.
  revert crc. induction n as [|n IH]; intros crc H; [reflexivity | ].
  cbn [crc_inner]. rewrite crc_shift_step by exact H.
  rewrite IH by (apply crc16_step_range; exact H).
  rewrite <- Nat.iter_succ_r. reflexivity.
Qed.

Lemma crc16_byte_range (crc : Z) (b : byte) :
  0 <= crc < 65536 -> 0 <= crc16_byte crc b < 65536.
Proof.
  intros H. unfold crc16_byte. apply iter_crc16_step_range.
  pose proof (u8_range b). apply (lxor_range _ _ 16); lia.
Qed.

Lemma fold_crc16_byte_range (bytes : list byte) (crc : Z) :
  0 <= crc < 65536 -> 0 <= fold_left crc16_byte bytes crc < 65536.
Proof.
  revert crc. induction bytes as [|b bytes IH]; intros crc H; simpl; [exact H | ].
  apply IH. apply crc16_byte_range. exact H.
Qed.

Lemma crc16_range (bytes : list byte) : 0 <= crc16 bytes < 65536.
Proof. apply fold_crc16_byte_range. lia. Qed.

Lemma crc_outer_fold (data : list byte) (todo k : nat) (crc : Z) :
  (k + todo <= length data)%nat -> 0 <= crc < 65536 ->
  crc_outer data todo (Z.of_nat k) crc
  = fold_left crc16_byte (take todo (drop k data)) crc.
Proof.
  revert k crc. induction todo as [|todo IH]; intros k crc Hlen Hc; [reflexivity | ].
  assert (Hk : (k < length data)%nat) by lia.
  destruct (lookup_lt_is_Some_2 data k Hk) as [b Hb].
  rewrite (drop_S _ _ _ Hb). cbn [crc_outer take fold_left].
  rewrite (at_lookup _ _ _ Hb).
  assert (Hx : 0 <= Z.lxor crc (u8 b) < 65536).
  { pose proof (u8_range b). apply (lxor_range _ _ 16); lia. }
  rewrite to_u16_small by exact Hx.
  rewrite crc_inner_iter by exact Hx.
  replace (Z.of_nat k + 1) with (Z.of_nat (S k)) by lia.
  rewrite IH; [reflexivity | lia | ].
  apply iter_crc16_step_range. exact Hx.
Qed.

Lemma calculateModbusCRC_prefix (data : list byte) (n : nat) :
  (n <= length data)%nat ->
  calculateModbusCRC data (Z.of_nat n) = crc16 (take n data).
Proof.
  intros H. unfold calculateModbusCRC, crc16. rewrite Nat2Z.id.
  apply (crc_outer_fold data n 0); [lia | lia].
Qed.

Lemma calculateModbusCRC_crc16 (data : list byte) :
  calculateModbusCRC data (Z.of_nat (length data)) = crc16 data.
Proof.
  rewrite calculateModbusCRC_prefix by lia. rewrite firstn_all. reflexivity.
Qed.

(** A seven-byte frame completed the way the sketch does it ends with the
    CRC of its first five bytes, low byte first. *)
Lemma crc_bytes_value (crc : Z) :
  0 <= crc < 65536 ->
  u8 (to_byte (Z.land crc 0xFF)) + 256 * u8 (to_byte (Z.land (Z.shiftr crc 8) 0xFF)) = crc.
Proof.
  intros H. rewrite !u8_to_byte.
  change 0xFF with (Z.ones 8). rewrite !Z.land_ones by lia.
  rewrite Z.shiftr_div_pow2 by lia. change (2 ^ 8) with 256.
  rewrite !Z.mod_mod by lia.
  rewrite (Z.mod_small (crc / 256)).
  - pose proof (Z.div_mod crc 256 ltac:(lia)). lia.
  - split; [apply Z.div_pos; lia | apply Z.div_lt_upper_bound; lia].
Qed.

Lemma seven_byte_frame (b0 b1 b2 b3 b4 : byte) (crc : Z) :
  crc = calculateModbusCRC [b0; b1; b2; b3; b4; x00; x00] (7 - 2) ->
  crc_terminated
    [b0; b1; b2; b3; b4; to_byte (Z.land crc 0xFF); to_byte (Z.land (Z.shiftr crc 8) 0xFF)].
Proof.
  intros Hcrc.
  exists [b0; b1; b2; b3; b4], (to_byte (Z.land crc 0xFF)),
         (to_byte (Z.land (Z.shiftr crc 8) 0xFF)).
  split; [reflexivity | ].
  assert (E : crc = crc16 [b0; b1; b2; b3; b4]).
  { rewrite Hcrc. change (7 - 2) with (Z.of_nat 5).
    rewrite calculateModbusCRC_prefix by (cbn [length]; lia). reflexivity. }
  rewrite <- E. apply crc_bytes_value. rewrite E. apply crc16_range.
Qed.

Lemma pollMsg_eq (batteryAddr : Z) :
  pollMsg batteryAddr
  = [xff; x50; x06; x00; to_byte batteryAddr;
     to_byte (Z.land (calculateModbusCRC
                        [xff; x50; x06; x00; to_byte batteryAddr; x00; x00] (7 - 2)) 0xFF);
     to_byte (Z.land (Z.shiftr (calculateModbusCRC
                        [xff; x50; x06; x00; to_byte batteryAddr; x00; x00] (7 - 2)) 8) 0xFF)].
Proof. reflexivity. Qed.

Lemma dataRequest_eq (batteryIndex : Z) :
  dataRequest batteryIndex
  = [xff; x61; x06; to_byte batteryIndex; x00;
     to_byte (Z.land (calculateModbusCRC
                        [xff; x61; x06; to_byte batteryIndex; x00; x00; x00] (7 - 2)) 0xFF);
     to_byte (Z.land (Z.shiftr (calculateModbusCRC
                        [xff; x61; x06; to_byte batteryIndex; x00; x00; x00] (7 - 2)) 8) 0xFF)].
Proof. reflexivity. Qed.

Lemma pollMsg_terminated (batteryAddr : Z) : crc_terminated (pollMsg batteryAddr).
Proof. rewrite pollMsg_eq. apply seven_byte_frame. reflexivity. Qed.

Lemma dataRequest_terminated (batteryIndex : Z) : crc_terminated (dataRequest batteryIndex).
Proof. rewrite dataRequest_eq. apply seven_byte_frame. reflexivity. Qed.

Lemma wakeup_terminated : crc_terminated [xff; x43; x06; x06; x42; x46].
Proof.
  exists [xff; x43; x06; x06], x42, x46. split; reflexivity.
Qed.

(* ===================================================================== *)
(** * Running the monad *)
(* ===================================================================== *)

Lemma bind_run {A B : Type} (c : M A) (k : A -> M B) (m : Machine) :
  (c ≫= k) m = match c m with
               | Done a m' => k a m'
               | Undefined => Undefined
               | Unfinished => Unfinished
               end.
Proof. reflexivity. Qed.

Lemma bind_done {A B : Type} (c : M A) (k : A -> M B) (m m1 : Machine) (a : A) :
  c m = Done a m1 -> (c ≫= k) m = k a m1.
Proof. intros H. rewrite bind_run, H. reflexivity. Qed.

Lemma bind_inv {A B : Type} (c : M A) (k : A -> M B) (m m' : Machine) (b : B) :
  (c ≫= k) m = Done b m' ->
  exists a m1, c m = Done a m1 /\ k a m1 = Done b m'.
Proof.
  rewrite bind_run. destruct (c m) as [a m1| | ]; [ | discriminate | discriminate].
  intros H. exists a, m1. split; [reflexivity | exact H].
Qed.

(* ===================================================================== *)
(** * Hardware: time, FIFO, line *)
(* ===================================================================== *)

Lemma hd_tl_drop (ln : list (list byte)) (n : nat) :
  concat (take n ln) ++ hd [] (drop n ln) = concat (take (S n) ln)
  /\ tl (drop n ln) = drop (S n) ln.
Proof.
  destruct (ln !! n) as [x|] eqn:E.
  - rewrite (drop_S _ _ _ E). simpl.
    rewrite (take_S_r _ _ _ E), concat_app. simpl. rewrite app_nil_r. split; reflexivity.
  - apply lookup_ge_None in E.
    rewrite !drop_ge by lia. rewrite !take_ge by lia.
    simpl. rewrite app_nil_r. split; reflexivity.
Qed.

Lemma ticks_eq (n : nat) (m : Machine) :
  Nat.iter n tick m
  = with_time (clock_after n (clock m))
              (rx_fifo m ++ concat (take n (line m)))
              (drop n (line m)) m.
Proof.
  induction n as [|n IH].
  - destruct m. unfold with_time. simpl. rewrite app_nil_r. reflexivity.
  - change (Nat.iter (S n) tick m) with (tick (Nat.iter n tick m)).
    change (clock_after (S n) (clock m)) with (to_u32 (clock_after n (clock m) + 1)).
    rewrite IH. unfold tick, with_time. cbn [clock rx_fifo line batteries
      activeBatteryCount protocolInitialized batteryIDsAssigned discoveredBatteryIDs
      sent de_pin entropy draws].
    destruct (hd_tl_drop (line m) n) as [H1 H2].
    rewrite <- app_assoc, H1, H2. reflexivity.
Qed.

Lemma clock_after_range (n : nat) (c : Z) :
  0 <= c < 4294967296 -> 0 <= clock_after n c < 4294967296.
Proof.
  intros H. induction n as [|n IH]; [exact H | ].
  change (clock_after (S n) c) with (to_u32 (clock_after n c + 1)).
  unfold to_u32. apply Z.mod_pos_bound. lia.
Qed.

Lemma delay_eq (ms : Z) (m : Machine) :
  delay ms m
  = Done tt (with_time (clock_after (Z.to_nat ms) (clock m))
                       (rx_fifo m ++ concat (take (Z.to_nat ms) (line m)))
                       (drop (Z.to_nat ms) (line m)) m).
Proof. unfold delay, modify. rewrite ticks_eq. reflexivity. Qed.

Lemma drain_loop_eq (todo : nat) (m : Machine) :
  (length (rx_fifo m) <= todo)%nat ->
  drain_loop todo m = Done tt (with_rx_fifo [] m).
Proof.
  revert m. induction todo as [|todo IH]; intros m H.
  - destruct m as [? ? ? ? ? ? rx ? ? ? ? ?]. simpl in H.
    destruct rx; [reflexivity | simpl in H; lia].
  - destruct m as [? ? ? ? ? ? rx ? ? ? ? ?]. destruct rx as [|b rx]; [reflexivity | ].
    cbn [drain_loop]. rewrite bind_run. unfold Serial2_available, gets.
    cbn [rx_fifo length]. rewrite Nat2Z.inj_succ.
    destruct (Z.eqb_spec (Z.succ (Z.of_nat (length rx))) 0) as [E|_]; [lia | ].
    cbn [negb]. rewrite bind_run. unfold Serial2_read. cbn [rx_fifo].
    rewrite IH by (simpl in *; lia). reflexivity.
Qed.

Lemma drain_eq (m : Machine) : drain m = Done tt (with_rx_fifo [] m).
Proof.
  unfold drain. rewrite bind_run. unfold Serial2_available, gets.
  rewrite Nat2Z.id. apply drain_loop_eq. lia.
Qed.

Lemma read_available_eq (todo : nat) (response : list byte) (m : Machine) :
  (length response + todo = 64)%nat ->
  read_available todo response m
  = Done (response ++ take todo (rx_fifo m))
         (with_rx_fifo (drop todo (rx_fifo m)) m).
Proof.
  revert response m. induction todo as [|todo IH]; intros response m H.
  - cbn [read_available]. rewrite bind_run. unfold Serial2_available, gets.
    replace (Z.of_nat (length response) <? 64) with false by (symmetry; apply Z.ltb_ge; lia).
    rewrite andb_false_r. rewrite take_0, app_nil_r, drop_0.
    destruct m; reflexivity.
  - destruct m as [? ? ? ? ? ? rx ? ? ? ? ?]. destruct rx as [|b rx].
    + cbn [read_available]. rewrite bind_run. unfold Serial2_available, gets.
      cbn [rx_fifo length take drop]. rewrite app_nil_r. reflexivity.
    + cbn [read_available]. rewrite bind_run. unfold Serial2_available, gets.
      cbn [rx_fifo length]. rewrite Nat2Z.inj_succ.
      destruct (Z.eqb_spec (Z.succ (Z.of_nat (length rx))) 0) as [E|_]; [lia | ].
      replace (Z.of_nat (length response) <? 64) with true by (symmetry; apply Z.ltb_lt; lia).
      cbn [negb andb]. rewrite bind_run. unfold Serial2_read. cbn [rx_fifo].
      rewrite to_byte_u8. rewrite IH by (rewrite length_app; simpl; lia).
      cbn [rx_fifo take drop with_rx_fifo]. rewrite <- app_assoc. reflexivity.
Qed.

(* ===================================================================== *)
(** * Frame decoder *)
(* ===================================================================== *)

Lemma cell_loop_other (data : list byte) (len : Z) (todo : nat) (i : Z) (b : BatteryData) :
  let b' := cell_loop data len todo i b in
  voltage b' = voltage b /\ current b' = current b /\ power b' = power b /\
  soc b' = soc b /\ temperature b' = temperature b /\ current2 b' = current2 b /\
  cycles b' = cycles b /\ valid b' = valid b /\ lastUpdate b' = lastUpdate b /\
  batteryID b' = batteryID b /\ length (cellVoltages b') = length (cellVoltages b).
Proof.
  revert i b. induction todo as [|todo IH]; intros i b; cbn [cell_loop].
  - repeat split.
  - destruct ((i <? 6) && (20 + i * 2 + 1 <? len)); [ | repeat split].
    cbv zeta in IH |- *.
    destruct (IH (i + 1)
      (set_cellVoltages
         (<[Z.to_nat i := float_of_double
              (dmul (double_of_int (to_u16 (shl8_or (at_ data (21 + i * 2))
                                                   (at_ data (20 + i * 2))))) d0_001)]>
            (cellVoltages b)) b))
      as (H1 & H2 & H3 & H4 & H5 & H6 & H7 & H8 & H9 & H10 & H11).
    rewrite H1, H2, H3, H4, H5, H6, H7, H8, H9, H10, H11.
    cbn [set_cellVoltages voltage current power soc temperature current2 cycles valid
         lastUpdate batteryID cellVoltages].
    rewrite length_insert. repeat split.
Qed.

(** Cell [k] after the cell loop started at index [j]: decoded when the loop
    reaches it and its two bytes lie inside the buffer, untouched otherwise. *)
Lemma cell_loop_cell (data : list byte) (len : Z) (todo j k : nat) (b : BatteryData) :
  length (cellVoltages b) = 6%nat ->
  cellVoltages (cell_loop data len todo (Z.of_nat j) b) !! k
  = if (j <=? k)%nat && (k <? j + todo)%nat && (k <? 6)%nat
       && (21 + 2 * Z.of_nat k <? len)
    then Some (milli (le_u16 data (20 + 2 * Z.of_nat k)))
    else cellVoltages b !! k.
Proof.
  revert j b. induction todo as [|todo IH]; intros j b Hlen; cbn [cell_loop].
  - replace ((j <=? k)%nat && (k <? j + 0)%nat) with false; [reflexivity | ].
    symmetry. apply andb_false_iff.
    destruct (Nat.leb_spec j k); [right; apply Nat.ltb_ge; lia | left; reflexivity].
  - destruct (Z.ltb_spec (Z.of_nat j) 6) as [Hj6|Hj6];
      destruct (Z.ltb_spec (20 + Z.of_nat j * 2 + 1) len) as [Hjl|Hjl]; cbn [andb].
    + replace (Z.of_nat j + 1) with (Z.of_nat (S j)) by lia.
      rewrite IH by (cbn [set_cellVoltages cellVoltages]; rewrite length_insert; exact Hlen).
      cbn [set_cellVoltages cellVoltages]. rewrite Nat2Z.id.
      destruct (Nat.eq_dec j k) as [->|Hne].
      * rewrite list_lookup_insert_eq by lia.
        replace ((S k <=? k)%nat) with false by (symmetry; apply Nat.leb_gt; lia).
        cbn [andb].
        replace ((k <=? k)%nat) with true by (symmetry; apply Nat.leb_le; lia).
        replace ((k <? k + S todo)%nat) with true by (symmetry; apply Nat.ltb_lt; lia).
        replace ((k <? 6)%nat) with true by (symmetry; apply Nat.ltb_lt; lia).
        replace (21 + 2 * Z.of_nat k <? len) with true by (symmetry; apply Z.ltb_lt; lia).
        cbn [andb]. unfold milli. f_equal. f_equal. f_equal. f_equal.
        apply to_u16_shl8_or; f_equal; lia.
      * rewrite list_lookup_insert_ne by exact Hne.
        destruct (Nat.leb_spec (S j) k) as [H1|H1];
          destruct (Nat.leb_spec j k) as [H2|H2]; try lia; cbn [andb]; [ | reflexivity].
        replace ((k <? S j + todo)%nat) with ((k <? j + S todo)%nat); [reflexivity | ].
        f_equal. lia.
    + (* the buffer ends before cell j: later cells are outside as well *)
      destruct (Nat.leb_spec j k) as [H2|H2]; cbn [andb]; [ | reflexivity].
      replace (21 + 2 * Z.of_nat k <? len) with false by (symmetry; apply Z.ltb_ge; lia).
      rewrite !andb_false_r. reflexivity.
    + destruct (Nat.leb_spec j k) as [H2|H2]; cbn [andb]; [ | reflexivity].
      replace ((k <? 6)%nat) with false by (symmetry; apply Nat.ltb_ge; lia).
      rewrite !andb_false_r. reflexivity.
    + destruct (Nat.leb_spec j k) as [H2|H2]; cbn [andb]; [ | reflexivity].
      replace ((k <? 6)%nat) with false by (symmetry; apply Nat.ltb_ge; lia).
      rewrite !andb_false_r. reflexivity.
Qed.

Lemma decode_fields_main (data : list byte) (len : Z) (b : BatteryData) :
  20 <= len ->
  let b' := decode_fields data len b in
  voltage b' = centi (le_u16 data 10) /\
  current b' = deci (le_i16 data 12) /\
  soc b' = u8 (at_ data 15) /\
  temperature b' = float_of_int (s8 (at_ data 16)) /\
  power b' = fmul (voltage b') (fabs (current b')) /\
  valid b' = true /\
  cycles b' = cycles b /\ batteryID b' = batteryID b /\ lastUpdate b' = lastUpdate b.
Proof.
  intros Hlen. unfold decode_fields.
  replace (15 <? len) with true by (symmetry; apply Z.ltb_lt; lia).
  replace (16 <? len) with true by (symmetry; apply Z.ltb_lt; lia).
  rewrite (to_u16_shl8_or (at_ data 11) (at_ data 10) data 10) by reflexivity.
  rewrite (to_i16_shl8_or (at_ data 13) (at_ data 12) data 12) by reflexivity.
  rewrite to_i8_u8.
  set (b1 := set_temperature _ _).
  pose proof (cell_loop_other data len 6 0 b1) as Hc. cbv zeta in Hc.
  destruct Hc as (H1 & H2 & H3 & H4 & H5 & H6 & H7 & H8 & H9 & H10 & H11).
  destruct (30 <? len); destruct (35 <? len);
    cbn [set_valid set_power set_current2 voltage current power soc temperature
         current2 cycles valid lastUpdate batteryID];
    rewrite ?H1, ?H2, ?H4, ?H5, ?H7, ?H9, ?H10; subst b1;
    cbn [set_temperature set_soc set_current set_voltage voltage current power soc
         temperature current2 cycles valid lastUpdate batteryID];
    repeat split.
Qed.

Lemma decode_fields_cell (data : list byte) (len : Z) (b : BatteryData) (k : nat) :
  length (cellVoltages b) = 6%nat ->
  cellVoltages (decode_fields data len b) !! k
  = if (30 <? len) && (k <? 6)%nat && (21 + 2 * Z.of_nat k <? len)
    then Some (milli (le_u16 data (20 + 2 * Z.of_nat k)))
    else cellVoltages b !! k.
Proof.
  intros Hlen. unfold decode_fields.
  destruct (15 <? len); destruct (16 <? len); destruct (30 <? len); destruct (35 <? len);
    battery_fields; cbn [andb]; try reflexivity;
    change 0 with (Z.of_nat 0); rewrite cell_loop_cell by (battery_fields; exact Hlen);
    battery_fields; cbn [Nat.leb Nat.add andb];
    destruct (k <? 6)%nat; reflexivity.
Qed.

Lemma decode_fields_current2 (data : list byte) (len : Z) (b : BatteryData) :
  current2 (decode_fields data len b)
  = if 35 <? len then deci (le_i16 data 34) else current2 b.
Proof.
  unfold decode_fields.
  destruct (15 <? len); destruct (16 <? len); destruct (30 <? len); destruct (35 <? len);
    battery_fields;
    try (unfold deci;
         rewrite (to_i16_shl8_or (at_ data 35) (at_ data 34) data 34) by reflexivity;
         reflexivity);
    try reflexivity;
    match goal with
    | |- current2 (cell_loop ?d ?l ?t ?i ?x) = _ =>
        pose proof (cell_loop_other d l t i x) as Hc; cbv zeta in Hc;
        destruct Hc as (_ & _ & _ & _ & _ & H6 & _); rewrite H6; reflexivity
    end.
Qed.

(** The decoder on a frame it accepts, as one equation. *)
Lemma parse_accepts (data : list byte) (len batteryIndex : Z) (m : Machine)
      (old : BatteryData) :
  20 <= len -> u8 (at_ data 0) = 0xFF -> 0 <= batteryIndex < MAX_BATTERIES ->
  batteries m !! Z.to_nat batteryIndex = Some old ->
  parseValenceBatteryData data len batteryIndex m
  = Done true
         (with_batteries
            (<[Z.to_nat batteryIndex := set_lastUpdate (clock m) (decode_fields data len old)]>
               (batteries m)) m).
Proof.
  intros Hlen Hff Hidx Hold. unfold parseValenceBatteryData, MAX_BATTERIES in *.
  replace (len <? 20) with false by (symmetry; apply Z.ltb_ge; lia).
  replace (4 <=? batteryIndex) with false by (symmetry; apply Z.leb_gt; lia).
  rewrite Hff. cbn [orb negb Z.eqb Pos.eqb].
  rewrite bind_run. unfold load_battery.
  replace (batteryIndex <? 0) with false by (symmetry; apply Z.ltb_ge; lia).
  rewrite Hold. rewrite bind_run. unfold millis, gets.
  rewrite bind_run. unfold store_battery.
  apply lookup_lt_Some in Hold.
  replace (0 <=? batteryIndex) with true by (symmetry; apply Z.leb_le; lia).
  replace (batteryIndex <? Z.of_nat (length (batteries m))) with true
    by (symmetry; apply Z.ltb_lt; lia).
  reflexivity.
Qed.

Lemma parse_rejects (data : list byte) (len batteryIndex : Z) (m : Machine) :
  len < 20 \/ MAX_BATTERIES <= batteryIndex \/ u8 (at_ data 0) <> 0xFF ->
  parseValenceBatteryData data len batteryIndex m = Done false m.
Proof.
  intros H. unfold parseValenceBatteryData.
  destruct (Z.ltb_spec len 20) as [|H1]; [reflexivity | ].
  destruct (Z.leb_spec MAX_BATTERIES batteryIndex) as [|H2]; [reflexivity | ].
  cbn [orb]. destruct (Z.eqb_spec (u8 (at_ data 0)) 0xFF) as [H3|H3]; [ | reflexivity].
  exfalso. destruct H as [H|[H|H]]; [lia | lia | apply H; exact H3].
Qed.

(** ** C1 *)

(** C1.  For every buffer of at least 20 bytes whose first byte is 0xFF and
    every slot index in range, the decoder returns success and leaves in the
    slot: voltage = the unsigned little-endian 16-bit value at offsets 10-11
    times 0.01, current = the signed little-endian 16-bit value at offsets
    12-13 times 0.1, stateOfCharge = the byte at offset 15, temperature = the
    signed byte at offset 16, power = voltage times |current|, valid = true
    and the timestamp = the current time. *)
Theorem decoder_fills_slot (data : list byte) (batteryIndex : Z) (m : Machine) :
  20 <= Z.of_nat (length data) ->
  u8 (at_ data 0) = 0xFF ->
  0 <= batteryIndex < MAX_BATTERIES ->
  length (batteries m) = 4%nat ->
  exists (m' : Machine) (b' : BatteryData),
    parseValenceBatteryData data (Z.of_nat (length data)) batteryIndex m = Done true m' /\
    batteries m' !! Z.to_nat batteryIndex = Some b' /\
    voltage b' = centi (le_u16 data 10) /\
    current b' = deci (le_i16 data 12) /\
    soc b' = u8 (at_ data 15) /\
    temperature b' = float_of_int (s8 (at_ data 16)) /\
    power b' = fmul (voltage b') (fabs (current b')) /\
    valid b' = true /\
    lastUpdate b' = clock m.
Proof.
  intros Hlen Hff Hidx Hsize. unfold MAX_BATTERIES in Hidx.
  assert (Hlt : (Z.to_nat batteryIndex < length (batteries m))%nat) by lia.
  destruct (lookup_lt_is_Some_2 _ _ Hlt) as [old Hold].
  eexists. eexists. split.
  { apply (parse_accepts data _ batteryIndex m old); [exact Hlen | exact Hff | | exact Hold].
    unfold MAX_BATTERIES. lia. }
  split.
  { cbn [with_batteries batteries]. apply list_lookup_insert_eq. exact Hlt. }
  pose proof (decode_fields_main data (Z.of_nat (length data)) old Hlen) as Hd.
  cbv zeta in Hd. destruct Hd as (H1 & H2 & H3 & H4 & H5 & H6 & _).
  cbn [set_lastUpdate voltage current power soc temperature valid lastUpdate].
  repeat split; assumption.
Qed.

Lemma decoder_fills_slot_witness :
  20 <= Z.of_nat (length Sample.frame20) /\
  u8 (at_ Sample.frame20 0) = 0xFF /\
  0 <= 2 < MAX_BATTERIES /\
  length (batteries (Sample.boot [])) = 4%nat /\
  exists (m' : Machine) (b' : BatteryData),
    parseValenceBatteryData Sample.frame20 (Z.of_nat (length Sample.frame20)) 2
                            (Sample.boot []) = Done true m' /\
    batteries m' !! Z.to_nat 2 = Some b' /\
    voltage b' = centi (le_u16 Sample.frame20 10) /\
    current b' = deci (le_i16 Sample.frame20 12) /\
    soc b' = u8 (at_ Sample.frame20 15) /\
    temperature b' = float_of_int (s8 (at_ Sample.frame20 16)) /\
    power b' = fmul (voltage b') (fabs (current b')) /\
    valid b' = true /\
    lastUpdate b' = clock (Sample.boot []).
Proof.
  assert (H1 : 20 <= Z.of_nat (length Sample.frame20)) by (vm_compute; discriminate).
  assert (H2 : u8 (at_ Sample.frame20 0) = 0xFF) by reflexivity.
  assert (H3 : 0 <= 2 < MAX_BATTERIES) by (unfold MAX_BATTERIES; lia).
  assert (H4 : length (batteries (Sample.boot [])) = 4%nat) by reflexivity.
  split; [exact H1 | ]. split; [exact H2 | ]. split; [exact H3 | ]. split; [exact H4 | ].
  exact (decoder_fills_slot Sample.frame20 2 (Sample.boot []) H1 H2 H3 H4).
Defined.

(** The scenario of the design document: 0x1388 at 10-11 is 50.00 V, 0x0050 at
    12-13 is 8.0 A, 0x64 is 100 %, 0x17 is 23 degrees, and the power 400 W. *)
Example decoder_scenario :
  centi (le_u16 Sample.frame20 10) = float_of_int 50 /\
  deci (le_i16 Sample.frame20 12) = float_of_int 8 /\
  u8 (at_ Sample.frame20 15) = 100 /\
  s8 (at_ Sample.frame20 16) = 23 /\
  fmul (float_of_int 50) (fabs (float_of_int 8)) = float_of_int 400.
Proof. vm_compute. repeat split. Qed.

(** ** C2 *)

(** C2, as the code has it.  For every buffer, every slot index and every
    machine, the decoder returns failure and leaves the whole machine (the
    registry included) as it was whenever the buffer is shorter than 20
    bytes, the slot index is at or above the capacity of 4, or the leading
    byte is not 0xFF. *)
Theorem decoder_rejects (data : list byte) (batteryIndex : Z) (m : Machine) :
  Z.of_nat (length data) < 20 \/ MAX_BATTERIES <= batteryIndex \/ u8 (at_ data 0) <> 0xFF ->
  parseValenceBatteryData data (Z.of_nat (length data)) batteryIndex m = Done false m.
Proof. apply parse_rejects. Qed.

Lemma decoder_rejects_witness :
  (Z.of_nat (length Sample.short_response) < 20 \/ MAX_BATTERIES <= 0
   \/ u8 (at_ Sample.short_response 0) <> 0xFF) /\
  parseValenceBatteryData Sample.short_response (Z.of_nat (length Sample.short_response)) 0
                          (Sample.polled []) = Done false (Sample.polled []).
Proof.
  assert (H : Z.of_nat (length Sample.short_response) < 20 \/ MAX_BATTERIES <= 0
              \/ u8 (at_ Sample.short_response 0) <> 0xFF)
    by (left; vm_compute; reflexivity).
  split; [exact H | ].
  exact (decoder_rejects Sample.short_response 0 (Sample.polled []) H).
Defined.

(** A negative slot index is out of range, yet the decoder does not return
    failure on it: the guard only tests [batteryIndex >= MAX_BATTERIES], and
    the frame is decoded through [&batteries[-1]]. *)
Lemma decoder_negative_index :
  ~ (0 <= -1 < MAX_BATTERIES) /\
  parseValenceBatteryData Sample.frame20 (Z.of_nat (length Sample.frame20)) (-1)
                          (Sample.boot []) = Undefined /\
  parseValenceBatteryData Sample.frame20 (Z.of_nat (length Sample.frame20)) (-1)
                          (Sample.boot []) <> Done false (Sample.boot []).
Proof.
  split; [unfold MAX_BATTERIES; lia | ].
  assert (E : parseValenceBatteryData Sample.frame20 (Z.of_nat (length Sample.frame20)) (-1)
                (Sample.boot []) = Undefined) by (vm_compute; reflexivity).
  split; [exact E | rewrite E; discriminate].
Qed.

(** ** C3 *)

(** C3, as the code has it.  When the decoder succeeds, cell voltage [i]
    (0..5) becomes the unsigned little-endian 16-bit value at offset 20+2i
    times 0.001 exactly when the buffer is longer than 30 bytes and holds both
    bytes of that value (length > 21+2i: always for cells 0..4, length > 31
    for cell 5), secondaryCurrent becomes the signed little-endian 16-bit
    value at offsets 34-35 times 0.1 exactly when the length is greater than
    35, and a field whose guard fails keeps its previous value. *)
Theorem decoder_guarded_fields (data : list byte) (batteryIndex : Z) (m : Machine)
        (old : BatteryData) :
  20 <= Z.of_nat (length data) ->
  u8 (at_ data 0) = 0xFF ->
  0 <= batteryIndex < MAX_BATTERIES ->
  batteries m !! Z.to_nat batteryIndex = Some old ->
  length (cellVoltages old) = 6%nat ->
  exists (m' : Machine) (b' : BatteryData),
    parseValenceBatteryData data (Z.of_nat (length data)) batteryIndex m = Done true m' /\
    batteries m' !! Z.to_nat batteryIndex = Some b' /\
    (forall i : nat, (i < 6)%nat ->
       cellVoltages b' !! i
       = if (30 <? Z.of_nat (length data)) && (21 + 2 * Z.of_nat i <? Z.of_nat (length data))
         then Some (milli (le_u16 data (20 + 2 * Z.of_nat i)))
         else cellVoltages old !! i) /\
    current2 b'
    = if 35 <? Z.of_nat (length data) then deci (le_i16 data 34) else current2 old.
Proof.
  intros Hlen Hff Hidx Hold Hcells.
  eexists. eexists. split.
  { apply (parse_accepts data _ batteryIndex m old); assumption. }
  split.
  { cbn [with_batteries batteries]. apply list_lookup_insert_eq.
    apply lookup_lt_Some in Hold. exact Hold. }
  split.
  - intros i Hi. battery_fields.
    rewrite decode_fields_cell by exact Hcells.
    replace ((i <? 6)%nat) with true by (symmetry; apply Nat.ltb_lt; exact Hi).
    rewrite andb_true_r. reflexivity.
  - battery_fields. apply decode_fields_current2.
Qed.

Lemma decoder_guarded_fields_witness :
  20 <= Z.of_nat (length Sample.frame36) /\
  u8 (at_ Sample.frame36 0) = 0xFF /\
  0 <= 0 < MAX_BATTERIES /\
  batteries (Sample.polled []) !! Z.to_nat 0 = Some Sample.reading /\
  length (cellVoltages Sample.reading) = 6%nat /\
  exists (m' : Machine) (b' : BatteryData),
    parseValenceBatteryData Sample.frame36 (Z.of_nat (length Sample.frame36)) 0
                            (Sample.polled []) = Done true m' /\
    batteries m' !! Z.to_nat 0 = Some b' /\
    (forall i : nat, (i < 6)%nat ->
       cellVoltages b' !! i
       = if (30 <? Z.of_nat (length Sample.frame36))
            && (21 + 2 * Z.of_nat i <? Z.of_nat (length Sample.frame36))
         then Some (milli (le_u16 Sample.frame36 (20 + 2 * Z.of_nat i)))
         else cellVoltages Sample.reading !! i) /\
    current2 b'
    = if 35 <? Z.of_nat (length Sample.frame36)
      then deci (le_i16 Sample.frame36 34) else current2 Sample.reading.
Proof.
  assert (H1 : 20 <= Z.of_nat (length Sample.frame36)) by (vm_compute; discriminate).
  assert (H2 : u8 (at_ Sample.frame36 0) = 0xFF) by reflexivity.
  assert (H3 : 0 <= 0 < MAX_BATTERIES) by (unfold MAX_BATTERIES; lia).
  assert (H4 : batteries (Sample.polled []) !! Z.to_nat 0 = Some Sample.reading)
    by reflexivity.
  assert (H5 : length (cellVoltages Sample.reading) = 6%nat) by reflexivity.
  split; [exact H1 | ]. split; [exact H2 | ]. split; [exact H3 | ].
  split; [exact H4 | ]. split; [exact H5 | ].
  exact (decoder_guarded_fields Sample.frame36 0 (Sample.polled []) Sample.reading
                                H1 H2 H3 H4 H5).
Defined.

(** A 31-byte frame is longer than 30 bytes and is decoded with success, yet
    cell 5 keeps its previous value (3.300 V): its bytes would be at offsets
    30 and 31, and whatever byte one imagines at offset 31 the value read
    there would differ from what the slot holds. *)
Lemma decoder_cell5_at_31_bytes :
  30 < Z.of_nat (length Sample.frame31) /\
  exists (m' : Machine) (b' : BatteryData),
    parseValenceBatteryData Sample.frame31 (Z.of_nat (length Sample.frame31)) 0
                            (Sample.polled []) = Done true m' /\
    batteries m' !! 0%nat = Some b' /\
    cellVoltages b' !! 5%nat = cellVoltages Sample.reading !! 5%nat /\
    cellVoltages b' !! 4%nat = Some (milli (le_u16 Sample.frame31 28)) /\
    forall hi : byte,
      cellVoltages b' !! 5%nat <> Some (milli (u8 (at_ Sample.frame31 30) + 256 * u8 hi)).
Proof.
  split; [vm_compute; reflexivity | ].
  eexists. eexists. split; [vm_compute; reflexivity | ].
  split; [reflexivity | ].
  split; [vm_compute; reflexivity | ].
  split; [vm_compute; reflexivity | ].
  intros hi. destruct hi; vm_compute; discriminate.
Qed.

(* ===================================================================== *)
(** * Identifier extraction *)
(* ===================================================================== *)

Lemma append_empty_r (s : string) : String.append s EmptyString = s.
Proof. induction s as [|a s IH]; [reflexivity | cbn [String.append]; rewrite IH; reflexivity]. Qed.

Lemma append_snoc (s t : string) (a : ascii) :
  String.append (String.append s (String a EmptyString)) t = String.append s (String a t).
Proof.
  induction s as [|c s IH]; [reflexivity | cbn [String.append]; rewrite IH; reflexivity].
Qed.

Lemma string_of_list_byte_app (l1 l2 : list byte) :
  string_of_list_byte (l1 ++ l2)
  = String.append (string_of_list_byte l1) (string_of_list_byte l2).
Proof.
  unfold string_of_list_byte.
  induction l1 as [|b l1 IH]; [reflexivity | ].
  cbn [app List.map string_of_list_ascii String.append]. rewrite IH. reflexivity.
Qed.

Lemma id_loop_filter (data : list byte) (todo k : nat) (acc : string) :
  (k + todo <= length data)%nat ->
  id_loop data todo (Z.of_nat k) acc
  = String.append acc
      (string_of_list_byte (List.filter printable (take todo (drop k data)))).
Proof.
  revert k acc. induction todo as [|todo IH]; intros k acc Hlen.
  - cbn [id_loop take List.filter]. symmetry. apply append_empty_r.
  - assert (Hk : (k < length data)%nat) by lia.
    destruct (lookup_lt_is_Some_2 data k Hk) as [b Hb].
    rewrite (drop_S _ _ _ Hb). cbn [id_loop take List.filter].
    rewrite (at_lookup _ _ _ Hb).
    replace (Z.of_nat k + 1) with (Z.of_nat (S k)) by lia.
    rewrite IH by lia.
    destruct (printable b); [ | reflexivity].
    apply append_snoc.
Qed.

Lemma filter_take_while (l : list byte) :
  List.filter printable l
  = take_while printable l ++ List.filter printable (drop_while printable l).
Proof.
  induction l as [|b l IH]; [reflexivity | ].
  cbn [take_while drop_while].
  destruct (printable b) eqn:E.
  - cbn [List.filter]. rewrite E. cbn [app]. rewrite <- IH. reflexivity.
  - reflexivity.
Qed.

Lemma parseBatteryID_filter (data : list byte) :
  parseBatteryID data (Z.of_nat (length data))
  = if Z.of_nat (length data) <? 15 then EmptyString
    else string_of_list_byte (List.filter printable (id_span data)).
Proof.
  unfold parseBatteryID.
  destruct (Z.ltb_spec (Z.of_nat (length data)) 15) as [|Hlen]; [reflexivity | ].
  change 3 with (Z.of_nat 3) at 2.
  rewrite id_loop_filter by lia.
  unfold id_span. cbn [String.append].
  replace (Z.to_nat (Z.of_nat (length data) - 2 - 3)) with (length data - 2 - 3)%nat
    by lia.
  reflexivity.
Qed.

(** ** C8 *)

(** C8, as the code has it.  The identifier extracted from a response buffer
    is empty when the buffer has fewer than 15 bytes; otherwise it is the
    maximal run of printable ASCII characters that starts at offset 3 and
    ends at most 2 bytes before the end, followed by every printable byte
    found between the end of that run and 2 bytes before the end
    (non-printable bytes are skipped, they do not end the identifier). *)
Theorem identifier_extraction (data : list byte) :
  parseBatteryID data (Z.of_nat (length data))
  = if Z.of_nat (length data) <? 15 then EmptyString
    else String.append
           (printable_run data)
           (string_of_list_byte (List.filter printable (drop_while printable (id_span data)))).
Proof.
  rewrite parseBatteryID_filter.
  destruct (Z.of_nat (length data) <? 15); [reflexivity | ].
  unfold printable_run. rewrite <- string_of_list_byte_app, <- filter_take_while.
  reflexivity.
Qed.

(** Two responses with header [FF 70] and at least 10 bytes on which the
    identifier is not the maximal printable run from offset 3: a 10-byte one
    (the identifier is empty, the run is "ABCDE") and a 17-byte one with a
    non-printable byte inside (the run is "AB", the identifier goes on). *)
Lemma identifier_not_maximal_run :
  (10 <= Z.of_nat (length Sample.short_response) /\
   u8 (at_ Sample.short_response 0) = 0xFF /\ u8 (at_ Sample.short_response 1) = 0x70 /\
   printable_run Sample.short_response = "ABCDE"%string /\
   parseBatteryID Sample.short_response (Z.of_nat (length Sample.short_response))
   = EmptyString) /\
  (10 <= Z.of_nat (length Sample.split_response) /\
   u8 (at_ Sample.split_response 0) = 0xFF /\ u8 (at_ Sample.split_response 1) = 0x70 /\
   printable_run Sample.split_response = "AB"%string /\
   parseBatteryID Sample.split_response (Z.of_nat (length Sample.split_response))
   = "ABCDEFGHIJK"%string).
Proof. vm_compute. repeat split; discriminate. Qed.

(* ===================================================================== *)
(** * Receiving a response *)
(* ===================================================================== *)

Lemma with_time_id (m : Machine) : with_time (clock m) (rx_fifo m) (line m) m = m.
Proof. destruct m; reflexivity. Qed.

Lemma to_u32_range (z : Z) : 0 <= to_u32 z < 4294967296.
Proof. unfold to_u32. apply Z.mod_pos_bound. lia. Qed.

Lemma to_u32_le (z : Z) : 0 <= z -> to_u32 z <= z.
Proof. intros H. unfold to_u32. apply Z.mod_le; lia. Qed.

Lemma to_u32_small (z : Z) : 0 <= z < 4294967296 -> to_u32 z = z.
Proof. intros H. unfold to_u32. apply Z.mod_small. exact H. Qed.

Lemma receive_step_eq (timeout : Z) (response : list byte) (m : Machine) :
  receive_step timeout response m
  = match rx_fifo m with
    | [] => Done (timeout, response) (tick m)
    | b :: rest =>
        Done (to_u32 (clock m + 100), response ++ [b]) (tick (with_rx_fifo rest m))
    end.
Proof.
  destruct m as [? ? ? ? ? ? rx ? ? ? ? ?]. destruct rx as [|b rx].
  - reflexivity.
  - unfold receive_step. rewrite bind_run. unfold Serial2_available, gets.
    cbn [rx_fifo length]. rewrite Nat2Z.inj_succ.
    destruct (Z.eqb_spec (Z.succ (Z.of_nat (length rx))) 0) as [E|_]; [lia | ].
    cbn [negb]. rewrite bind_run, bind_run. unfold Serial2_read. cbn [rx_fifo].
    rewrite to_byte_u8. reflexivity.
Qed.

(** The receive loop ends, whatever arrives: it touches only the clock, the
    FIFO and the line, and it returns at most 128 bytes. *)
Lemma receive_loop_total (fuel : nat) (timeout : Z) (response : list byte) (m : Machine) :
  0 <= clock m < 4294967296 -> 0 <= timeout < 4294967296 ->
  receive_measure timeout response m < Z.of_nat fuel ->
  exists (r : list byte) (c : Z) (rx : list byte) (ln : list (list byte)),
    receive_loop fuel timeout response m = Done r (with_time c rx ln m) /\
    0 <= c < 4294967296 /\
    (exists more, r = response ++ more) /\
    ((length response <= 128)%nat -> (length r <= 128)%nat).
Proof.
  revert timeout response m.
  induction fuel as [|fuel IH]; intros timeout response m Hc Ht Hm;
    unfold receive_measure in Hm.
  - cbn [receive_loop]. rewrite bind_run. unfold millis, gets.
    destruct (Z.ltb_spec (clock m) timeout) as [H1|H1];
      destruct (Z.ltb_spec (Z.of_nat (length response)) 128) as [H2|H2]; cbn [andb];
      try (exists response, (clock m), (rx_fifo m), (line m); rewrite with_time_id;
           split; [reflexivity | split; [exact Hc | split; [exists []; symmetry; apply app_nil_r | tauto]]]).
    exfalso. nia.
  - cbn [receive_loop]. rewrite bind_run. unfold millis, gets.
    destruct (Z.ltb_spec (clock m) timeout) as [H1|H1];
      destruct (Z.ltb_spec (Z.of_nat (length response)) 128) as [H2|H2]; cbn [andb];
      try (exists response, (clock m), (rx_fifo m), (line m); rewrite with_time_id;
           split; [reflexivity | split; [exact Hc | split; [exists []; symmetry; apply app_nil_r | tauto]]]).
    rewrite bind_run, receive_step_eq.
    destruct (rx_fifo m) as [|b rest] eqn:Erx.
    + assert (Hclk : clock (tick m) = clock m + 1).
      { unfold tick. cbn [with_time clock]. apply to_u32_small. lia. }
      destruct (IH timeout response (tick m)) as (r & c & rx & ln & Hrun & Hcr & Hpre & Hlen).
      * rewrite Hclk. lia.
      * exact Ht.
      * unfold receive_measure. rewrite Hclk. lia.
      * exists r, c, rx, ln. split; [ | split; [exact Hcr | split; [exact Hpre | exact Hlen]]].
        rewrite Hrun. reflexivity.
    + assert (Hclk : clock (tick (with_rx_fifo rest m)) = clock m + 1).
      { unfold tick. cbn [with_time with_rx_fifo clock]. apply to_u32_small. lia. }
      pose proof (to_u32_range (clock m + 100)) as Hr.
      pose proof (to_u32_le (clock m + 100) ltac:(lia)) as Hle.
      destruct (IH (to_u32 (clock m + 100)) (response ++ [b]) (tick (with_rx_fifo rest m)))
        as (r & c & rx & ln & Hrun & Hcr & Hpre & Hlen).
      * rewrite Hclk. lia.
      * exact Hr.
      * unfold receive_measure. rewrite Hclk, length_app. cbn [length]. lia.
      * exists r, c, rx, ln. split; [ | split; [exact Hcr | split]].
        -- rewrite Hrun. reflexivity.
        -- destruct Hpre as [more Hmore]. exists (b :: more).
           rewrite Hmore, <- app_assoc. reflexivity.
        -- intros _. apply Hlen. rewrite length_app. cbn [length]. lia.
Qed.

(** The exchange with a battery always ends.  It adds the request to the
    writes and changes the clock, the FIFO and the line, nothing else. *)
Lemma exchange_total (batteryIndex : Z) (m : Machine) :
  0 <= clock m < 4294967296 ->
  exists (r : list byte) (c : Z) (rx : list byte) (ln : list (list byte)),
    exchange batteryIndex m
    = Done r (with_sent (sent m ++ [dataRequest batteryIndex]) (with_time c rx ln m)) /\
    0 <= c < 4294967296 /\ (length r <= 128)%nat.
Proof.
  intros Hc. unfold exchange.
  rewrite bind_run, drain_eq, bind_run. unfold Serial2_write, modify.
  rewrite bind_run. unfold Serial2_flush. cbn [mret M_ret].
  rewrite bind_run. unfold millis, gets. cbv beta.
  set (m1 := with_sent _ _).
  replace (clock m1) with (clock m) by reflexivity.
  destruct (receive_loop_total receive_fuel (to_u32 (clock m + RESPONSE_TIMEOUT)) [] m1)
    as (r & c & rx & ln & Hrun & Hcr & _ & Hlen).
  - exact Hc.
  - apply to_u32_range.
  - unfold receive_measure, receive_fuel, RESPONSE_TIMEOUT.
    replace (clock m1) with (clock m) by reflexivity. cbn [length].
    rewrite Z2Nat.id by lia.
    pose proof (to_u32_le (clock m + 1000) ltac:(lia)). lia.
  - exists r, c, rx, ln. split; [ | split; [exact Hcr | apply Hlen; cbn [length]; lia]].
    rewrite Hrun. reflexivity.
Qed.

Lemma requestSingle_unfold (batteryIndex : Z) (m : Machine) :
  batteryIndex < MAX_BATTERIES ->
  requestSingleBatteryData batteryIndex m
  = match exchange batteryIndex m with
    | Done response m1 => judge_response batteryIndex response m1
    | Undefined => Undefined
    | Unfinished => Unfinished
    end.
Proof.
  intros Hi. unfold requestSingleBatteryData, exchange.
  replace (MAX_BATTERIES <=? batteryIndex) with false by (symmetry; apply Z.leb_gt; lia).
  rewrite !bind_run, drain_eq. unfold Serial2_write, modify.
  rewrite !bind_run. unfold Serial2_flush. cbn [mret M_ret].
  rewrite !bind_run. unfold millis, gets.
  rewrite !bind_run.
  destruct (receive_loop _ _ _ _); reflexivity.
Qed.

Lemma judge_response_failure (batteryIndex : Z) (response : list byte) (m : Machine) :
  activeBatteryCount m <> 0 ->
  Z.of_nat (length response) < 20 \/ u8 (at_ response 0) <> 0xFF ->
  judge_response batteryIndex response m = Done false m.
Proof.
  intros Hn H. unfold judge_response.
  destruct (Z.leb_spec 20 (Z.of_nat (length response))) as [H20|H20].
  - apply parse_rejects. destruct H as [H|H]; [lia | right; right; exact H].
  - rewrite bind_run. unfold gets.
    destruct (Z.eqb_spec (activeBatteryCount m) 0) as [E|_]; [contradiction | reflexivity].
Qed.

(** ** C6 *)

(** C6.  For every slot [i] that holds a valid reading [R], a polling attempt
    for slot [i] (an active slot, as a polling pass polls them) that receives
    fewer than 20 bytes or a response not starting with 0xFF returns failure
    and leaves the registry as it was: slot [i] still holds [R], valid, with
    its timestamp. *)
Theorem failed_poll_keeps_slot (m : Machine) (i : Z) (R : BatteryData) :
  0 <= clock m < 4294967296 ->
  0 <= i < MAX_BATTERIES -> i < activeBatteryCount m ->
  batteries m !! Z.to_nat i = Some R -> valid R = true ->
  exists (response : list byte) (m1 : Machine),
    exchange i m = Done response m1 /\
    (Z.of_nat (length response) < 20 \/ u8 (at_ response 0) <> 0xFF ->
     requestSingleBatteryData i m = Done false m1 /\
     batteries m1 = batteries m /\
     batteries m1 !! Z.to_nat i = Some R).
Proof.
  intros Hc Hi Hact HR _.
  destruct (exchange_total i m Hc) as (r & c & rx & ln & Hex & _ & _).
  eexists. eexists. split; [exact Hex | ].
  intros Hfail. split; [ | split; [reflexivity | exact HR]].
  rewrite requestSingle_unfold by lia. rewrite Hex.
  apply judge_response_failure; [ | exact Hfail].
  cbn [with_sent with_time activeBatteryCount]. lia.
Qed.

Lemma failed_poll_keeps_slot_witness :
  0 <= clock (Sample.polled []) < 4294967296 /\
  0 <= 0 < MAX_BATTERIES /\ 0 < activeBatteryCount (Sample.polled []) /\
  batteries (Sample.polled []) !! Z.to_nat 0 = Some Sample.reading /\
  valid Sample.reading = true /\
  exists (response : list byte) (m1 : Machine),
    exchange 0 (Sample.polled []) = Done response m1 /\
    (Z.of_nat (length response) < 20 \/ u8 (at_ response 0) <> 0xFF ->
     requestSingleBatteryData 0 (Sample.polled []) = Done false m1 /\
     batteries m1 = batteries (Sample.polled []) /\
     batteries m1 !! Z.to_nat 0 = Some Sample.reading).
Proof.
  assert (H1 : 0 <= clock (Sample.polled []) < 4294967296) by (cbn; lia).
  assert (H2 : 0 <= 0 < MAX_BATTERIES) by (unfold MAX_BATTERIES; lia).
  assert (H3 : 0 < activeBatteryCount (Sample.polled [])) by (cbn; lia).
  assert (H4 : batteries (Sample.polled []) !! Z.to_nat 0 = Some Sample.reading)
    by reflexivity.
  assert (H5 : valid Sample.reading = true) by reflexivity.
  split; [exact H1 | ]. split; [exact H2 | ]. split; [exact H3 | ].
  split; [exact H4 | ]. split; [exact H5 | ].
  exact (failed_poll_keeps_slot (Sample.polled []) 0 Sample.reading H1 H2 H3 H4 H5).
Defined.

(** ** C9 *)




(* ===================================================================== *)
(** * Synthetic data generator *)
(* ===================================================================== *)

Lemma random_eq (lo hi : Z) (m : Machine) :
  lo < hi ->
  random lo hi m
  = Done (lo + entropy m (draws m) mod (hi - lo)) (with_draws (S (draws m)) m).
Proof.
  intros H. unfold random.
  replace (hi <=? lo) with false by (symmetry; apply Z.leb_gt; exact H). reflexivity.
Qed.

Lemma random_range (lo hi : Z) (e : Z) : lo < hi -> lo <= lo + e mod (hi - lo) < hi.
Proof. intros H. pose proof (Z.mod_pos_bound e (hi - lo) ltac:(lia)). lia. Qed.

(** The cell loop of the generator draws [todo] random values and only
    rewrites cell voltages. *)
Lemma gen_cells_spec (todo : nat) (j : Z) (avg : float) (b : BatteryData) (m : Machine) :
  exists b' : BatteryData,
    gen_cells todo j avg b m = Done b' (with_draws (todo + draws m) m) /\
    voltage b' = voltage b /\ current b' = current b /\ power b' = power b /\
    soc b' = soc b /\ temperature b' = temperature b /\ current2 b' = current2 b /\
    cycles b' = cycles b /\ valid b' = valid b /\ lastUpdate b' = lastUpdate b /\
    batteryID b' = batteryID b /\ length (cellVoltages b') = length (cellVoltages b).
Proof.
  revert j b m. induction todo as [|todo IH]; intros j b m.
  - exists b. split; [destruct m; reflexivity | repeat split].
  - cbn [gen_cells]. rewrite bind_run, random_eq by lia.
    match goal with
    | |- context [gen_cells todo ?j' avg ?b1 ?m1] =>
        destruct (IH j' b1 m1)
          as (b' & Hrun & H1 & H2 & H3 & H4 & H5 & H6 & H7 & H8 & H9 & H10 & H11)
    end.
    exists b'. split.
    + rewrite Hrun. cbn [with_draws draws]. rewrite Nat.add_succ_r. reflexivity.
    + rewrite H1, H2, H3, H4, H5, H6, H7, H8, H9, H10, H11. battery_fields.
      rewrite length_insert. repeat split.
Qed.

(** One slot of synthetic data. *)
Lemma gen_slot_spec (i : Z) (m : Machine) (old : BatteryData) :
  0 <= i -> batteries m !! Z.to_nat i = Some old ->
  exists b' : BatteryData,
    gen_slot i m
    = Done tt (with_draws (11 + draws m)
                 (with_batteries (<[Z.to_nat i := b']> (batteries m)) m)) /\
    valid b' = true /\ lastUpdate b' = clock m /\
    batteryID b' = String.append "TEST_BAT_" (String_of_int (i + 1)) /\
    0 <= soc b' <= 100 /\
    cycles b' = to_u16 (180 + i * 25) /\
    length (cellVoltages b') = length (cellVoltages old).
Proof.
  intros Hi Hold. unfold gen_slot.
  rewrite bind_run. unfold load_battery.
  replace (i <? 0) with false by (symmetry; apply Z.ltb_ge; lia).
  rewrite Hold.
  rewrite bind_run, random_eq by lia.
  rewrite bind_run, random_eq by lia.
  rewrite bind_run, random_eq by lia.
  rewrite bind_run, random_eq by lia.
  rewrite bind_run.
  match goal with
  | |- context [gen_cells 6 0 ?avg ?b1 ?m1] =>
      destruct (gen_cells_spec 6 0 avg b1 m1)
        as (b6 & Hrun & H1 & H2 & H3 & H4 & H5 & H6 & H7 & H8 & H9 & H10 & H11);
      rewrite Hrun; clear Hrun
  end.
  rewrite bind_run, random_eq by lia.
  rewrite bind_run. unfold millis, gets. cbv beta.
  unfold store_battery.
  apply lookup_lt_Some in Hold.
  cbn [with_draws batteries].
  replace (0 <=? i) with true by (symmetry; apply Z.leb_le; lia).
  replace (i <? Z.of_nat (length (batteries m))) with true by (symmetry; apply Z.ltb_lt; lia).
  cbn [andb].
  eexists. split; [reflexivity | ].
  battery_fields_in H4. battery_fields_in H11.
  cbn [with_draws clock draws entropy] in H4 |- *.
  set (r := -8 + entropy m (S (S (draws m))) mod (8 - -8)) in *.
  assert (Hr : -8 <= r < 8) by (subst r; apply random_range; lia).
  battery_fields. rewrite H4.
  destruct (Z.ltb_spec 100 (65 + i * 8 + r)) as [Hbig|Hbig]; battery_fields.
  - change (100 <? 0) with false. cbv iota. battery_fields.
    rewrite H11. battery_fields. repeat split; lia.
  - rewrite H4.
    destruct (Z.ltb_spec (65 + i * 8 + r) 0) as [Hneg|Hneg]; battery_fields;
      rewrite ?H4, ?H11; battery_fields; repeat split; lia.
Qed.

Lemma with_draws_batteries_id (m : Machine) :
  with_draws (draws m) (with_batteries (batteries m) m) = m.
Proof. destruct m; reflexivity. Qed.

(** The slot loop of the generator, from slot [i] on. *)
Lemma gen_loop_spec (todo i : nat) (m : Machine) :
  activeBatteryCount m = 4 -> length (batteries m) = 4%nat -> (i + todo = 4)%nat ->
  exists (bs : list BatteryData) (d : nat),
    gen_loop todo (Z.of_nat i) m = Done tt (with_draws d (with_batteries bs m)) /\
    length bs = 4%nat /\
    (forall k, (k < i)%nat -> bs !! k = batteries m !! k) /\
    (forall k b, (i <= k)%nat -> bs !! k = Some b -> synthetic k (clock m) b) /\
    (forall k b b0, bs !! k = Some b -> batteries m !! k = Some b0 ->
                    length (cellVoltages b) = length (cellVoltages b0)).
Proof.
  revert i m. induction todo as [|todo IH]; intros i m Hn Hlen Hi.
  - exists (batteries m), (draws m). rewrite with_draws_batteries_id.
    split; [ | split; [exact Hlen | split; [reflexivity | split]]].
    + cbn [gen_loop]. rewrite bind_run. unfold gets. rewrite Hn.
      replace (Z.of_nat i <? 4) with false by (symmetry; apply Z.ltb_ge; lia). reflexivity.
    + intros k b Hk Hb. apply lookup_lt_Some in Hb. lia.
    + intros k b b0 Hb Hb0. rewrite Hb in Hb0. injection Hb0 as ->. reflexivity.
  - assert (Hlt : (i < length (batteries m))%nat) by lia.
    destruct (lookup_lt_is_Some_2 _ _ Hlt) as [old Hold].
    destruct (gen_slot_spec (Z.of_nat i) m old ltac:(lia))
      as (b' & Hrun & Hv & Ht & Hid & Hsoc & Hcy & Hcells).
    { rewrite Nat2Z.id. exact Hold. }
    rewrite Nat2Z.id in Hrun.
    set (m1 := with_draws (11 + draws m)
                 (with_batteries (<[i := b']> (batteries m)) m)) in *.
    destruct (IH (S i) m1) as (bs & d & Hloop & Hbs & Hlow & Hhigh & Hcl).
    { exact Hn. }
    { subst m1. cbn [with_draws with_batteries batteries]. rewrite length_insert. exact Hlen. }
    { lia. }
    exists bs, d. split; [ | split; [exact Hbs | split; [ | split]]].
    + cbn [gen_loop]. rewrite bind_run. unfold gets. rewrite Hn.
      replace (Z.of_nat i <? 4) with true by (symmetry; apply Z.ltb_lt; lia).
      rewrite bind_run, Hrun.
      replace (Z.of_nat i + 1) with (Z.of_nat (S i)) by lia.
      rewrite Hloop. reflexivity.
    + intros k Hk. rewrite Hlow by lia. subst m1.
      cbn [with_draws with_batteries batteries].
      apply list_lookup_insert_ne. lia.
    + intros k b Hk Hb. destruct (Nat.eq_dec k i) as [->|Hne].
      * rewrite Hlow in Hb by lia. subst m1.
        cbn [with_draws with_batteries batteries] in Hb.
        rewrite list_lookup_insert_eq in Hb by exact Hlt. injection Hb as <-.
        unfold synthetic. repeat split; try assumption; lia.
      * apply (Hhigh k b); [lia | exact Hb].
    + intros k b b0 Hb Hb0. destruct (Nat.eq_dec k i) as [->|Hne].
      * rewrite Hold in Hb0. injection Hb0 as <-. rewrite <- Hcells.
        apply (Hcl i b b'); [exact Hb | ].
        subst m1. cbn [with_draws with_batteries batteries].
        apply list_lookup_insert_eq. exact Hlt.
      * apply (Hcl k b b0); [exact Hb | ].
        subst m1. cbn [with_draws with_batteries batteries].
        rewrite list_lookup_insert_ne by lia. exact Hb0.
Qed.

(** The generator fills the four slots, sets the active count to 4 and the
    initialised flag; besides that only the random source advances. *)
Lemma generateTestData_spec (m : Machine) :
  length (batteries m) = 4%nat ->
  exists (bs : list BatteryData) (d : nat),
    generateTestData m
    = Done tt (with_protocolInitialized true
                 (with_draws d (with_batteries bs (with_activeBatteryCount 4 m)))) /\
    length bs = 4%nat /\
    (forall k b, bs !! k = Some b -> synthetic k (clock m) b) /\
    (forall k b b0, bs !! k = Some b -> batteries m !! k = Some b0 ->
                    length (cellVoltages b) = length (cellVoltages b0)).
Proof.
  intros Hlen. unfold generateTestData.
  rewrite bind_run. unfold modify at 1. cbv beta.
  destruct (gen_loop_spec 4 0 (with_activeBatteryCount 4 m))
    as (bs & d & Hrun & Hbs & _ & Hsyn & Hcl); [reflexivity | exact Hlen | lia | ].
  change (Z.of_nat 0) with 0 in Hrun.
  rewrite bind_run, Hrun. unfold modify.
  exists bs, d. split; [reflexivity | split; [exact Hbs | split]].
  - intros k b Hb. apply (Hsyn k b); [lia | exact Hb].
  - exact Hcl.
Qed.

(* ===================================================================== *)
(** * Discovery *)
(* ===================================================================== *)

Lemma insert_as_alter {A : Type} (g : A -> A) (l : list A) (k : nat) (x : A) :
  l !! k = Some x -> <[k := g x]> l = alter g k l.
Proof.
  intros H. apply list_eq. intros j.
  destruct (Nat.eq_dec k j) as [<-|Hne].
  - rewrite list_lookup_insert_eq by (apply lookup_lt_Some in H; exact H).
    rewrite list_lookup_alter_eq, H. reflexivity.
  - rewrite list_lookup_insert_ne, list_lookup_alter_ne by exact Hne. reflexivity.
Qed.

Lemma length4 {A : Type} (l : list A) :
  length l = 4%nat -> exists a b c d, l = [a; b; c; d].
Proof.
  intros H. destruct l as [|a [|b [|c [|d [|e l]]]]]; try discriminate.
  exists a, b, c, d. reflexivity.
Qed.

(** The first loop of discovery marks every slot invalid and forgets the
    identifiers found by the previous pass. *)
Lemma clear_loop_eq (m : Machine) :
  length (batteries m) = 4%nat -> length (batteryIDsAssigned m) = 4%nat ->
  length (discoveredBatteryIDs m) = 4%nat ->
  clear_loop 4 0 m
  = Done tt (with_discoveredBatteryIDs (replicate 4 EmptyString)
               (with_batteryIDsAssigned (replicate 4 false)
                  (with_batteries (set_valid false <$> batteries m) m))).
Proof.
  intros H1 H2 H3.
  destruct m as [bs n p asg dsc c rx ln s de en dr]. cbn [batteries batteryIDsAssigned
    discoveredBatteryIDs] in *.
  destruct (length4 bs H1) as (b0 & b1 & b2 & b3 & ->).
  destruct (length4 asg H2) as (a0 & a1 & a2 & a3 & ->).
  destruct (length4 dsc H3) as (d0 & d1 & d2 & d3 & ->).
  reflexivity.
Qed.

Lemma take_response_spec (f : nat) (m : Machine) :
  (f < 4)%nat -> length (batteries m) = 4%nat -> length (discoveredBatteryIDs m) = 4%nat ->
  (10 <= length (rx_fifo m))%nat ->
  take_response (Z.of_nat f) m
  = Done (Z.of_nat (f + length (accepted (take 64 (rx_fifo m)))))
         (with_rx_fifo (drop 64 (rx_fifo m))
            (assign_all f (accepted (take 64 (rx_fifo m))) m)).
Proof.
  intros Hf Hb Hd Hrx. unfold take_response.
  rewrite bind_run, read_available_eq by reflexivity. cbn [app].
  unfold accepted, identifier_of.
  set (r := take 64 (rx_fifo m)).
  destruct ((10 <=? Z.of_nat (length r)) && (u8 (at_ r 0) =? 255) && (u8 (at_ r 1) =? 112));
    cbn [andb option_list assign_all length]; [ | rewrite Nat.add_0_r; reflexivity].
  destruct (0 <? String.length (parseBatteryID r (Z.of_nat (length r))))%nat;
    cbn [option_list assign_all length]; [ | rewrite Nat.add_0_r; reflexivity].
  set (id := parseBatteryID r (Z.of_nat (length r))).
  rewrite bind_run. unfold store_discoveredBatteryIDs. cbn [with_rx_fifo discoveredBatteryIDs].
  replace (0 <=? Z.of_nat f) with true by (symmetry; apply Z.leb_le; lia).
  replace (Z.of_nat f <? Z.of_nat (length (discoveredBatteryIDs m))) with true
    by (symmetry; apply Z.ltb_lt; lia).
  cbn [andb]. rewrite bind_run. unfold load_battery.
  replace (Z.of_nat f <? 0) with false by (symmetry; apply Z.ltb_ge; lia).
  rewrite Nat2Z.id.
  cbn [with_rx_fifo with_discoveredBatteryIDs with_batteries batteries discoveredBatteryIDs].
  assert (Hlt : (f < length (batteries m))%nat) by lia.
  destruct (lookup_lt_is_Some_2 _ _ Hlt) as [old Hold]. rewrite Hold.
  rewrite bind_run. unfold store_battery.
  cbn [with_rx_fifo with_discoveredBatteryIDs with_batteries batteries discoveredBatteryIDs].
  replace (0 <=? Z.of_nat f) with true by (symmetry; apply Z.leb_le; lia).
  replace (Z.of_nat f <? Z.of_nat (length (batteries m))) with true
    by (symmetry; apply Z.ltb_lt; lia).
  cbn [andb]. rewrite Nat2Z.id.
  rewrite (insert_as_alter (set_batteryID id) _ _ _ Hold).
  replace (Z.of_nat f + 1) with (Z.of_nat (f + 1)) by lia.
  reflexivity.
Qed.

Lemma assign_all_shape (f : nat) (ids : list string) (m : Machine) :
  exists (bs : list BatteryData) (ds : list string),
    assign_all f ids m = with_batteries bs (with_discoveredBatteryIDs ds m) /\
    length bs = length (batteries m) /\
    length ds = length (discoveredBatteryIDs m).
Proof.
  revert f m. induction ids as [|id ids IH]; intros f m.
  - exists (batteries m), (discoveredBatteryIDs m).
    split; [destruct m; reflexivity | split; reflexivity].
  - cbn [assign_all].
    destruct (IH (S f)
      (with_batteries (alter (set_batteryID id) f (batteries m))
         (with_discoveredBatteryIDs (<[f := id]> (discoveredBatteryIDs m)) m)))
      as (bs & ds & Heq & Hb & Hd).
    exists bs, ds. split; [rewrite Heq; reflexivity | ].
    cbn [with_batteries with_discoveredBatteryIDs batteries discoveredBatteryIDs] in Hb, Hd.
    rewrite length_alter in Hb. rewrite length_insert in Hd. split; assumption.
Qed.

Lemma assign_all_hardware (f : nat) (ids : list string) (m : Machine)
      (s : list (list byte)) (c : Z) (rx : list byte) (ln : list (list byte)) :
  assign_all f ids (with_sent s (with_time c rx ln m))
  = with_sent s (with_time c rx ln (assign_all f ids m)).
Proof.
  revert f m. induction ids as [|id ids IH]; intros f m; [reflexivity | ].
  cbn [assign_all]. rewrite <- IH. reflexivity.
Qed.

Lemma assign_all_app (f : nat) (ids1 ids2 : list string) (m : Machine) :
  assign_all f (ids1 ++ ids2) m
  = assign_all (f + length ids1) ids2 (assign_all f ids1 m).
Proof.
  revert f m. induction ids1 as [|id ids1 IH]; intros f m.
  - cbn [app assign_all length]. rewrite Nat.add_0_r. reflexivity.
  - cbn [app assign_all length]. rewrite IH. f_equal. lia.
Qed.

Lemma accepted_length (response : list byte) : (length (accepted response) <= 1)%nat.
Proof. unfold accepted. destruct (identifier_of response); cbn; lia. Qed.

Lemma accepted_short (response : list byte) :
  (length response < 10)%nat -> accepted response = [].
Proof.
  intros H. unfold accepted, identifier_of.
  replace (10 <=? Z.of_nat (length response)) with false
    by (symmetry; apply Z.leb_gt; lia).
  reflexivity.
Qed.

(** One address of the scan: the poll frame is written, 300 ms pass, and the
    identifier of a valid response goes to the next free slot. *)
Lemma scan_address_spec (a : Z) (f : nat) (m : Machine) :
  (f < 4)%nat -> length (batteries m) = 4%nat -> length (discoveredBatteryIDs m) = 4%nat ->
  scan_address a (Z.of_nat f) m
  = Done (Z.of_nat (f + length (accepted (take 64 (rx_fifo m ++ concat (take 200 (line m)))))))
         (with_sent (sent m ++ [pollMsg a])
            (with_time (clock_after 100 (clock_after 200 (clock m)))
                       (concat (take 100 (drop 200 (line m))))
                       (drop 300 (line m))
                       (assign_all f
                          (accepted (take 64 (rx_fifo m ++ concat (take 200 (line m)))))
                          m))).
Proof.
  intros Hf Hb Hd. unfold scan_address.
  rewrite bind_run. unfold Serial2_write, modify. cbv beta.
  rewrite bind_run. unfold Serial2_flush. cbn [mret M_ret].
  rewrite bind_run, delay_eq. change (Z.to_nat 200) with 200%nat.
  cbn [with_sent clock rx_fifo line].
  set (fifo := rx_fifo m ++ concat (take 200 (line m))).
  rewrite bind_run. unfold Serial2_available, gets. cbn [with_time rx_fifo].
  rewrite bind_run.
  destruct (Z.leb_spec 10 (Z.of_nat (length fifo))) as [Hav|Hav].
  - match goal with
    | |- context [take_response _ ?m2] =>
        change m2 with (with_sent (sent m ++ [pollMsg a])
                          (with_time (clock_after 200 (clock m)) fifo (drop 200 (line m)) m))
    end.
    rewrite take_response_spec; [ | exact Hf | exact Hb | exact Hd | cbn [with_sent with_time rx_fifo]; lia].
    cbn [with_sent with_time rx_fifo].
    rewrite assign_all_hardware.
    rewrite bind_run, drain_eq. rewrite bind_run, delay_eq.
    change (Z.to_nat 100) with 100%nat.
    cbn [with_rx_fifo with_sent with_time clock rx_fifo line app].
    rewrite drop_drop. change (200 + 100)%nat with 300%nat.
    destruct (assign_all_shape f (accepted (take 64 fifo)) m) as (bs & ds & -> & _ & _).
    reflexivity.
  - rewrite (accepted_short (take 64 fifo)) by (rewrite length_take; lia).
    cbn [assign_all length]. rewrite Nat.add_0_r.
    cbn [mret M_ret].
    rewrite bind_run, drain_eq. rewrite bind_run, delay_eq.
    change (Z.to_nat 100) with 100%nat.
    cbn [with_rx_fifo with_sent with_time clock rx_fifo line app].
    rewrite drop_drop. change (200 + 100)%nat with 300%nat.
    reflexivity.
Qed.

Lemma assign_all_globals (f : nat) (ids : list string) (m1 m2 : Machine) :
  batteries m1 = batteries m2 -> discoveredBatteryIDs m1 = discoveredBatteryIDs m2 ->
  batteries (assign_all f ids m1) = batteries (assign_all f ids m2) /\
  discoveredBatteryIDs (assign_all f ids m1) = discoveredBatteryIDs (assign_all f ids m2).
Proof.
  revert f m1 m2. induction ids as [|id ids IH]; intros f m1 m2 Hb Hd.
  - split; assumption.
  - cbn [assign_all]. apply IH.
    + cbn [with_batteries batteries]. rewrite Hb. reflexivity.
    + cbn [with_batteries with_discoveredBatteryIDs discoveredBatteryIDs]. rewrite Hd.
      reflexivity.
Qed.

Lemma omap_identifier_cons (r : list byte) (l : list (list byte)) :
  omap identifier_of (r :: l) = accepted r ++ omap identifier_of l.
Proof. unfold accepted. cbn [omap list_omap]. destruct (identifier_of r); reflexivity. Qed.

Lemma clock_after_add (n1 n2 : nat) (c : Z) :
  clock_after n2 (clock_after n1 c) = clock_after (n1 + n2) c.
Proof.
  unfold clock_after. rewrite Nat.add_comm. symmetry. apply Nat.iter_add.
Qed.

(** The address loop.  [n] addresses are polled, in increasing order from
    [a]; the identifiers of the valid responses heard go to the slots from
    [f] on, as long as there is room; all [todo] addresses are polled unless
    the registry fills up. *)
Lemma scan_loop_spec (todo : nat) (a : Z) (f : nat) (m : Machine) (ids : list string) :
  Z.of_nat todo + a = 6 -> 0 <= a -> (f <= 4)%nat ->
  length (batteries m) = 4%nat -> length (discoveredBatteryIDs m) = 4%nat ->
  ids = take (4 - f) (omap identifier_of (heard todo (rx_fifo m) (line m))) ->
  exists (n : nat) (rx : list byte) (ln : list (list byte)),
    scan_loop todo a (Z.of_nat f) m
    = Done (Z.of_nat (f + length ids))
           (with_sent (sent m ++ (pollMsg <$> seqZ a (Z.of_nat n)))
              (with_time (clock_after (300 * n) (clock m)) rx ln (assign_all f ids m))) /\
    (n <= todo)%nat /\
    ((f + length ids < 4)%nat -> n = todo) /\
    (forall j, (j < n)%nat ->
       (f + length (omap identifier_of (take j (heard todo (rx_fifo m) (line m)))) < 4)%nat).
Proof.
  revert a f m ids. induction todo as [|todo IH]; intros a f m ids Ha Ha0 Hf Hb Hd Hids.
  - cbn [heard omap list_omap] in Hids. rewrite take_nil in Hids. subst ids.
    exists 0%nat, (rx_fifo m), (line m).
    split; [ | split; [lia | split; [reflexivity | intros j Hj; lia]]].
    cbn [scan_loop]. replace (a <=? 5) with false by (symmetry; apply Z.leb_gt; lia).
    cbn [andb length assign_all seqZ]. rewrite Nat.add_0_r.
    change (seqZ a (Z.of_nat 0)) with (@nil Z). cbn [fmap list_fmap].
    rewrite app_nil_r. destruct m; reflexivity.
  - cbn [heard] in Hids. rewrite omap_identifier_cons in Hids.
    set (r0 := take 64 (rx_fifo m ++ concat (take 200 (line m)))) in *.
    destruct (Nat.eq_dec f 4%nat) as [->|Hf4].
    + (* the registry is full: the loop stops *)
      cbn [Nat.sub] in Hids. rewrite take_0 in Hids. subst ids.
      exists 0%nat, (rx_fifo m), (line m).
      split; [ | split; [lia | split; [cbn [length]; lia | intros j Hj; lia]]].
      cbn [scan_loop]. unfold MAX_BATTERIES.
      replace (Z.of_nat 4%nat <? 4) with false by reflexivity.
      rewrite andb_false_r. cbn [length assign_all]. rewrite Nat.add_0_r.
      change (seqZ a (Z.of_nat 0)) with (@nil Z). cbn [fmap list_fmap].
      rewrite app_nil_r. destruct m; reflexivity.
    + pose proof (accepted_length r0) as Hlen0.
      rewrite take_app_ge in Hids by lia.
      set (f1 := (f + length (accepted r0))%nat).
      set (m1 := with_sent (sent m ++ [pollMsg a])
                   (with_time (clock_after 100 (clock_after 200 (clock m)))
                      (concat (take 100 (drop 200 (line m)))) (drop 300 (line m))
                      (assign_all f (accepted r0) m))).
      destruct (assign_all_shape f (accepted r0) m) as (bs & ds & Heq & Hbs & Hds).
      destruct (IH (a + 1) f1 m1
                   (take (4 - f1) (omap identifier_of (heard todo (rx_fifo m1) (line m1)))))
        as (n & rx & ln & Hrun & Hn & Hall & Hroom).
      * lia.
      * lia.
      * subst f1. lia.
      * subst m1. rewrite Heq. cbn [with_sent with_time with_batteries batteries]. lia.
      * subst m1. rewrite Heq.
        cbn [with_sent with_time with_batteries with_discoveredBatteryIDs
             discoveredBatteryIDs]. lia.
      * reflexivity.
      * assert (Hrest : take (4 - f1) (omap identifier_of (heard todo (rx_fifo m1) (line m1)))
                        = take (4 - f - length (accepted r0))
                               (omap identifier_of
                                  (heard todo (concat (take 100 (drop 200 (line m))))
                                         (drop 300 (line m))))).
        { subst m1 f1. cbn [with_sent with_time rx_fifo line]. f_equal. lia. }
        rewrite Hrest in Hrun, Hall.
        set (rest := take (4 - f - length (accepted r0)) _) in *.
        exists (S n), rx, ln. subst ids.
        split; [ | split; [lia | split]].
        -- cbn [scan_loop]. unfold MAX_BATTERIES.
           replace (a <=? 5) with true by (symmetry; apply Z.leb_le; lia).
           replace (Z.of_nat f <? 4) with true by (symmetry; apply Z.ltb_lt; lia).
           cbn [andb]. rewrite bind_run.
           rewrite scan_address_spec by (try lia; assumption).
           fold r0. fold m1. fold f1. rewrite Hrun.
           f_equal.
           ++ rewrite length_app. subst f1. f_equal. lia.
           ++ subst m1. rewrite assign_all_hardware.
              rewrite assign_all_app. fold f1.
              cbn [with_sent with_time sent clock].
              rewrite (seqZ_cons a (Z.of_nat (S n))) by lia.
              replace (Z.pred (Z.of_nat (S n))) with (Z.of_nat n) by lia.
              replace (Z.succ a) with (a + 1) by lia.
              cbn [fmap list_fmap]. rewrite <- app_assoc. cbn [app].
              rewrite !clock_after_add.
              replace (200 + (100 + 300 * n))%nat with (300 * S n)%nat by lia.
              destruct (assign_all_shape f1 rest (assign_all f (accepted r0) m))
                as (bs' & ds' & -> & _ & _).
              rewrite Heq. reflexivity.
        -- intros Hfree. rewrite length_app in Hfree.
           rewrite Hall; [reflexivity | subst f1; lia].
        -- intros j Hj. destruct j as [|j].
           ++ rewrite take_0. cbn [omap list_omap length]. lia.
           ++ cbn [heard take]. fold r0. rewrite omap_identifier_cons, length_app.
              specialize (Hroom j ltac:(lia)).
              subst m1 f1. cbn [with_sent with_time rx_fifo line] in Hroom. lia.
Qed.

(** A discovery pass, as a whole.  [n] is the number of addresses polled. *)
Lemma discovery_spec (m : Machine) :
  length (batteries m) = 4%nat -> length (batteryIDsAssigned m) = 4%nat ->
  length (discoveredBatteryIDs m) = 4%nat ->
  exists (n : nat) (m' : Machine),
    initializeValenceProtocol m = Done tt m' /\
    (n <= 6)%nat /\
    ((length (take 4 (discovered m)) < 4)%nat -> n = 6%nat) /\
    (forall j, (j < n)%nat ->
       (length (omap identifier_of (take j (heard_by m))) < 4)%nat) /\
    protocolInitialized m' = true /\ de_pin m' = false /\
    batteryIDsAssigned m' = replicate 4 false /\
    length (batteries m') = 4%nat /\
    length (discoveredBatteryIDs m') = 4%nat /\
    match take 4 (discovered m) with
    | [] =>
        n = 6%nat /\
        activeBatteryCount m' = 4 /\
        sent m' = sent m ++ initSeq :: (pollMsg <$> seqZ 0 6) /\
        clock m' = clock_after 1900 (clock m) /\
        discoveredBatteryIDs m' = replicate 4 EmptyString /\
        (forall k b, batteries m' !! k = Some b -> synthetic k (clock m') b) /\
        (forall k b b0, batteries m' !! k = Some b -> batteries m !! k = Some b0 ->
                        length (cellVoltages b) = length (cellVoltages b0))
    | ids =>
        activeBatteryCount m' = Z.of_nat (length ids) /\
        sent m' = sent m ++ initSeq :: (pollMsg <$> seqZ 0 (Z.of_nat n)) ++ [initSeq] /\
        clock m' = clock_after (200 + 300 * n) (clock m) /\
        batteries m' = batteries (assign_all 0 ids (cleared m)) /\
        discoveredBatteryIDs m' = discoveredBatteryIDs (assign_all 0 ids (cleared m))
    end.
Proof.
  intros Hb Ha Hd.
  unfold initializeValenceProtocol. run_head.
  rewrite clear_loop_eq by assumption. fold (cleared m).
  change (0 <=? RS485_DE) with true. cbv beta iota.
  rewrite delay_eq. change (Z.to_nat 100) with 100%nat.
  cbn [with_sent with_de_pin with_activeBatteryCount cleared with_discoveredBatteryIDs
       with_batteryIDsAssigned with_batteries clock rx_fifo line sent].
  match goal with
  | |- context [scan_loop 6 0 0 ?ms] => set (m0 := ms)
  end.
  destruct (scan_loop_spec 6 0 0 m0 (take 4 (discovered m)))
    as (n & rx & ln & Hrun & Hn & Hall & Hroom).
  { reflexivity. }
  { lia. }
  { lia. }
  { subst m0. machine_fields. rewrite length_fmap. exact Hb. }
  { subst m0. machine_fields. reflexivity. }
  { subst m0. unfold discovered. machine_fields. reflexivity. }
  change (Z.of_nat 0) with 0 in Hrun. rewrite Hrun. clear Hrun.
  exists n.
  destruct (assign_all_shape 0 (take 4 (discovered m)) m0) as (bs & ds & Heq & Hbs & Hds).
  assert (Hbs4 : length bs = 4%nat).
  { rewrite Hbs. subst m0. machine_fields. rewrite length_fmap. exact Hb. }
  assert (Hds4 : length ds = 4%nat) by (rewrite Hds; reflexivity).
  destruct (take 4 (discovered m)) as [|id ids] eqn:Eids.
  - (* nothing found: synthetic data *)
    cbn [length assign_all] in *. specialize (Hall ltac:(lia)). subst n.
    change (0 <? Z.of_nat (0 + 0)) with false. cbv beta iota.
    match goal with
    | |- context [generateTestData ?mg] =>
        destruct (generateTestData_spec mg) as (gb & gd & Hgen & Hgb & Hsyn & Hcl)
    end.
    { subst m0. machine_fields. rewrite length_fmap. exact Hb. }
    rewrite Hgen. eexists. split; [reflexivity | ].
    split; [lia | ]. split; [reflexivity | ].
    split; [exact Hroom | ].
    subst m0. machine_fields.
    do 5 (split; [first [assumption | reflexivity] | ]).
    split; [reflexivity | ]. split; [reflexivity | ].
    split; [rewrite <- app_assoc; reflexivity | ].
    split; [rewrite clock_after_add; reflexivity | ].
    split; [reflexivity | ].
    split.
    + intros k b0 Hk. apply (Hsyn k b0) in Hk.
      machine_fields_in Hk. exact Hk.
    + intros k b b0 Hk Hk0. apply (Hcl k b (set_valid false b0)); [exact Hk | ].
      machine_fields. rewrite list_lookup_fmap, Hk0. reflexivity.
  - (* at least one battery found *)
    replace (0 <? Z.of_nat (0 + length (id :: ids))) with true
      by (symmetry; apply Z.ltb_lt; cbn [length]; lia).
    cbv beta iota. rewrite delay_eq. change (Z.to_nat 100) with 100%nat.
    eexists. split; [reflexivity | ].
    split; [exact Hn | ]. split; [exact Hall | ]. split; [exact Hroom | ].
    change (0 + length (id :: ids))%nat with (length (id :: ids)).
    destruct (assign_all_globals 0 (id :: ids) m0 (cleared m)) as [Hgb Hgd];
      [reflexivity | reflexivity | ].
    rewrite Heq in Hgb, Hgd. machine_fields_in Hgb. machine_fields_in Hgd.
    rewrite Heq. subst m0. machine_fields.
    do 5 (split; [first [assumption | reflexivity] | ]).
    split; [reflexivity | ].
    split; [rewrite <- !app_assoc; reflexivity | ].
    split; [rewrite !clock_after_add; f_equal; lia | ].
    split; assumption.
Qed.

Lemma assign_all_below (f : nat) (ids : list string) (m : Machine) (j : nat) :
  (j < f)%nat ->
  batteries (assign_all f ids m) !! j = batteries m !! j /\
  discoveredBatteryIDs (assign_all f ids m) !! j = discoveredBatteryIDs m !! j.
Proof.
  revert f m. induction ids as [|id ids IH]; intros f m Hj; [split; reflexivity | ].
  cbn [assign_all]. destruct (IH (S f)
    (with_batteries (alter (set_batteryID id) f (batteries m))
       (with_discoveredBatteryIDs (<[f := id]> (discoveredBatteryIDs m)) m)) ltac:(lia))
    as [H1 H2].
  rewrite H1, H2. machine_fields.
  rewrite list_lookup_alter_ne, list_lookup_insert_ne by lia. split; reflexivity.
Qed.

(** Slot [f + k] receives the [k]-th identifier and keeps its other fields. *)
Lemma assign_all_lookup (f : nat) (ids : list string) (m : Machine) (k : nat) (id : string) :
  ids !! k = Some id ->
  (f + length ids <= length (discoveredBatteryIDs m))%nat ->
  batteries (assign_all f ids m) !! (f + k)%nat
  = set_batteryID id <$> batteries m !! (f + k)%nat /\
  discoveredBatteryIDs (assign_all f ids m) !! (f + k)%nat = Some id.
Proof.
  revert f m k. induction ids as [|id0 ids IH]; intros f m k Hk Hd; [discriminate | ].
  cbn [assign_all length] in *.
  set (m1 := with_batteries (alter (set_batteryID id0) f (batteries m))
               (with_discoveredBatteryIDs (<[f := id0]> (discoveredBatteryIDs m)) m)).
  destruct k as [|k].
  - injection Hk as <-. rewrite Nat.add_0_r.
    destruct (assign_all_below (S f) ids m1 f ltac:(lia)) as [H1 H2].
    rewrite H1, H2. subst m1. machine_fields.
    rewrite list_lookup_alter_eq, list_lookup_insert_eq by lia. split; reflexivity.
  - cbn [lookup list_lookup] in Hk.
    replace (f + S k)%nat with (S f + k)%nat by lia.
    destruct (IH (S f) m1 k Hk) as [H1 H2].
    { subst m1. machine_fields. rewrite length_insert. lia. }
    rewrite H1, H2. subst m1. machine_fields.
    rewrite list_lookup_alter_ne by lia. split; reflexivity.
Qed.

(** ** C5 *)

(** C5, as the code has it.  A discovery pass polls addresses 0, 1, 2, ... in
    increasing order, an address only while the registry holds fewer than 4
    identifiers, and all six addresses unless it fills up.  If the valid
    responses heard carry the identifiers [ids] (the first four of them, if
    there are more) and there is at least one, these are assigned to slots
    0..N-1 in the order received, N being their number, and the active count
    is N afterwards. *)
Theorem discovery_assigns_in_order (m : Machine) (ids : list string) :
  length (batteries m) = 4%nat ->
  length (batteryIDsAssigned m) = 4%nat ->
  length (discoveredBatteryIDs m) = 4%nat ->
  take 4 (discovered m) = ids -> ids <> [] ->
  exists (n : nat) (m' : Machine),
    initializeValenceProtocol m = Done tt m' /\
    (length ids <= 4)%nat /\
    activeBatteryCount m' = Z.of_nat (length ids) /\
    (forall k id, ids !! k = Some id ->
       (exists b, batteries m' !! k = Some b /\ batteryID b = id) /\
       discoveredBatteryIDs m' !! k = Some id) /\
    sent m' = sent m ++ initSeq :: (pollMsg <$> seqZ 0 (Z.of_nat n)) ++ [initSeq] /\
    (n <= 6)%nat /\
    ((length ids < 4)%nat -> n = 6%nat) /\
    (forall j, (j < n)%nat ->
       (length (omap identifier_of (take j (heard_by m))) < 4)%nat).
Proof.
  intros Hb Ha Hd Hids Hne.
  destruct (discovery_spec m Hb Ha Hd)
    as (n & m' & Hrun & Hn & Hall & Hroom & _ & _ & _ & Hb' & Hd' & Hcase).
  rewrite Hids in Hcase, Hall.
  assert (Hlen : (length ids <= 4)%nat) by (rewrite <- Hids, length_take; lia).
  exists n, m'. split; [exact Hrun | ]. split; [exact Hlen | ].
  destruct ids as [|id0 ids0]; [contradiction | ].
  destruct Hcase as (Hcount & Hsent & _ & Hbs & Hds).
  split; [exact Hcount | ].
  split; [ | split; [exact Hsent | split; [exact Hn | split; [exact Hall | exact Hroom]]]].
  intros k id Hk.
  destruct (assign_all_lookup 0 (id0 :: ids0) (cleared m) k id Hk) as [H1 H2].
  { machine_fields. cbn [Nat.add]. cbn [length replicate] in *. lia. }
  cbn [Nat.add] in H1, H2. rewrite Hbs, Hds, H1, H2. split; [ | reflexivity].
  assert (Hklt : (k < length (batteries (cleared m)))%nat).
  { machine_fields. rewrite length_fmap. apply lookup_lt_Some in Hk. lia. }
  destruct (lookup_lt_is_Some_2 _ _ Hklt) as [b0 Hb0].
  rewrite Hb0. exists (set_batteryID id b0). split; reflexivity.
Qed.

Lemma discovery_assigns_in_order_witness :
  length (batteries (Sample.boot (Sample.answer_at_1 Sample.id_response))) = 4%nat /\
  length (batteryIDsAssigned (Sample.boot (Sample.answer_at_1 Sample.id_response)))
  = 4%nat /\
  length (discoveredBatteryIDs (Sample.boot (Sample.answer_at_1 Sample.id_response)))
  = 4%nat /\
  take 4 (discovered (Sample.boot (Sample.answer_at_1 Sample.id_response)))
  = ["CBB112810318"%string] /\
  ["CBB112810318"%string] <> [] /\
  exists (n : nat) (m' : Machine),
    initializeValenceProtocol (Sample.boot (Sample.answer_at_1 Sample.id_response))
    = Done tt m' /\
    (length ["CBB112810318"%string] <= 4)%nat /\
    activeBatteryCount m' = Z.of_nat (length ["CBB112810318"%string]) /\
    (forall k id, ["CBB112810318"%string] !! k = Some id ->
       (exists b, batteries m' !! k = Some b /\ batteryID b = id) /\
       discoveredBatteryIDs m' !! k = Some id) /\
    sent m' = sent (Sample.boot (Sample.answer_at_1 Sample.id_response))
              ++ initSeq :: (pollMsg <$> seqZ 0 (Z.of_nat n)) ++ [initSeq] /\
    (n <= 6)%nat /\
    ((length ["CBB112810318"%string] < 4)%nat -> n = 6%nat) /\
    (forall j, (j < n)%nat ->
       (length (omap identifier_of
                     (take j (heard_by (Sample.boot (Sample.answer_at_1 Sample.id_response)))))
        < 4)%nat).
Proof.
  assert (H1 : length (batteries (Sample.boot (Sample.answer_at_1 Sample.id_response)))
               = 4%nat) by reflexivity.
  assert (H2 : length (batteryIDsAssigned
                         (Sample.boot (Sample.answer_at_1 Sample.id_response)))
               = 4%nat) by reflexivity.
  assert (H3 : length (discoveredBatteryIDs
                         (Sample.boot (Sample.answer_at_1 Sample.id_response)))
               = 4%nat) by reflexivity.
  assert (H4 : take 4 (discovered (Sample.boot (Sample.answer_at_1 Sample.id_response)))
               = ["CBB112810318"%string]) by (vm_compute; reflexivity).
  assert (H5 : ["CBB112810318"%string] <> []) by discriminate.
  split; [exact H1 | ]. split; [exact H2 | ]. split; [exact H3 | ].
  split; [exact H4 | ]. split; [exact H5 | ].
  exact (discovery_assigns_in_order
           (Sample.boot (Sample.answer_at_1 Sample.id_response))
           ["CBB112810318"%string] H1 H2 H3 H4 H5).
Defined.

(** A pass that receives no valid response (N = 0) does not leave the active
    count at 0: the synthetic generator sets it to 4. *)
Lemma discovery_with_no_response :
  discovered (Sample.boot []) = [] /\
  exists m' : Machine,
    initializeValenceProtocol (Sample.boot []) = Done tt m' /\
    activeBatteryCount m' = 4 /\
    activeBatteryCount m' <> Z.of_nat (length (discovered (Sample.boot []))).
Proof.
  split; [vm_compute; reflexivity | ].
  eexists. split; [vm_compute; reflexivity | ].
  split; [reflexivity | vm_compute; discriminate].
Qed.

(** ** C7 *)



(* ===================================================================== *)
(** * Polling pass *)
(* ===================================================================== *)

Lemma keeps_registry_refl (m : Machine) : keeps_registry m m.
Proof.
  unfold keeps_registry. repeat (split; [reflexivity | ]).
  intros j b Hb. exists b. repeat split; [exact Hb | tauto].
Qed.

Lemma keeps_registry_trans (m1 m2 m3 : Machine) :
  keeps_registry m1 m2 -> keeps_registry m2 m3 -> keeps_registry m1 m3.
Proof.
  intros (A1 & A2 & A3 & A4 & A5 & A6 & A7 & A8 & A9)
         (B1 & B2 & B3 & B4 & B5 & B6 & B7 & B8 & B9).
  unfold keeps_registry.
  split; [congruence | ]. split; [congruence | ]. split; [congruence | ].
  split; [congruence | ]. split; [congruence | ]. split; [congruence | ].
  split; [congruence | ]. split; [congruence | ].
  intros j b Hb. destruct (A9 j b Hb) as (b2 & Hb2 & C1 & C2 & C3 & C4).
  destruct (B9 j b2 Hb2) as (b3 & Hb3 & D1 & D2 & D3 & D4).
  exists b3. split; [exact Hb3 | ]. split; [congruence | ]. split; [congruence | ].
  split; [tauto | congruence].
Qed.

Lemma keeps_registry_hardware (m : Machine) (s : list (list byte)) (c : Z)
      (rx : list byte) (ln : list (list byte)) :
  keeps_registry m (with_sent s (with_time c rx ln m)).
Proof.
  unfold keeps_registry. machine_fields. repeat (split; [reflexivity | ]).
  intros j b Hb. exists b. repeat split; [exact Hb | tauto].
Qed.

Lemma decode_fields_cells_length (data : list byte) (len : Z) (b : BatteryData) :
  length (cellVoltages (decode_fields data len b)) = length (cellVoltages b).
Proof.
  unfold decode_fields.
  destruct (15 <? len); destruct (16 <? len); destruct (30 <? len); destruct (35 <? len);
    battery_fields; try reflexivity;
    match goal with
    | |- length (cellVoltages (cell_loop ?d ?l ?t ?i ?x)) = _ =>
        pose proof (cell_loop_other d l t i x) as Hc; cbv zeta in Hc;
        destruct Hc as (_ & _ & _ & _ & _ & _ & _ & _ & _ & _ & H11);
        rewrite H11; reflexivity
    end.
Qed.

(** One polling attempt for slot [i] while batteries are active. *)
Lemma poll_step_spec (i : Z) (m : Machine) :
  0 <= i -> length (batteries m) = 4%nat -> 0 <= clock m < 4294967296 ->
  activeBatteryCount m <> 0 ->
  exists (r : bool) (m' : Machine),
    requestSingleBatteryData i m = Done r m' /\
    keeps_registry m m' /\
    0 <= clock m' < 4294967296 /\
    sent m' = sent m ++ (if i <? MAX_BATTERIES then [dataRequest i] else []) /\
    (forall j, j <> Z.to_nat i -> batteries m' !! j = batteries m !! j) /\
    (r = false -> batteries m' = batteries m) /\
    (r = true -> exists b, batteries m' !! Z.to_nat i = Some b /\ valid b = true).
Proof.
  intros Hi Hb Hc Hn.
  destruct (Z.ltb_spec i MAX_BATTERIES) as [Hlt|Hge].
  - rewrite requestSingle_unfold by exact Hlt.
    destruct (exchange_total i m Hc) as (resp & c & rx & ln & Hex & Hcr & _).
    rewrite Hex.
    set (m1 := with_sent (sent m ++ [dataRequest i]) (with_time c rx ln m)).
    assert (Hfail : judge_response i resp m1 = Done false m1 ->
      exists (r : bool) (m' : Machine),
        judge_response i resp m1 = Done r m' /\
        keeps_registry m m' /\ 0 <= clock m' < 4294967296 /\
        sent m' = sent m ++ [dataRequest i] /\
        (forall j, j <> Z.to_nat i -> batteries m' !! j = batteries m !! j) /\
        (r = false -> batteries m' = batteries m) /\
        (r = true -> exists b, batteries m' !! Z.to_nat i = Some b /\ valid b = true)).
    { intros E. exists false, m1. split; [exact E | ].
      split; [apply keeps_registry_hardware | ].
      split; [exact Hcr | ]. split; [reflexivity | ].
      split; [intros; reflexivity | ]. split; [intros; reflexivity | discriminate]. }
    destruct (Z.leb_spec 20 (Z.of_nat (length resp))) as [H20|H20];
      [destruct (Z.eq_dec (u8 (at_ resp 0)) 0xFF) as [Hff|Hff] | ].
    + (* a frame the decoder accepts *)
      unfold MAX_BATTERIES in Hlt.
      assert (Hil : (Z.to_nat i < length (batteries m))%nat) by lia.
      destruct (lookup_lt_is_Some_2 _ _ Hil) as [old Hold].
      unfold judge_response.
      replace (20 <=? Z.of_nat (length resp)) with true by (symmetry; apply Z.leb_le; lia).
      rewrite (parse_accepts resp _ i m1 old); [ | exact H20 | exact Hff | | exact Hold].
      2: { unfold MAX_BATTERIES. lia. }
      pose proof (decode_fields_main resp (Z.of_nat (length resp)) old H20) as Hd.
      cbv zeta in Hd. destruct Hd as (_ & _ & _ & _ & _ & Hv & Hcy & Hid & _).
      eexists. eexists. split; [reflexivity | ].
      subst m1. machine_fields. split.
      { unfold keeps_registry. machine_fields.
        do 7 (split; [reflexivity | ]). split; [apply length_insert | ].
        intros j b Hj. destruct (Nat.eq_dec j (Z.to_nat i)) as [->|Hne].
        - rewrite Hold in Hj. injection Hj as <-.
          eexists. split; [apply list_lookup_insert_eq; exact Hil | ].
          battery_fields. rewrite Hid, Hcy, Hv, decode_fields_cells_length.
          repeat split.
        - exists b. split; [rewrite list_lookup_insert_ne by lia; exact Hj | ].
          repeat split. tauto. }
      split; [exact Hcr | ]. split; [reflexivity | ].
      split; [intros j Hj; apply list_lookup_insert_ne; lia | ].
      split; [discriminate | ].
      intros _. eexists. split; [apply list_lookup_insert_eq; exact Hil | ].
      battery_fields. exact Hv.
    + apply Hfail. apply judge_response_failure; [exact Hn | right; exact Hff].
    + apply Hfail. apply judge_response_failure; [exact Hn | left; exact H20].
  - unfold requestSingleBatteryData.
    replace (MAX_BATTERIES <=? i) with true by (symmetry; apply Z.leb_le; lia).
    exists false, m. split; [reflexivity | ].
    split; [apply keeps_registry_refl | ]. split; [exact Hc | ].
    split; [symmetry; apply app_nil_r | ].
    split; [intros; reflexivity | ]. split; [intros; reflexivity | discriminate].
Qed.

(** The slot loop of a polling pass, from slot [i] on. *)
Lemma poll_loop_spec (todo : nat) (i : Z) (m : Machine) :
  0 <= i -> Z.of_nat todo = activeBatteryCount m - i ->
  activeBatteryCount m <= 4 ->
  length (batteries m) = 4%nat -> 0 <= clock m < 4294967296 ->
  exists m' : Machine,
    poll_loop todo i m = Done tt m' /\
    keeps_registry m m' /\
    0 <= clock m' < 4294967296 /\
    sent m' = sent m ++ (dataRequest <$> seqZ i (Z.min (activeBatteryCount m) 4 - i)) /\
    (forall j, Z.of_nat j < i \/ activeBatteryCount m <= Z.of_nat j ->
               batteries m' !! j = batteries m !! j).
Proof.
  revert i m. induction todo as [|todo IH]; intros i m Hi Htodo Hmax Hb Hc.
  - exists m. split.
    { cbn [poll_loop]. rewrite bind_run. unfold gets.
      replace (i <? activeBatteryCount m) with false by (symmetry; apply Z.ltb_ge; lia).
      reflexivity. }
    split; [apply keeps_registry_refl | ]. split; [exact Hc | ].
    split; [rewrite seqZ_nil by lia; symmetry; apply app_nil_r | intros; reflexivity].
  - destruct (poll_step_spec i m Hi Hb Hc ltac:(lia))
      as (r & m1 & Hrun & Hk1 & Hc1 & Hs1 & Ho1 & _ & _).
    pose proof Hk1 as (Hn1 & _ & _ & _ & _ & _ & _ & Hl1 & _).
    set (m2 := with_time (clock_after 150 (clock m1))
                 (rx_fifo m1 ++ concat (take 150 (line m1))) (drop 150 (line m1)) m1).
    assert (Hk2 : keeps_registry m1 m2).
    { pose proof (keeps_registry_hardware m1 (sent m1) (clock_after 150 (clock m1))
                    (rx_fifo m1 ++ concat (take 150 (line m1))) (drop 150 (line m1))) as H.
      replace (with_sent (sent m1) _) with m2 in H; [exact H | ].
      subst m2. destruct m1; reflexivity. }
    destruct (IH (i + 1) m2) as (m' & Hloop & Hk3 & Hc3 & Hs3 & Ho3).
    { lia. }
    { subst m2. machine_fields. lia. }
    { subst m2. machine_fields. lia. }
    { subst m2. machine_fields. lia. }
    { subst m2. machine_fields. apply clock_after_range. exact Hc1. }
    exists m'. split.
    { cbn [poll_loop]. rewrite bind_run. unfold gets.
      replace (i <? activeBatteryCount m) with true by (symmetry; apply Z.ltb_lt; lia).
      assert (Hil : (Z.to_nat i < length (batteries m))%nat) by lia.
      destruct (lookup_lt_is_Some_2 _ _ Hil) as [b Hb0].
      rewrite bind_run. unfold load_battery.
      replace (i <? 0) with false by (symmetry; apply Z.ltb_ge; lia).
      rewrite Hb0.
      rewrite bind_run, Hrun. rewrite bind_run, delay_eq.
      change (Z.to_nat 150) with 150%nat. fold m2. exact Hloop. }
    split; [exact (keeps_registry_trans _ _ _ (keeps_registry_trans _ _ _ Hk1 Hk2) Hk3) | ].
    split; [exact Hc3 | ]. split.
    { rewrite Hs3. subst m2. machine_fields. rewrite Hs1, Hn1, <- app_assoc. f_equal.
      unfold MAX_BATTERIES.
      destruct (Z.ltb_spec i 4) as [Hlt|Hge].
      - rewrite (seqZ_cons i) by lia. cbn [fmap list_fmap app]. f_equal. f_equal.
        f_equal; lia.
      - rewrite !seqZ_nil by lia. reflexivity. }
    intros j Hj. rewrite Ho3 by (subst m2; machine_fields; lia).
    subst m2. machine_fields. apply Ho1. lia.
Qed.

(** A polling pass, as a whole. *)
Lemma poll_pass_spec (m : Machine) :
  protocolInitialized m = true -> activeBatteryCount m <= 4 ->
  length (batteries m) = 4%nat -> 0 <= clock m < 4294967296 ->
  exists m' : Machine,
    requestBatteryData m = Done tt m' /\
    keeps_registry m (with_de_pin (de_pin m) m') /\
    de_pin m' = false /\
    0 <= clock m' < 4294967296 /\
    sent m' = sent m ++ (dataRequest <$> seqZ 0 (Z.min (activeBatteryCount m) 4)) /\
    (forall j, activeBatteryCount m <= Z.of_nat j ->
               batteries m' !! j = batteries m !! j).
Proof.
  intros Hinit Hmax Hb Hc.
  unfold requestBatteryData. rewrite bind_run. unfold gets at 1. rewrite Hinit.
  cbn [negb]. change (0 <=? RS485_DE) with true. cbn [when].
  rewrite bind_run, bind_run. unfold digitalWrite_DE, modify. cbv beta.
  unfold delayMicroseconds. cbn [mret M_ret].
  rewrite bind_run. unfold gets. machine_fields.
  destruct (Z.le_gt_cases (activeBatteryCount m) 0) as [Hzero|Hpos].
  - (* no active battery: the loop body is never run *)
    replace (Z.to_nat (activeBatteryCount m)) with 0%nat by lia.
    rewrite bind_run. cbn [poll_loop]. rewrite bind_run. unfold gets. machine_fields.
    replace (0 <? activeBatteryCount m) with false by (symmetry; apply Z.ltb_ge; lia).
    cbn [mret M_ret]. rewrite bind_run. cbn [mret M_ret].
    eexists. split; [reflexivity | ]. machine_fields.
    split.
    { replace (with_de_pin (de_pin m) (with_de_pin false (with_de_pin true m))) with m
        by (destruct m; reflexivity).
      apply keeps_registry_refl. }
    split; [reflexivity | ]. split; [exact Hc | ].
    split; [rewrite seqZ_nil by lia; symmetry; apply app_nil_r | intros; reflexivity].
  - destruct (poll_loop_spec (Z.to_nat (activeBatteryCount m)) 0 (with_de_pin true m))
      as (m1 & Hloop & Hk & Hc1 & Hs & Ho).
    { lia. }
    { machine_fields. lia. }
    { exact Hmax. }
    { exact Hb. }
    { exact Hc. }
    rewrite bind_run, Hloop. rewrite bind_run. cbn [mret M_ret].
    eexists. split; [reflexivity | ]. machine_fields.
    machine_fields_in Hs. machine_fields_in Ho.
    destruct Hk as (A1 & A2 & A3 & A4 & A5 & A6 & A7 & A8 & A9).
    machine_fields_in A1. machine_fields_in A2. machine_fields_in A3.
    machine_fields_in A4. machine_fields_in A6. machine_fields_in A7.
    machine_fields_in A8. machine_fields_in A9.
    split.
    { unfold keeps_registry. machine_fields.
      repeat (split; [assumption || reflexivity | ]). exact A9. }
    split; [reflexivity | ]. split; [exact Hc1 | ].
    split; [rewrite Hs, Z.sub_0_r; reflexivity | ].
    intros j Hj. apply Ho. right. exact Hj.
Qed.

(** With more than four batteries counted as active the loop goes on to
    slot 4 and reads [batteries[4]], past the end of the array. *)
Lemma poll_loop_overrun (todo : nat) (i : Z) (m : Machine) :
  0 <= i <= 4 -> Z.of_nat todo = activeBatteryCount m - i ->
  4 < activeBatteryCount m ->
  length (batteries m) = 4%nat -> 0 <= clock m < 4294967296 ->
  poll_loop todo i m = Undefined.
Proof.
  revert i m. induction todo as [|todo IH]; intros i m Hi Htodo Hover Hb Hc; [lia | ].
  cbn [poll_loop]. rewrite bind_run. unfold gets.
  replace (i <? activeBatteryCount m) with true by (symmetry; apply Z.ltb_lt; lia).
  rewrite bind_run. unfold load_battery.
  replace (i <? 0) with false by (symmetry; apply Z.ltb_ge; lia).
  destruct (Z.eq_dec i 4) as [->|Hne].
  - rewrite lookup_ge_None_2 by (rewrite Hb; cbn; lia). reflexivity.
  - assert (Hil : (Z.to_nat i < length (batteries m))%nat) by lia.
    destruct (lookup_lt_is_Some_2 _ _ Hil) as [b Hb0]. rewrite Hb0.
    destruct (poll_step_spec i m ltac:(lia) Hb Hc ltac:(lia))
      as (r & m1 & Hrun & Hk1 & Hc1 & _).
    destruct Hk1 as (Hn1 & _ & _ & _ & _ & _ & _ & Hl1 & _).
    rewrite bind_run, Hrun. rewrite bind_run, delay_eq.
    apply IH; machine_fields; try lia.
    apply clock_after_range. exact Hc1.
Qed.

Lemma poll_pass_overrun (m : Machine) :
  protocolInitialized m = true -> 4 < activeBatteryCount m ->
  length (batteries m) = 4%nat -> 0 <= clock m < 4294967296 ->
  requestBatteryData m = Undefined.
Proof.
  intros Hinit Hover Hb Hc.
  unfold requestBatteryData. rewrite bind_run. unfold gets at 1. rewrite Hinit.
  cbn [negb]. change (0 <=? RS485_DE) with true. cbn [when].
  rewrite bind_run, bind_run. unfold digitalWrite_DE, modify. cbv beta.
  unfold delayMicroseconds. cbn [mret M_ret].
  rewrite bind_run. unfold gets. machine_fields.
  rewrite bind_run.
  rewrite (poll_loop_overrun (Z.to_nat (activeBatteryCount m)) 0 (with_de_pin true m));
    machine_fields; [reflexivity | lia ..].
Qed.

(** ** C10 *)




(* ===================================================================== *)
(** * Outgoing frames *)
(* ===================================================================== *)

Lemma framed_single (frame : list byte) : crc_terminated frame -> framed frame.
Proof.
  intros H. exists [frame]. split; [cbn [concat]; symmetry; apply app_nil_r | ].
  constructor; [exact H | constructor].
Qed.

Lemma framed_initSeq : framed initSeq.
Proof.
  exists [[xff; x43; x06; x06; x42; x46]; [xff; x43; x06; x06; x42; x46]].
  split; [reflexivity | ].
  constructor; [exact wakeup_terminated | ].
  constructor; [exact wakeup_terminated | constructor].
Qed.

Lemma framed_polls (l : list Z) : Forall framed (pollMsg <$> l).
Proof.
  induction l as [|a l IH]; [constructor | ].
  cbn [fmap list_fmap]. constructor; [apply framed_single, pollMsg_terminated | exact IH].
Qed.

Lemma framed_requests (l : list Z) : Forall framed (dataRequest <$> l).
Proof.
  induction l as [|a l IH]; [constructor | ].
  cbn [fmap list_fmap]. constructor; [apply framed_single, dataRequest_terminated | exact IH].
Qed.

Lemma writes_app (m m' : Machine) (ws : list (list byte)) :
  sent m' = sent m ++ ws -> writes m m' = ws.
Proof. intros H. unfold writes. rewrite H. apply drop_app_length. Qed.

(** ** C4 *)

(** C4.  [calculateModbusCRC] over the first [n] bytes of a buffer is the
    MODBUS CRC-16 of those bytes (seed 0xFFFF, each byte XORed into the low
    byte, then eight times: shift right, XOR 0xA001 when the bit shifted out
    was set); it is a 16-bit value that depends on nothing but these bytes;
    and every write of a discovery pass or of a polling pass consists of
    frames that end with the CRC of their preceding bytes, low byte first. *)
Theorem crc16_modbus_frames (data : list byte) (n : nat) (m m' : Machine) :
  (n <= length data)%nat ->
  length (batteries m) = 4%nat ->
  length (batteryIDsAssigned m) = 4%nat ->
  length (discoveredBatteryIDs m) = 4%nat ->
  0 <= clock m < 4294967296 ->
  initializeValenceProtocol m = Done tt m' \/ requestBatteryData m = Done tt m' ->
  calculateModbusCRC data (Z.of_nat n) = crc16 (take n data) /\
  0 <= crc16 (take n data) < 65536 /\
  Forall framed (writes m m').
Proof.
  intros Hn Hb Ha Hd Hc Hrun.
  split; [apply calculateModbusCRC_prefix; exact Hn | ].
  split; [apply crc16_range | ].
  destruct Hrun as [Hrun|Hrun].
  - destruct (discovery_spec m Hb Ha Hd)
      as (k & m1 & Hrun1 & _ & _ & _ & _ & _ & _ & _ & _ & Hcase).
    rewrite Hrun1 in Hrun. injection Hrun as <-.
    destruct (take 4 (discovered m)) as [|id ids].
    + destruct Hcase as (_ & _ & Hs & _).
      rewrite (writes_app _ _ _ Hs).
      constructor; [exact framed_initSeq | apply framed_polls].
    + destruct Hcase as (_ & Hs & _).
      rewrite (writes_app _ _ _ Hs).
      constructor; [exact framed_initSeq | ].
      apply Forall_app. split; [apply framed_polls | ].
      constructor; [exact framed_initSeq | constructor].
  - destruct (protocolInitialized m) eqn:Hinit.
    + destruct (Z.le_gt_cases (activeBatteryCount m) 4) as [Hmax|Hover].
      * destruct (poll_pass_spec m Hinit Hmax Hb Hc) as (m1 & Hrun1 & _ & _ & _ & Hs & _).
        rewrite Hrun1 in Hrun. injection Hrun as <-.
        rewrite (writes_app _ _ _ Hs). apply framed_requests.
      * rewrite (poll_pass_overrun m Hinit ltac:(lia) Hb Hc) in Hrun. discriminate.
    + unfold requestBatteryData in Hrun. rewrite bind_run in Hrun.
      unfold gets in Hrun. rewrite Hinit in Hrun. cbn [negb mret M_ret] in Hrun.
      injection Hrun as <-. unfold writes. rewrite drop_all. constructor.
Qed.

Lemma crc16_modbus_frames_witness :
  exists m' : Machine,
    (5 <= length (pollMsg 3))%nat /\
    length (batteries (Sample.boot [])) = 4%nat /\
    length (batteryIDsAssigned (Sample.boot [])) = 4%nat /\
    length (discoveredBatteryIDs (Sample.boot [])) = 4%nat /\
    0 <= clock (Sample.boot []) < 4294967296 /\
    (initializeValenceProtocol (Sample.boot []) = Done tt m'
     \/ requestBatteryData (Sample.boot []) = Done tt m') /\
    calculateModbusCRC (pollMsg 3) (Z.of_nat 5) = crc16 (take 5 (pollMsg 3)) /\
    0 <= crc16 (take 5 (pollMsg 3)) < 65536 /\
    Forall framed (writes (Sample.boot []) m').
Proof.
  assert (H1 : (5 <= length (pollMsg 3))%nat) by (vm_compute; repeat constructor).
  assert (H2 : length (batteries (Sample.boot [])) = 4%nat) by reflexivity.
  assert (H3 : length (batteryIDsAssigned (Sample.boot [])) = 4%nat) by reflexivity.
  assert (H4 : length (discoveredBatteryIDs (Sample.boot [])) = 4%nat) by reflexivity.
  assert (H5 : 0 <= clock (Sample.boot []) < 4294967296) by (cbn; lia).
  eexists.
  assert (H6 : initializeValenceProtocol (Sample.boot []) = Done tt ?[m']
               \/ requestBatteryData (Sample.boot []) = Done tt ?m')
    by (left; vm_compute; reflexivity).
  split; [exact H1 | ]. split; [exact H2 | ]. split; [exact H3 | ].
  split; [exact H4 | ]. split; [exact H5 | ]. split; [exact H6 | ].
  exact (crc16_modbus_frames (pollMsg 3) 5 (Sample.boot []) _ H1 H2 H3 H4 H5 H6).
Defined.

(** The check value of the MODBUS CRC-16, on the ASCII digits 1 to 9. *)
Example crc16_check_value :
  calculateModbusCRC [x31; x32; x33; x34; x35; x36; x37; x38; x39] 9 = 0x4B37.
Proof. reflexivity. Qed.

(* ===================================================================== *)
(** * More on discovery *)
(* ===================================================================== *)

(** Assigning identifiers changes nothing but [batteryID]. *)
Lemma assign_all_slot (f : nat) (ids : list string) (m : Machine) (j : nat)
      (b' : BatteryData) :
  batteries (assign_all f ids m) !! j = Some b' ->
  exists b : BatteryData,
    batteries m !! j = Some b /\ set_batteryID (batteryID b') b = b'.
Proof.
  revert f m. induction ids as [|id ids IH]; intros f m H.
  - exists b'. split; [exact H | destruct b'; reflexivity].
  - cbn [assign_all] in H. apply IH in H. destruct H as (b1 & H1 & H2).
    machine_fields_in H1.
    destruct (Nat.eq_dec f j) as [->|Hne].
    + rewrite list_lookup_alter_eq in H1.
      destruct (batteries m !! j) as [b0|] eqn:E; [ | discriminate].
      injection H1 as <-. exists b0. split; [reflexivity | ].
      rewrite <- H2. reflexivity.
    + rewrite list_lookup_alter_ne in H1 by exact Hne.
      exists b1. split; [exact H1 | exact H2].
Qed.

Lemma assign_all_above (f : nat) (ids : list string) (m : Machine) (j : nat) :
  (f + length ids <= j)%nat ->
  batteries (assign_all f ids m) !! j = batteries m !! j /\
  discoveredBatteryIDs (assign_all f ids m) !! j = discoveredBatteryIDs m !! j.
Proof.
  revert f m. induction ids as [|id ids IH]; intros f m Hj; [split; reflexivity | ].
  cbn [assign_all length] in *.
  destruct (IH (S f)
    (with_batteries (alter (set_batteryID id) f (batteries m))
       (with_discoveredBatteryIDs (<[f := id]> (discoveredBatteryIDs m)) m)) ltac:(lia))
    as [H1 H2].
  rewrite H1, H2. machine_fields.
  rewrite list_lookup_alter_ne, list_lookup_insert_ne by lia. split; reflexivity.
Qed.

Lemma cells_sized_lookup (bs bs' : list BatteryData) :
  Forall (fun b => length (cellVoltages b) = 6%nat) bs ->
  (forall j b', bs' !! j = Some b' ->
     exists b, bs !! j = Some b /\ length (cellVoltages b') = length (cellVoltages b)) ->
  Forall (fun b => length (cellVoltages b) = 6%nat) bs'.
Proof.
  intros H Hrel. apply Forall_lookup. intros j b' Hb'.
  destruct (Hrel j b' Hb') as (b & Hb & Hlen).
  rewrite Hlen. exact (proj1 (Forall_lookup _ _) H j b Hb).
Qed.

(** A discovery pass on a well-formed machine, as [loop] and
    [handleButtons] see it. *)
Lemma discovery_pass (m : Machine) :
  wf_machine m ->
  exists (m' : Machine) (rest : list (list byte)),
    initializeValenceProtocol m = Done tt m' /\
    ready m' /\
    protocolInitialized m' = true /\
    de_pin m' = false /\
    activeBatteryCount m'
    = match take 4 (discovered m) with
      | [] => 4
      | ids => Z.of_nat (length ids)
      end /\
    sent m' = sent m ++ initSeq :: rest /\
    Forall framed rest.
Proof.
  intros (Hb & Ha & Hd & Hcells & Hc).
  destruct (discovery_spec m Hb Ha Hd)
    as (n & m' & Hrun & Hn & _ & _ & Hinit & Hde & Hasg & Hb' & Hd' & Hcase).
  assert (Hlen4 : (length (take 4 (discovered m)) <= 4)%nat) by (rewrite length_take; lia).
  destruct (take 4 (discovered m)) as [|id ids] eqn:E.
  - destruct Hcase as (_ & Hcount & Hs & Hclk & _ & _ & Hcl).
    exists m', (pollMsg <$> seqZ 0 6). split; [exact Hrun | ].
    split; [ | split; [exact Hinit | split; [exact Hde | split; [exact Hcount | split;
      [exact Hs | apply framed_polls]]]]].
    split; [ | intros _; lia].
    split; [exact Hb' | ]. split; [rewrite Hasg; reflexivity | ].
    split; [exact Hd' | ]. split; [ | rewrite Hclk; apply clock_after_range; exact Hc].
    apply (cells_sized_lookup (batteries m)); [exact Hcells | ].
    intros j b' Hj.
    assert (Hjl : (j < length (batteries m))%nat)
      by (apply lookup_lt_Some in Hj; lia).
    destruct (lookup_lt_is_Some_2 _ _ Hjl) as [b0 Hb0].
    exists b0. split; [exact Hb0 | exact (Hcl j b' b0 Hj Hb0)].
  - destruct Hcase as (Hcount & Hs & Hclk & Hbs & _).
    exists m', ((pollMsg <$> seqZ 0 (Z.of_nat n)) ++ [initSeq]). split; [exact Hrun | ].
    split; [ | split; [exact Hinit | split; [exact Hde | split; [exact Hcount | split;
      [exact Hs | ]]]]].
    2: { apply Forall_app. split; [apply framed_polls | ].
         constructor; [exact framed_initSeq | constructor]. }
    split; [ | intros _; rewrite Hcount; cbn [length] in *; lia].
    split; [exact Hb' | ]. split; [rewrite Hasg; reflexivity | ].
    split; [exact Hd' | ]. split; [ | rewrite Hclk; apply clock_after_range; exact Hc].
    apply (cells_sized_lookup (batteries m)); [exact Hcells | ].
    intros j b' Hj. rewrite Hbs in Hj.
    destruct (assign_all_slot _ _ _ _ _ Hj) as (b1 & Hb1 & Hset).
    machine_fields_in Hb1. rewrite list_lookup_fmap in Hb1.
    destruct (batteries m !! j) as [b0|] eqn:E0; [ | discriminate].
    injection Hb1 as <-. exists b0. split; [reflexivity | ].
    rewrite <- Hset. reflexivity.
Qed.

(** X1.  A discovery pass started on a well-formed machine always runs to
    completion without leaving an array, and leaves the machine ready for
    polling: still well-formed, initialised, the direction pin low, and with
    between one and four active batteries: the number of identifiers found
    (at most four), or four synthetic ones when none was found. *)
Theorem discovery_establishes_ready (m : Machine) :
  wf_machine m ->
  exists m' : Machine,
    initializeValenceProtocol m = Done tt m' /\
    ready m' /\
    protocolInitialized m' = true /\
    de_pin m' = false /\
    activeBatteryCount m'
    = match take 4 (discovered m) with
      | [] => 4
      | ids => Z.of_nat (length ids)
      end.
Proof.
  intros H.
  destruct (discovery_pass m H) as (m' & rest & Hrun & Hready & Hinit & Hde & Hcount & _).
  exists m'.
  split; [exact Hrun | split; [exact Hready | split; [exact Hinit | split;
    [exact Hde | exact Hcount]]]].
Qed.

Lemma discovery_establishes_ready_witness :
  wf_machine (Sample.boot (Sample.answer_at_1 Sample.id_response)) /\
  exists m' : Machine,
    initializeValenceProtocol (Sample.boot (Sample.answer_at_1 Sample.id_response))
    = Done tt m' /\
    ready m' /\
    protocolInitialized m' = true /\
    de_pin m' = false /\
    activeBatteryCount m'
    = match take 4 (discovered (Sample.boot (Sample.answer_at_1 Sample.id_response))) with
      | [] => 4
      | ids => Z.of_nat (length ids)
      end.
Proof.
  assert (H : wf_machine (Sample.boot (Sample.answer_at_1 Sample.id_response))).
  { unfold wf_machine. cbn [Sample.boot batteries batteryIDsAssigned discoveredBatteryIDs clock].
    repeat split; try reflexivity; try lia.
    repeat constructor. }
  split; [exact H | ].
  exact (discovery_establishes_ready _ H).
Defined.

(** X2.  A discovery pass that finds at least one battery leaves every slot
    invalid until it is polled, and touches nothing in a slot but the valid
    flag and the identifier.  Slots beyond the batteries found keep the
    identifier they had before the pass in the registry, while their entry in
    [discoveredBatteryIDs] is reset to the empty string. *)
Theorem discovery_keeps_readings (m : Machine) (ids : list string) :
  length (batteries m) = 4%nat ->
  length (batteryIDsAssigned m) = 4%nat ->
  length (discoveredBatteryIDs m) = 4%nat ->
  take 4 (discovered m) = ids -> ids <> [] ->
  exists m' : Machine,
    initializeValenceProtocol m = Done tt m' /\
    (forall j b', batteries m' !! j = Some b' ->
       valid b' = false /\
       exists b, batteries m !! j = Some b /\
                 set_batteryID (batteryID b') (set_valid false b) = b') /\
    (forall j b b', (length ids <= j)%nat ->
       batteries m !! j = Some b -> batteries m' !! j = Some b' ->
       batteryID b' = batteryID b /\ discoveredBatteryIDs m' !! j = Some EmptyString).
Proof.
  intros Hb Ha Hd Hids Hne.
  destruct (discovery_spec m Hb Ha Hd)
    as (n & m' & Hrun & _ & _ & _ & _ & _ & _ & Hb' & Hd' & Hcase).
  rewrite Hids in Hcase.
  destruct ids as [|id0 ids0]; [contradiction | ].
  destruct Hcase as (_ & _ & _ & Hbs & Hds).
  exists m'. split; [exact Hrun | ]. split.
  - intros j b' Hj. rewrite Hbs in Hj.
    destruct (assign_all_slot _ _ _ _ _ Hj) as (b1 & Hb1 & Hset).
    machine_fields_in Hb1. rewrite list_lookup_fmap in Hb1.
    destruct (batteries m !! j) as [b0|] eqn:E0; [ | discriminate].
    injection Hb1 as <-. split.
    + rewrite <- Hset. reflexivity.
    + exists b0. split; [reflexivity | exact Hset].
  - intros j b b' Hj Hbj Hbj'.
    destruct (assign_all_above 0 (id0 :: ids0) (cleared m) j ltac:(cbn [Nat.add]; exact Hj))
      as [H1 H2].
    rewrite Hbs, H1 in Hbj'. rewrite Hds, H2.
    machine_fields_in Hbj'. machine_fields.
    rewrite list_lookup_fmap, Hbj in Hbj'. injection Hbj' as <-.
    split; [reflexivity | ].
    apply lookup_replicate. split; [reflexivity | ].
    apply lookup_lt_Some in Hbj. lia.
Qed.

Lemma discovery_keeps_readings_witness :
  length (batteries (Sample.boot (Sample.answer_at_1 Sample.id_response))) = 4%nat /\
  length (batteryIDsAssigned (Sample.boot (Sample.answer_at_1 Sample.id_response)))
  = 4%nat /\
  length (discoveredBatteryIDs (Sample.boot (Sample.answer_at_1 Sample.id_response)))
  = 4%nat /\
  take 4 (discovered (Sample.boot (Sample.answer_at_1 Sample.id_response)))
  = ["CBB112810318"%string] /\
  ["CBB112810318"%string] <> [] /\
  exists m' : Machine,
    initializeValenceProtocol (Sample.boot (Sample.answer_at_1 Sample.id_response))
    = Done tt m' /\
    (forall j b', batteries m' !! j = Some b' ->
       valid b' = false /\
       exists b, batteries (Sample.boot (Sample.answer_at_1 Sample.id_response)) !! j
                 = Some b /\
                 set_batteryID (batteryID b') (set_valid false b) = b') /\
    (forall j b b', (length ["CBB112810318"%string] <= j)%nat ->
       batteries (Sample.boot (Sample.answer_at_1 Sample.id_response)) !! j = Some b ->
       batteries m' !! j = Some b' ->
       batteryID b' = batteryID b /\ discoveredBatteryIDs m' !! j = Some EmptyString).
Proof.
  assert (H1 : length (batteries (Sample.boot (Sample.answer_at_1 Sample.id_response)))
               = 4%nat) by reflexivity.
  assert (H2 : length (batteryIDsAssigned
                         (Sample.boot (Sample.answer_at_1 Sample.id_response)))
               = 4%nat) by reflexivity.
  assert (H3 : length (discoveredBatteryIDs
                         (Sample.boot (Sample.answer_at_1 Sample.id_response)))
               = 4%nat) by reflexivity.
  assert (H4 : take 4 (discovered (Sample.boot (Sample.answer_at_1 Sample.id_response)))
               = ["CBB112810318"%string]) by (vm_compute; reflexivity).
  assert (H5 : ["CBB112810318"%string] <> []) by discriminate.
  split; [exact H1 | ]. split; [exact H2 | ]. split; [exact H3 | ].
  split; [exact H4 | ]. split; [exact H5 | ].
  exact (discovery_keeps_readings _ _ H1 H2 H3 H4 H5).
Defined.

(* ===================================================================== *)
(** * More on polling *)
(* ===================================================================== *)

(** A polling pass on a ready machine, as [loop] sees it. *)
Lemma polling_pass (m : Machine) :
  ready m -> protocolInitialized m = true ->
  exists m' : Machine,
    requestBatteryData m = Done tt m' /\
    ready m' /\
    de_pin m' = false /\
    activeBatteryCount m' = activeBatteryCount m /\
    protocolInitialized m' = true /\
    discoveredBatteryIDs m' = discoveredBatteryIDs m /\
    (forall j b, batteries m !! j = Some b ->
       exists b', batteries m' !! j = Some b' /\
                  batteryID b' = batteryID b /\ cycles b' = cycles b /\
                  (valid b = true -> valid b' = true)) /\
    sent m' = sent m ++ (dataRequest <$> seqZ 0 (Z.min (activeBatteryCount m) 4)).
Proof.
  intros ((Hb & Ha & Hd & Hcells & Hc) & Hact) Hinit.
  destruct (poll_pass_spec m Hinit (proj2 (Hact Hinit)) Hb Hc)
    as (m' & Hrun & Hk & Hde & Hc' & Hsent & _).
  destruct Hk as (A1 & A2 & A3 & A4 & _ & _ & _ & A8 & A9).
  machine_fields_in A1. machine_fields_in A2. machine_fields_in A3.
  machine_fields_in A4. machine_fields_in A8. machine_fields_in A9.
  exists m'. split; [exact Hrun | ].
  split; [ | split; [exact Hde | split; [exact A1 | split; [congruence | split; [exact A4 | split; [ | exact Hsent]]]]]].
  - split; [ | intros _; rewrite A1; apply Hact; exact Hinit].
    split; [congruence | ]. split; [congruence | ]. split; [congruence | ].
    split; [ | exact Hc'].
    apply (cells_sized_lookup (batteries m)); [exact Hcells | ].
    intros j b' Hj.
    assert (Hjl : (j < length (batteries m))%nat)
      by (apply lookup_lt_Some in Hj; lia).
    destruct (lookup_lt_is_Some_2 _ _ Hjl) as [b0 Hb0].
    destruct (A9 j b0 Hb0) as (b1 & Hb1 & _ & _ & _ & Hlen).
    rewrite Hj in Hb1. injection Hb1 as <-.
    exists b0. split; [exact Hb0 | exact Hlen].
  - intros j b Hj. destruct (A9 j b Hj) as (b1 & Hb1 & H1 & H2 & H3 & _).
    exists b1. repeat split; assumption.
Qed.

(** X3.  A polling pass on a ready, initialised machine always runs to
    completion and leaves it ready, with the direction pin low.  It changes
    neither the active count, the flags, the identifiers nor the cycle counts,
    and a slot that was valid is still valid afterwards: a reading is only
    ever replaced by a newer one. *)
Theorem polling_pass_keeps_registry (m : Machine) :
  ready m -> protocolInitialized m = true ->
  exists m' : Machine,
    requestBatteryData m = Done tt m' /\
    ready m' /\
    de_pin m' = false /\
    activeBatteryCount m' = activeBatteryCount m /\
    protocolInitialized m' = true /\
    discoveredBatteryIDs m' = discoveredBatteryIDs m /\
    (forall j b, batteries m !! j = Some b ->
       exists b', batteries m' !! j = Some b' /\
                  batteryID b' = batteryID b /\ cycles b' = cycles b /\
                  (valid b = true -> valid b' = true)).
Proof.
  intros Hready Hinit.
  destruct (polling_pass m Hready Hinit) as (m' & H1 & H2 & H3 & H4 & H5 & H6 & H7 & _).
  exists m'.
  split; [exact H1 | split; [exact H2 | split; [exact H3 | split; [exact H4 | split;
    [exact H5 | split; [exact H6 | exact H7]]]]]].
Qed.

Lemma ready_polled : ready (Sample.polled []).
Proof.
  split; [ | intros _; cbn; lia].
  unfold wf_machine. cbn [Sample.polled batteries batteryIDsAssigned discoveredBatteryIDs
                          clock].
  repeat split; try reflexivity; try lia. repeat constructor.
Qed.

Lemma polling_pass_keeps_registry_witness :
  ready (Sample.polled []) /\ protocolInitialized (Sample.polled []) = true /\
  exists m' : Machine,
    requestBatteryData (Sample.polled []) = Done tt m' /\
    ready m' /\
    de_pin m' = false /\
    activeBatteryCount m' = activeBatteryCount (Sample.polled []) /\
    protocolInitialized m' = true /\
    discoveredBatteryIDs m' = discoveredBatteryIDs (Sample.polled []) /\
    (forall j b, batteries (Sample.polled []) !! j = Some b ->
       exists b', batteries m' !! j = Some b' /\
                  batteryID b' = batteryID b /\ cycles b' = cycles b /\
                  (valid b = true -> valid b' = true)).
Proof.
  assert (H1 : ready (Sample.polled [])) by exact ready_polled.
  assert (H2 : protocolInitialized (Sample.polled []) = true) by reflexivity.
  split; [exact H1 | ]. split; [exact H2 | ].
  exact (polling_pass_keeps_registry (Sample.polled []) H1 H2).
Defined.

(** X4.  A polling pass on an initialised machine with at most four
    active batteries writes exactly one data request per active slot, for
    slots 0, 1, ... in increasing order, and nothing else; a slot at or
    beyond the active count is not touched. *)
Theorem polling_pass_requests (m : Machine) :
  protocolInitialized m = true -> activeBatteryCount m <= 4 ->
  length (batteries m) = 4%nat -> 0 <= clock m < 4294967296 ->
  exists m' : Machine,
    requestBatteryData m = Done tt m' /\
    writes m m' = (dataRequest <$> seqZ 0 (activeBatteryCount m)) /\
    (forall j, activeBatteryCount m <= Z.of_nat j ->
               batteries m' !! j = batteries m !! j).
Proof.
  intros Hinit Hmax Hb Hc.
  destruct (poll_pass_spec m Hinit Hmax Hb Hc) as (m' & Hrun & _ & _ & _ & Hs & Ho).
  exists m'. split; [exact Hrun | ].
  rewrite Z.min_l in Hs by exact Hmax.
  split; [apply writes_app; exact Hs | exact Ho].
Qed.

Lemma polling_pass_requests_witness :
  protocolInitialized (Sample.polled []) = true /\
  activeBatteryCount (Sample.polled []) <= 4 /\
  length (batteries (Sample.polled [])) = 4%nat /\
  0 <= clock (Sample.polled []) < 4294967296 /\
  exists m' : Machine,
    requestBatteryData (Sample.polled []) = Done tt m' /\
    writes (Sample.polled []) m'
    = (dataRequest <$> seqZ 0 (activeBatteryCount (Sample.polled []))) /\
    (forall j, activeBatteryCount (Sample.polled []) <= Z.of_nat j ->
               batteries m' !! j = batteries (Sample.polled []) !! j).
Proof.
  assert (H1 : protocolInitialized (Sample.polled []) = true) by reflexivity.
  assert (H0 : activeBatteryCount (Sample.polled []) <= 4) by (cbn; lia).
  assert (H2 : length (batteries (Sample.polled [])) = 4%nat) by reflexivity.
  assert (H3 : 0 <= clock (Sample.polled []) < 4294967296) by (cbn; lia).
  split; [exact H1 | ]. split; [exact H0 | ]. split; [exact H2 | ]. split; [exact H3 | ].
  exact (polling_pass_requests (Sample.polled []) H1 H0 H2 H3).
Defined.

(* ===================================================================== *)
(** * More on the exchange with a battery *)
(* ===================================================================== *)

(** X5.  Bytes left in the receive FIFO before a request are discarded: the
    response collected by an exchange, and the machine it leaves, do not
    depend on what the FIFO held before. *)
Theorem exchange_ignores_stale_bytes (batteryIndex : Z) (m : Machine) (stale : list byte) :
  exchange batteryIndex (with_rx_fifo stale m) = exchange batteryIndex m.
Proof.
  unfold exchange. rewrite !bind_run, !drain_eq. reflexivity.
Qed.

Lemma drop_tl {A : Type} (k : nat) (l : list A) : drop k (tl l) = drop (S k) l.
Proof. destruct l; [cbn [tl]; rewrite !drop_nil; reflexivity | reflexivity]. Qed.

Lemma receive_loop_silent (k fuel : nat) (timeout : Z) (m : Machine) :
  rx_fifo m = [] -> Forall (fun l => l = []) (take k (line m)) ->
  timeout = clock m + Z.of_nat k -> 0 <= clock m -> timeout < 4294967296 ->
  (k < fuel)%nat ->
  receive_loop fuel timeout [] m = Done [] (with_time timeout [] (drop k (line m)) m).
Proof.
  revert fuel m. induction k as [|k IH]; intros fuel m Hrx Hsil Ht Hc Hw Hf.
  - destruct fuel as [|fuel]; [lia | ].
    cbn [receive_loop]. rewrite bind_run. unfold millis, gets.
    replace (clock m <? timeout) with false by (symmetry; apply Z.ltb_ge; lia).
    cbn [andb mret M_ret]. rewrite drop_0.
    replace timeout with (clock m) by lia. rewrite <- Hrx. rewrite with_time_id. reflexivity.
  - destruct fuel as [|fuel]; [lia | ].
    cbn [receive_loop]. rewrite bind_run. unfold millis, gets.
    replace (clock m <? timeout) with true by (symmetry; apply Z.ltb_lt; lia).
    cbn [length andb]. change (Z.of_nat 0 <? 128) with true. cbv iota.
    rewrite bind_run, receive_step_eq, Hrx.
    assert (Hhd : hd [] (line m) = [] /\ Forall (fun l => l = []) (take k (tl (line m)))).
    { destruct (line m) as [|l0 ln];
        [split; [reflexivity | cbn [tl]; rewrite take_nil; constructor] | ].
      cbn [take] in Hsil. inversion Hsil; subst. split; [reflexivity | assumption]. }
    destruct Hhd as [Hhd Htl].
    rewrite (IH fuel (tick m)).
    + unfold tick. machine_fields. rewrite drop_tl. reflexivity.
    + unfold tick. machine_fields. rewrite Hrx, Hhd. reflexivity.
    + unfold tick. machine_fields. exact Htl.
    + unfold tick. machine_fields. rewrite to_u32_small by lia. lia.
    + unfold tick. machine_fields. apply to_u32_range.
    + exact Hw.
    + lia.
Qed.

(** X6.  A silent bus is waited on for exactly the 1000 ms of the overall
    timeout: if nothing arrives during the 1000 ms after the request (and the
    clock does not wrap in that time), the exchange returns no byte and the
    clock has advanced by 1000. *)
Theorem silent_bus_times_out (batteryIndex : Z) (m : Machine) :
  0 <= clock m -> clock m + 1000 < 4294967296 ->
  Forall (fun l => l = []) (take 1000 (line m)) ->
  exchange batteryIndex m
  = Done [] (with_sent (sent m ++ [dataRequest batteryIndex])
               (with_time (clock m + 1000) [] (drop 1000 (line m)) m)).
Proof.
  intros Hc Hw Hsil. unfold exchange.
  rewrite bind_run, drain_eq, bind_run. unfold Serial2_write, modify. cbv beta.
  rewrite bind_run. unfold Serial2_flush. cbn [mret M_ret].
  rewrite bind_run. unfold millis, gets. machine_fields.
  unfold RESPONSE_TIMEOUT. rewrite to_u32_small by lia.
  rewrite (receive_loop_silent 1000 receive_fuel (clock m + 1000)); try assumption.
  - reflexivity.
  - reflexivity.
  - machine_fields. reflexivity.
  - unfold receive_fuel. lia.
Qed.

Lemma silent_bus_times_out_witness :
  0 <= clock (Sample.polled []) /\ clock (Sample.polled []) + 1000 < 4294967296 /\
  Forall (fun l => l = []) (take 1000 (line (Sample.polled []))) /\
  exchange 0 (Sample.polled [])
  = Done [] (with_sent (sent (Sample.polled []) ++ [dataRequest 0])
               (with_time (clock (Sample.polled []) + 1000) []
                          (drop 1000 (line (Sample.polled []))) (Sample.polled []))).
Proof.
  assert (H1 : 0 <= clock (Sample.polled [])) by (cbn; lia).
  assert (H2 : clock (Sample.polled []) + 1000 < 4294967296) by (cbn; lia).
  assert (H3 : Forall (fun l => l = []) (take 1000 (line (Sample.polled []))))
    by constructor.
  split; [exact H1 | ]. split; [exact H2 | ]. split; [exact H3 | ].
  exact (silent_bus_times_out 0 (Sample.polled []) H1 H2 H3).
Defined.

(** X7.  When the 32-bit millisecond clock is within 1000 ms of wrapping
    around, the deadline [millis() + 1000] wraps to a value below the current
    time and the receive loop does not run at all: the exchange returns no
    byte at once, whatever the battery sends. *)
Theorem deadline_wraps_with_clock (batteryIndex : Z) (m : Machine) :
  clock m < 4294967296 -> 4294967296 <= clock m + 1000 ->
  exchange batteryIndex m
  = Done [] (with_sent (sent m ++ [dataRequest batteryIndex]) (with_rx_fifo [] m)).
Proof.
  intros Hc Hw. unfold exchange.
  rewrite bind_run, drain_eq, bind_run. unfold Serial2_write, modify. cbv beta.
  rewrite bind_run. unfold Serial2_flush. cbn [mret M_ret].
  rewrite bind_run. unfold millis, gets. machine_fields.
  unfold receive_fuel.
  replace (Z.to_nat (128 * 101 + 1000 + 1)) with (S (Z.to_nat (128 * 101 + 1000))) by lia.
  cbn [receive_loop]. rewrite bind_run. unfold millis, gets. machine_fields.
  assert (Hto : to_u32 (clock m + RESPONSE_TIMEOUT) <= clock m).
  { unfold to_u32, RESPONSE_TIMEOUT.
    replace (clock m + 1000) with (clock m + 1000 - 4294967296 + 1 * 4294967296) by lia.
    rewrite Z.mod_add by lia. rewrite Z.mod_small by lia. lia. }
  replace (clock m <? to_u32 (clock m + RESPONSE_TIMEOUT)) with false
    by (symmetry; apply Z.ltb_ge; exact Hto).
  reflexivity.
Qed.

Lemma deadline_wraps_with_clock_witness :
  clock (with_time 4294967000 [] [[xff]] (Sample.polled [])) < 4294967296 /\
  4294967296 <= clock (with_time 4294967000 [] [[xff]] (Sample.polled [])) + 1000 /\
  exchange 0 (with_time 4294967000 [] [[xff]] (Sample.polled []))
  = Done [] (with_sent (sent (with_time 4294967000 [] [[xff]] (Sample.polled []))
                        ++ [dataRequest 0])
               (with_rx_fifo [] (with_time 4294967000 [] [[xff]] (Sample.polled [])))).
Proof.
  assert (H1 : clock (with_time 4294967000 [] [[xff]] (Sample.polled [])) < 4294967296)
    by (cbn; lia).
  assert (H2 : 4294967296
               <= clock (with_time 4294967000 [] [[xff]] (Sample.polled [])) + 1000)
    by (cbn; lia).
  split; [exact H1 | ]. split; [exact H2 | ].
  exact (deadline_wraps_with_clock 0 _ H1 H2).
Defined.

(* ===================================================================== *)
(** * More on the decoder *)
(* ===================================================================== *)

(** X8.  A frame that is decoded changes one thing in the whole machine:
    the slot it is decoded into.  In that slot the identifier and the cycle
    count are kept (the decoder never reads a cycle count from a frame); the
    other slots, the active count, the flags and the hardware are as before. *)
Theorem decoder_touches_one_slot (data : list byte) (batteryIndex : Z) (m : Machine)
        (old : BatteryData) :
  20 <= Z.of_nat (length data) ->
  u8 (at_ data 0) = 0xFF ->
  0 <= batteryIndex < MAX_BATTERIES ->
  batteries m !! Z.to_nat batteryIndex = Some old ->
  exists b' : BatteryData,
    parseValenceBatteryData data (Z.of_nat (length data)) batteryIndex m
    = Done true (with_batteries (<[Z.to_nat batteryIndex := b']> (batteries m)) m) /\
    batteryID b' = batteryID old /\
    cycles b' = cycles old /\
    length (cellVoltages b') = length (cellVoltages old).
Proof.
  intros Hlen Hff Hidx Hold.
  eexists. split; [apply (parse_accepts data _ batteryIndex m old); assumption | ].
  pose proof (decode_fields_main data (Z.of_nat (length data)) old Hlen) as Hd.
  cbv zeta in Hd. destruct Hd as (_ & _ & _ & _ & _ & _ & Hcy & Hid & _).
  battery_fields. rewrite decode_fields_cells_length. repeat split; assumption.
Qed.

Lemma decoder_touches_one_slot_witness :
  20 <= Z.of_nat (length Sample.frame36) /\
  u8 (at_ Sample.frame36 0) = 0xFF /\
  0 <= 0 < MAX_BATTERIES /\
  batteries (Sample.polled []) !! Z.to_nat 0 = Some Sample.reading /\
  exists b' : BatteryData,
    parseValenceBatteryData Sample.frame36 (Z.of_nat (length Sample.frame36)) 0
                            (Sample.polled [])
    = Done true (with_batteries (<[Z.to_nat 0 := b']> (batteries (Sample.polled [])))
                                (Sample.polled [])) /\
    batteryID b' = batteryID Sample.reading /\
    cycles b' = cycles Sample.reading /\
    length (cellVoltages b') = length (cellVoltages Sample.reading).
Proof.
  assert (H1 : 20 <= Z.of_nat (length Sample.frame36)) by (vm_compute; discriminate).
  assert (H2 : u8 (at_ Sample.frame36 0) = 0xFF) by reflexivity.
  assert (H3 : 0 <= 0 < MAX_BATTERIES) by (unfold MAX_BATTERIES; lia).
  assert (H4 : batteries (Sample.polled []) !! Z.to_nat 0 = Some Sample.reading)
    by reflexivity.
  split; [exact H1 | ]. split; [exact H2 | ]. split; [exact H3 | ]. split; [exact H4 | ].
  exact (decoder_touches_one_slot Sample.frame36 0 (Sample.polled []) Sample.reading
                                  H1 H2 H3 H4).
Defined.

Lemma battery_ext (b1 b2 : BatteryData) :
  voltage b1 = voltage b2 -> current b1 = current b2 -> power b1 = power b2 ->
  soc b1 = soc b2 -> temperature b1 = temperature b2 ->
  cellVoltages b1 = cellVoltages b2 -> current2 b1 = current2 b2 ->
  cycles b1 = cycles b2 -> valid b1 = valid b2 -> lastUpdate b1 = lastUpdate b2 ->
  batteryID b1 = batteryID b2 -> b1 = b2.
Proof.
  destruct b1, b2. cbn. intros. subst. reflexivity.
Qed.

Lemma full_frame_fields (data : list byte) (b1 b2 : BatteryData) :
  35 < Z.of_nat (length data) ->
  length (cellVoltages b1) = 6%nat -> length (cellVoltages b2) = 6%nat ->
  decode_fields data (Z.of_nat (length data)) b2
  = set_cycles (cycles b2)
      (set_batteryID (batteryID b2)
         (set_lastUpdate (lastUpdate b2)
            (decode_fields data (Z.of_nat (length data)) b1))).
Proof.
  intros Hlen H1 H2.
  pose proof (decode_fields_main data (Z.of_nat (length data)) b1 ltac:(lia)) as D1.
  pose proof (decode_fields_main data (Z.of_nat (length data)) b2 ltac:(lia)) as D2.
  cbv zeta in D1, D2.
  destruct D1 as (V1 & C1 & S1 & T1 & P1 & Va1 & _ & _ & _).
  destruct D2 as (V2 & C2 & S2 & T2 & P2 & Va2 & Cy2 & Id2 & L2).
  apply battery_ext; battery_fields; try congruence.
  - apply list_eq. intros k.
    rewrite !decode_fields_cell by assumption.
    replace (30 <? Z.of_nat (length data)) with true by (symmetry; apply Z.ltb_lt; lia).
    cbn [andb].
    destruct (Nat.ltb_spec k 6) as [Hk|Hk]; cbn [andb].
    + replace (21 + 2 * Z.of_nat k <? Z.of_nat (length data)) with true
        by (symmetry; apply Z.ltb_lt; lia).
      reflexivity.
    + rewrite !lookup_ge_None_2 by lia. reflexivity.
  - rewrite !decode_fields_current2.
    replace (35 <? Z.of_nat (length data)) with true by (symmetry; apply Z.ltb_lt; lia).
    reflexivity.
Qed.

(** X9.  A frame of more than 35 bytes overwrites every measurement of the
    slot: what the decoder leaves depends on the frame and on the time only,
    apart from the identifier and the cycle count, which it does not write.
    Decoding the same frame at the same time into slots with different
    histories gives the same reading. *)
Theorem full_frame_overwrites (data : list byte) (batteryIndex : Z) (m1 m2 : Machine)
        (old1 old2 : BatteryData) :
  35 < Z.of_nat (length data) ->
  u8 (at_ data 0) = 0xFF ->
  0 <= batteryIndex < MAX_BATTERIES ->
  batteries m1 !! Z.to_nat batteryIndex = Some old1 ->
  batteries m2 !! Z.to_nat batteryIndex = Some old2 ->
  length (cellVoltages old1) = 6%nat -> length (cellVoltages old2) = 6%nat ->
  clock m1 = clock m2 ->
  exists (m1' m2' : Machine) (b1 b2 : BatteryData),
    parseValenceBatteryData data (Z.of_nat (length data)) batteryIndex m1 = Done true m1' /\
    parseValenceBatteryData data (Z.of_nat (length data)) batteryIndex m2 = Done true m2' /\
    batteries m1' !! Z.to_nat batteryIndex = Some b1 /\
    batteries m2' !! Z.to_nat batteryIndex = Some b2 /\
    b2 = set_cycles (cycles old2) (set_batteryID (batteryID old2) b1).
Proof.
  intros Hlen Hff Hidx H1 H2 Hc1 Hc2 Hclk.
  eexists. eexists. eexists. eexists.
  split; [apply (parse_accepts data _ batteryIndex m1 old1); [lia | assumption ..] | ].
  split; [apply (parse_accepts data _ batteryIndex m2 old2); [lia | assumption ..] | ].
  split.
  { machine_fields. apply list_lookup_insert_eq. apply lookup_lt_Some in H1. exact H1. }
  split.
  { machine_fields. apply list_lookup_insert_eq. apply lookup_lt_Some in H2. exact H2. }
  rewrite (full_frame_fields data old1 old2 Hlen Hc1 Hc2), Hclk. reflexivity.
Qed.

Lemma full_frame_overwrites_witness :
  35 < Z.of_nat (length Sample.frame36) /\
  u8 (at_ Sample.frame36 0) = 0xFF /\
  0 <= 0 < MAX_BATTERIES /\
  batteries (Sample.idle) !! Z.to_nat 0 = Some Sample.blank /\
  batteries (Sample.polled []) !! Z.to_nat 0 = Some Sample.reading /\
  length (cellVoltages Sample.blank) = 6%nat /\
  length (cellVoltages Sample.reading) = 6%nat /\
  clock Sample.idle = clock (Sample.polled []) /\
  exists (m1' m2' : Machine) (b1 b2 : BatteryData),
    parseValenceBatteryData Sample.frame36 (Z.of_nat (length Sample.frame36)) 0 Sample.idle
    = Done true m1' /\
    parseValenceBatteryData Sample.frame36 (Z.of_nat (length Sample.frame36)) 0
                            (Sample.polled []) = Done true m2' /\
    batteries m1' !! Z.to_nat 0 = Some b1 /\
    batteries m2' !! Z.to_nat 0 = Some b2 /\
    b2 = set_cycles (cycles Sample.reading) (set_batteryID (batteryID Sample.reading) b1).
Proof.
  assert (H1 : 35 < Z.of_nat (length Sample.frame36)) by (vm_compute; reflexivity).
  assert (H2 : u8 (at_ Sample.frame36 0) = 0xFF) by reflexivity.
  assert (H3 : 0 <= 0 < MAX_BATTERIES) by (unfold MAX_BATTERIES; lia).
  assert (H4 : batteries (Sample.idle) !! Z.to_nat 0 = Some Sample.blank) by reflexivity.
  assert (H5 : batteries (Sample.polled []) !! Z.to_nat 0 = Some Sample.reading)
    by reflexivity.
  assert (H6 : length (cellVoltages Sample.blank) = 6%nat) by reflexivity.
  assert (H7 : length (cellVoltages Sample.reading) = 6%nat) by reflexivity.
  assert (H8 : clock Sample.idle = clock (Sample.polled [])) by reflexivity.
  split; [exact H1 | ]. split; [exact H2 | ]. split; [exact H3 | ]. split; [exact H4 | ].
  split; [exact H5 | ]. split; [exact H6 | ]. split; [exact H7 | ]. split; [exact H8 | ].
  exact (full_frame_overwrites Sample.frame36 0 Sample.idle (Sample.polled [])
                               Sample.blank Sample.reading H1 H2 H3 H4 H5 H6 H7 H8).
Defined.

(** X10.  The decoder stores the state-of-charge byte and the temperature
    byte as they come: the state of charge is between 0 and 255 (it is not
    limited to 100) and the temperature is a whole number between -128 and
    127 degrees. *)
Theorem decoder_raw_ranges (data : list byte) (batteryIndex : Z) (m : Machine)
        (old : BatteryData) :
  20 <= Z.of_nat (length data) ->
  u8 (at_ data 0) = 0xFF ->
  0 <= batteryIndex < MAX_BATTERIES ->
  batteries m !! Z.to_nat batteryIndex = Some old ->
  exists (m' : Machine) (b' : BatteryData) (t : Z),
    parseValenceBatteryData data (Z.of_nat (length data)) batteryIndex m = Done true m' /\
    batteries m' !! Z.to_nat batteryIndex = Some b' /\
    0 <= soc b' <= 255 /\
    temperature b' = float_of_int t /\ -128 <= t <= 127.
Proof.
  intros Hlen Hff Hidx Hold.
  pose proof (decode_fields_main data (Z.of_nat (length data)) old Hlen) as Hd.
  cbv zeta in Hd. destruct Hd as (_ & _ & Hs & Ht & _).
  eexists. eexists. exists (s8 (at_ data 16)).
  split; [apply (parse_accepts data _ batteryIndex m old); assumption | ].
  split.
  { machine_fields. apply list_lookup_insert_eq. apply lookup_lt_Some in Hold. exact Hold. }
  battery_fields. rewrite Hs, Ht.
  pose proof (u8_range (at_ data 15)). pose proof (u8_range (at_ data 16)).
  split; [lia | ]. split; [reflexivity | ].
  unfold s8. destruct (Z.ltb_spec (u8 (at_ data 16)) 128); lia.
Qed.

Lemma decoder_raw_ranges_witness :
  20 <= Z.of_nat (length Sample.frame20) /\
  u8 (at_ Sample.frame20 0) = 0xFF /\
  0 <= 0 < MAX_BATTERIES /\
  batteries (Sample.polled []) !! Z.to_nat 0 = Some Sample.reading /\
  exists (m' : Machine) (b' : BatteryData) (t : Z),
    parseValenceBatteryData Sample.frame20 (Z.of_nat (length Sample.frame20)) 0
                            (Sample.polled []) = Done true m' /\
    batteries m' !! Z.to_nat 0 = Some b' /\
    0 <= soc b' <= 255 /\
    temperature b' = float_of_int t /\ -128 <= t <= 127.
Proof.
  assert (H1 : 20 <= Z.of_nat (length Sample.frame20)) by (vm_compute; discriminate).
  assert (H2 : u8 (at_ Sample.frame20 0) = 0xFF) by reflexivity.
  assert (H3 : 0 <= 0 < MAX_BATTERIES) by (unfold MAX_BATTERIES; lia).
  assert (H4 : batteries (Sample.polled []) !! Z.to_nat 0 = Some Sample.reading)
    by reflexivity.
  split; [exact H1 | ]. split; [exact H2 | ]. split; [exact H3 | ]. split; [exact H4 | ].
  exact (decoder_raw_ranges Sample.frame20 0 (Sample.polled []) Sample.reading
                            H1 H2 H3 H4).
Defined.

(* ===================================================================== *)
(** * Colours of decoded readings *)
(* ===================================================================== *)

Lemma forall_bits_spec (k : nat) (base : Z) (p : Z -> bool) :
  forall_bits k base p = true ->
  forall r : Z, base * 2 ^ Z.of_nat k <= r < (base + 1) * 2 ^ Z.of_nat k -> p r = true.
Proof.
  revert base. induction k as [|k IH]; intros base H r Hr.
  - cbn [forall_bits] in H. change (2 ^ Z.of_nat 0) with 1 in Hr.
    replace r with base by lia. exact H.
  - cbn [forall_bits] in H. apply andb_true_iff in H. destruct H as [H0 H1].
    rewrite Nat2Z.inj_succ, Z.pow_succ_r in Hr by lia.
    destruct (Z.lt_ge_cases r ((2 * base + 1) * 2 ^ Z.of_nat k)) as [Hlt|Hge].
    + apply (IH (2 * base) H0). lia.
    + apply (IH (2 * base + 1) H1). lia.
Qed.

Lemma Colour_eqb_eq (a b : Colour) : Colour_eqb a b = true -> a = b.
Proof. destruct a, b; cbn; congruence. Qed.

Lemma le_u16_range (data : list byte) (off : Z) : 0 <= le_u16 data off < 65536.
Proof.
  unfold le_u16. pose proof (u8_range (at_ data off)).
  pose proof (u8_range (at_ data (off + 1))). lia.
Qed.

Lemma voltage_colour_by_raw (r : Z) :
  0 <= r < 65536 -> getVoltageColor (centi r) = colour_by_raw 1200 1150 r.
Proof.
  intros Hr. apply Colour_eqb_eq.
  apply (forall_bits_spec 16 0
           (fun r => Colour_eqb (getVoltageColor (centi r)) (colour_by_raw 1200 1150 r))).
  - vm_compute. reflexivity.
  - change (2 ^ Z.of_nat 16) with 65536. lia.
Qed.

Lemma cell_colour_by_raw (r : Z) :
  0 <= r < 65536 -> getCellVoltageColor (milli r) = colour_by_raw 3000 2801 r.
Proof.
  intros Hr. apply Colour_eqb_eq.
  apply (forall_bits_spec 16 0
           (fun r => Colour_eqb (getCellVoltageColor (milli r)) (colour_by_raw 3000 2801 r))).
  - vm_compute. reflexivity.
  - change (2 ^ Z.of_nat 16) with 65536. lia.
Qed.

(** X11.  The colour of a decoded battery voltage follows the raw 16-bit
    reading of the frame exactly, the scaling by 0.01 and the rounding to
    [float] notwithstanding: green from 1200 (12.00 V), yellow from 1150
    (11.50 V) and red below. *)
Theorem decoded_voltage_colour (data : list byte) (batteryIndex : Z) (m : Machine)
        (old : BatteryData) :
  20 <= Z.of_nat (length data) ->
  u8 (at_ data 0) = 0xFF ->
  0 <= batteryIndex < MAX_BATTERIES ->
  batteries m !! Z.to_nat batteryIndex = Some old ->
  exists (m' : Machine) (b' : BatteryData),
    parseValenceBatteryData data (Z.of_nat (length data)) batteryIndex m = Done true m' /\
    batteries m' !! Z.to_nat batteryIndex = Some b' /\
    getVoltageColor (voltage b')
    = colour_by_raw 1200 1150 (u8 (at_ data 10) + 256 * u8 (at_ data 11)).
Proof.
  intros Hlen Hff Hidx Hold.
  pose proof (decode_fields_main data (Z.of_nat (length data)) old Hlen) as Hd.
  cbv zeta in Hd. destruct Hd as (Hv & _).
  eexists. eexists.
  split; [apply (parse_accepts data _ batteryIndex m old); assumption | ].
  split.
  { machine_fields. apply list_lookup_insert_eq. apply lookup_lt_Some in Hold. exact Hold. }
  battery_fields. rewrite Hv.
  rewrite voltage_colour_by_raw by apply le_u16_range.
  unfold le_u16. replace (10 + 1) with 11 by reflexivity. reflexivity.
Qed.

Lemma decoded_voltage_colour_witness :
  20 <= Z.of_nat (length Sample.frame20) /\
  u8 (at_ Sample.frame20 0) = 0xFF /\
  0 <= 0 < MAX_BATTERIES /\
  batteries (Sample.polled []) !! Z.to_nat 0 = Some Sample.reading /\
  exists (m' : Machine) (b' : BatteryData),
    parseValenceBatteryData Sample.frame20 (Z.of_nat (length Sample.frame20)) 0
                            (Sample.polled []) = Done true m' /\
    batteries m' !! Z.to_nat 0 = Some b' /\
    getVoltageColor (voltage b')
    = colour_by_raw 1200 1150 (u8 (at_ Sample.frame20 10) + 256 * u8 (at_ Sample.frame20 11)).
Proof.
  assert (H1 : 20 <= Z.of_nat (length Sample.frame20)) by (vm_compute; discriminate).
  assert (H2 : u8 (at_ Sample.frame20 0) = 0xFF) by reflexivity.
  assert (H3 : 0 <= 0 < MAX_BATTERIES) by (unfold MAX_BATTERIES; lia).
  assert (H4 : batteries (Sample.polled []) !! Z.to_nat 0 = Some Sample.reading)
    by reflexivity.
  split; [exact H1 | ]. split; [exact H2 | ]. split; [exact H3 | ]. split; [exact H4 | ].
  exact (decoded_voltage_colour Sample.frame20 0 (Sample.polled []) Sample.reading
                                H1 H2 H3 H4).
Defined.

(** X12.  The colour of a decoded cell voltage is green from a raw reading
    of 3000 (3.000 V), yellow from 2801 and red below: a cell at exactly
    2.800 V (raw 2800) is shown red although the helper compares with 2.8,
    because 2800 * 0.001 rounded to [float] is less than the [double] 2.8. *)
Theorem decoded_cell_colour (data : list byte) (batteryIndex : Z) (m : Machine)
        (old : BatteryData) (k : nat) :
  30 < Z.of_nat (length data) ->
  u8 (at_ data 0) = 0xFF ->
  0 <= batteryIndex < MAX_BATTERIES ->
  batteries m !! Z.to_nat batteryIndex = Some old ->
  length (cellVoltages old) = 6%nat ->
  (k < 6)%nat -> 21 + 2 * Z.of_nat k < Z.of_nat (length data) ->
  exists (m' : Machine) (b' : BatteryData) (cellV : float),
    parseValenceBatteryData data (Z.of_nat (length data)) batteryIndex m = Done true m' /\
    batteries m' !! Z.to_nat batteryIndex = Some b' /\
    cellVoltages b' !! k = Some cellV /\
    getCellVoltageColor cellV
    = colour_by_raw 3000 2801
        (u8 (at_ data (20 + 2 * Z.of_nat k)) + 256 * u8 (at_ data (21 + 2 * Z.of_nat k))) /\
    getCellVoltageColor (milli 2800) = TFT_RED.
Proof.
  intros Hlen Hff Hidx Hold Hcells Hk Hin.
  eexists. eexists. eexists.
  split; [apply (parse_accepts data _ batteryIndex m old); [lia | assumption ..] | ].
  split.
  { machine_fields. apply list_lookup_insert_eq. apply lookup_lt_Some in Hold. exact Hold. }
  battery_fields.
  split.
  { rewrite decode_fields_cell by exact Hcells.
    replace (30 <? Z.of_nat (length data)) with true by (symmetry; apply Z.ltb_lt; lia).
    replace (k <? 6)%nat with true by (symmetry; apply Nat.ltb_lt; exact Hk).
    replace (21 + 2 * Z.of_nat k <? Z.of_nat (length data)) with true
      by (symmetry; apply Z.ltb_lt; lia).
    reflexivity. }
  split.
  - rewrite cell_colour_by_raw by apply le_u16_range.
    unfold le_u16.
    replace (20 + 2 * Z.of_nat k + 1) with (21 + 2 * Z.of_nat k) by lia. reflexivity.
  - rewrite cell_colour_by_raw by lia. reflexivity.
Qed.

Lemma decoded_cell_colour_witness :
  30 < Z.of_nat (length Sample.frame36) /\
  u8 (at_ Sample.frame36 0) = 0xFF /\
  0 <= 0 < MAX_BATTERIES /\
  batteries (Sample.polled []) !! Z.to_nat 0 = Some Sample.reading /\
  length (cellVoltages Sample.reading) = 6%nat /\
  (2 < 6)%nat /\ 21 + 2 * Z.of_nat 2 < Z.of_nat (length Sample.frame36) /\
  exists (m' : Machine) (b' : BatteryData) (cellV : float),
    parseValenceBatteryData Sample.frame36 (Z.of_nat (length Sample.frame36)) 0
                            (Sample.polled []) = Done true m' /\
    batteries m' !! Z.to_nat 0 = Some b' /\
    cellVoltages b' !! 2%nat = Some cellV /\
    getCellVoltageColor cellV
    = colour_by_raw 3000 2801
        (u8 (at_ Sample.frame36 (20 + 2 * Z.of_nat 2))
         + 256 * u8 (at_ Sample.frame36 (21 + 2 * Z.of_nat 2))) /\
    getCellVoltageColor (milli 2800) = TFT_RED.
Proof.
  assert (H1 : 30 < Z.of_nat (length Sample.frame36)) by (vm_compute; reflexivity).
  assert (H2 : u8 (at_ Sample.frame36 0) = 0xFF) by reflexivity.
  assert (H3 : 0 <= 0 < MAX_BATTERIES) by (unfold MAX_BATTERIES; lia).
  assert (H4 : batteries (Sample.polled []) !! Z.to_nat 0 = Some Sample.reading)
    by reflexivity.
  assert (H5 : length (cellVoltages Sample.reading) = 6%nat) by reflexivity.
  assert (H6 : (2 < 6)%nat) by lia.
  assert (H7 : 21 + 2 * Z.of_nat 2 < Z.of_nat (length Sample.frame36))
    by (vm_compute; reflexivity).
  split; [exact H1 | ]. split; [exact H2 | ]. split; [exact H3 | ]. split; [exact H4 | ].
  split; [exact H5 | ]. split; [exact H6 | ]. split; [exact H7 | ].
  exact (decoded_cell_colour Sample.frame36 0 (Sample.polled []) Sample.reading 2
                             H1 H2 H3 H4 H5 H6 H7).
Defined.

(* ===================================================================== *)
(** * More on the checksum and on what the decoder reads *)
(* ===================================================================== *)

Lemma crc16_byte_residue (c : Z) :
  0 <= c < 65536 ->
  crc16_byte (crc16_byte c (to_byte (Z.land c 0xFF)))
             (to_byte (Z.land (Z.shiftr c 8) 0xFF)) = 0.
Proof.
  intros Hc. apply Z.eqb_eq.
  apply (forall_bits_spec 16 0
           (fun c => crc16_byte (crc16_byte c (to_byte (Z.land c 0xFF)))
                                (to_byte (Z.land (Z.shiftr c 8) 0xFF)) =? 0)).
  - vm_compute. reflexivity.
  - change (2 ^ Z.of_nat 16) with 65536. lia.
Qed.

(** X13.  The checksum of a buffer followed by its own checksum, low byte
    first, is zero: a frame built the way the sketch builds its requests can
    be validated by running [calculateModbusCRC] over all of it. *)
Theorem crc_of_completed_frame (data : list byte) :
  let crc := calculateModbusCRC data (Z.of_nat (length data)) in
  calculateModbusCRC
    (data ++ [to_byte (Z.land crc 0xFF); to_byte (Z.land (Z.shiftr crc 8) 0xFF)])
    (Z.of_nat (length data) + 2) = 0.
Proof.
  cbv zeta. rewrite calculateModbusCRC_crc16.
  replace (Z.of_nat (length data) + 2)
    with (Z.of_nat (length (data ++ [to_byte (Z.land (crc16 data) 0xFF);
                                     to_byte (Z.land (Z.shiftr (crc16 data) 8) 0xFF)])))
    by (rewrite length_app; cbn [length]; lia).
  rewrite calculateModbusCRC_crc16.
  unfold crc16. rewrite fold_left_app. cbn [fold_left].
  apply crc16_byte_residue. apply crc16_range.
Qed.






(* ===================================================================== *)
(** * More on the synthetic data generator *)
(* ===================================================================== *)

(** The state of charge of a synthetic slot, before the limits are
    applied, is already within them. *)
Lemma gen_slot_soc (i : Z) (m : Machine) (old : BatteryData) :
  0 <= i <= 3 -> batteries m !! Z.to_nat i = Some old ->
  exists b' : BatteryData,
    gen_slot i m
    = Done tt (with_draws (11 + draws m)
                 (with_batteries (<[Z.to_nat i := b']> (batteries m)) m)) /\
    57 + 8 * i <= soc b' <= 72 + 8 * i.
Proof.
  intros Hi Hold. unfold gen_slot.
  rewrite bind_run. unfold load_battery.
  replace (i <? 0) with false by (symmetry; apply Z.ltb_ge; lia).
  rewrite Hold.
  rewrite bind_run, random_eq by lia.
  rewrite bind_run, random_eq by lia.
  rewrite bind_run, random_eq by lia.
  rewrite bind_run, random_eq by lia.
  rewrite bind_run.
  match goal with
  | |- context [gen_cells 6 0 ?avg ?b1 ?m1] =>
      destruct (gen_cells_spec 6 0 avg b1 m1)
        as (b6 & Hrun & H1 & H2 & H3 & H4 & H5 & H6 & H7 & H8 & H9 & H10 & H11);
      rewrite Hrun; clear Hrun
  end.
  rewrite bind_run, random_eq by lia.
  rewrite bind_run. unfold millis, gets. cbv beta.
  unfold store_battery.
  apply lookup_lt_Some in Hold.
  cbn [with_draws batteries].
  replace (0 <=? i) with true by (symmetry; apply Z.leb_le; lia).
  replace (i <? Z.of_nat (length (batteries m))) with true by (symmetry; apply Z.ltb_lt; lia).
  cbn [andb].
  eexists. split; [reflexivity | ].
  battery_fields_in H4.
  cbn [with_draws clock draws entropy] in H4 |- *.
  set (r := -8 + entropy m (S (S (draws m))) mod (8 - -8)) in *.
  assert (Hr : -8 <= r < 8) by (subst r; apply random_range; lia).
  battery_fields. rewrite H4.
  replace (100 <? 65 + i * 8 + r) with false by (symmetry; apply Z.ltb_ge; lia).
  battery_fields. rewrite H4.
  replace (65 + i * 8 + r <? 0) with false by (symmetry; apply Z.ltb_ge; lia).
  battery_fields. rewrite H4. lia.
Qed.

Lemma gen_loop_soc (todo i : nat) (m : Machine) :
  activeBatteryCount m = 4 -> length (batteries m) = 4%nat -> (i + todo = 4)%nat ->
  exists bs : list BatteryData,
    gen_loop todo (Z.of_nat i) m
    = Done tt (with_draws (11 * todo + draws m) (with_batteries bs m)) /\
    (forall k, (k < i)%nat -> bs !! k = batteries m !! k) /\
    (forall k b, (i <= k)%nat -> bs !! k = Some b ->
                 57 + 8 * Z.of_nat k <= soc b <= 72 + 8 * Z.of_nat k).
Proof.
  revert i m. induction todo as [|todo IH]; intros i m Hn Hlen Hi.
  - exists (batteries m). change (11 * 0 + draws m)%nat with (draws m).
    rewrite with_draws_batteries_id.
    split; [ | split; [reflexivity | ]].
    + cbn [gen_loop]. rewrite bind_run. unfold gets. rewrite Hn.
      replace (Z.of_nat i <? 4) with false by (symmetry; apply Z.ltb_ge; lia). reflexivity.
    + intros k b Hk Hb. apply lookup_lt_Some in Hb. lia.
  - assert (Hlt : (i < length (batteries m))%nat) by lia.
    destruct (lookup_lt_is_Some_2 _ _ Hlt) as [old Hold].
    destruct (gen_slot_soc (Z.of_nat i) m old ltac:(lia)) as (b' & Hrun & Hsoc).
    { rewrite Nat2Z.id. exact Hold. }
    rewrite Nat2Z.id in Hrun.
    set (m1 := with_draws (11 + draws m)
                 (with_batteries (<[i := b']> (batteries m)) m)) in *.
    destruct (IH (S i) m1) as (bs & Hloop & Hlow & Hhigh).
    { exact Hn. }
    { subst m1. cbn [with_draws with_batteries batteries]. rewrite length_insert. exact Hlen. }
    { lia. }
    exists bs. split; [ | split].
    + cbn [gen_loop]. rewrite bind_run. unfold gets. rewrite Hn.
      replace (Z.of_nat i <? 4) with true by (symmetry; apply Z.ltb_lt; lia).
      rewrite bind_run, Hrun.
      replace (Z.of_nat i + 1) with (Z.of_nat (S i)) by lia.
      rewrite Hloop. subst m1. cbn [with_draws with_batteries draws].
      replace (11 * todo + (11 + draws m))%nat with (11 * S todo + draws m)%nat by lia.
      reflexivity.
    + intros k Hk. rewrite Hlow by lia. subst m1.
      cbn [with_draws with_batteries batteries].
      apply list_lookup_insert_ne. lia.
    + intros k b Hk Hb. destruct (Nat.eq_dec k i) as [->|Hne].
      * rewrite Hlow in Hb by lia. subst m1.
        cbn [with_draws with_batteries batteries] in Hb.
        rewrite list_lookup_insert_eq in Hb by exact Hlt. injection Hb as <-.
        exact Hsoc.
      * apply (Hhigh k b); [lia | exact Hb].
Qed.

(** X15.  The generator always completes; it writes nothing to the bus,
    takes no time and leaves the receive buffer and the direction pin alone;
    it draws exactly 44 random numbers; and the state of charge of slot [k]
    is between 57 + 8k and 72 + 8k, so that the two limits at 0 and 100 that
    follow the assignment never change it. *)
Theorem generator_is_local (m : Machine) :
  length (batteries m) = 4%nat ->
  exists m' : Machine,
    generateTestData m = Done tt m' /\
    sent m' = sent m /\ clock m' = clock m /\ rx_fifo m' = rx_fifo m /\
    line m' = line m /\ de_pin m' = de_pin m /\
    draws m' = (44 + draws m)%nat /\
    length (batteries m') = 4%nat /\
    (forall k b, batteries m' !! k = Some b ->
                 57 + 8 * Z.of_nat k <= soc b <= 72 + 8 * Z.of_nat k).
Proof.
  intros Hlen. unfold generateTestData.
  rewrite bind_run. unfold modify at 1. cbv beta.
  destruct (gen_loop_soc 4 0 (with_activeBatteryCount 4 m))
    as (bs & Hrun & _ & Hsoc); [reflexivity | exact Hlen | lia | ].
  destruct (gen_loop_spec 4 0 (with_activeBatteryCount 4 m))
    as (bs' & d & Hrun' & Hbs & _); [reflexivity | exact Hlen | lia | ].
  change (Z.of_nat 0) with 0 in Hrun, Hrun'.
  rewrite Hrun in Hrun'. injection Hrun'. intros. subst bs'.
  rewrite bind_run, Hrun. unfold modify.
  eexists. split; [reflexivity | ].
  machine_fields. repeat split; try reflexivity; try exact Hbs.
  - apply (Hsoc k b); [lia | assumption].
  - apply (Hsoc k b); [lia | assumption].
Qed.

Lemma generator_is_local_witness :
  length (batteries (Sample.boot [])) = 4%nat /\
  exists m' : Machine,
    generateTestData (Sample.boot []) = Done tt m' /\
    sent m' = sent (Sample.boot []) /\ clock m' = clock (Sample.boot []) /\
    rx_fifo m' = rx_fifo (Sample.boot []) /\
    line m' = line (Sample.boot []) /\ de_pin m' = de_pin (Sample.boot []) /\
    draws m' = (44 + draws (Sample.boot []))%nat /\
    length (batteries m') = 4%nat /\
    (forall k b, batteries m' !! k = Some b ->
                 57 + 8 * Z.of_nat k <= soc b <= 72 + 8 * Z.of_nat k).
Proof.
  assert (H1 : length (batteries (Sample.boot [])) = 4%nat) by reflexivity.
  split; [exact H1 | ].
  exact (generator_is_local (Sample.boot []) H1).
Defined.

(* ===================================================================== *)
(** * The sketch as a whole *)
(* ===================================================================== *)

(** What a step of the sketch leaves alone besides the machine: the
    settings of the scheduler and the button pins. *)
Lemma updateCurrentDisplay_frame (s : Ui.Sketch) :
  Ui.machine (Ui.updateCurrentDisplay s) = Ui.machine s /\
  Ui.displayMode (Ui.updateCurrentDisplay s) = Ui.displayMode s /\
  Ui.pins (Ui.updateCurrentDisplay s) = Ui.pins s /\
  Ui.reads (Ui.updateCurrentDisplay s) = Ui.reads s /\
  Ui.autoUpdate (Ui.updateCurrentDisplay s) = Ui.autoUpdate s /\
  Ui.lastUpdate (Ui.updateCurrentDisplay s) = Ui.lastUpdate s.
Proof.
  unfold Ui.updateCurrentDisplay, Ui.page.
  destruct (to_u32 (Ui.now s - Ui.lastDisplayUpdate s) <? 500); [repeat split | ].
  ui_fields.
  destruct (Ui.displayMode s =? 0); [ui_fields; repeat split | ].
  destruct (Ui.displayMode s =? 1); [ui_fields; repeat split | ].
  destruct (Ui.displayMode s =? 2); [ui_fields; repeat split | ].
  destruct (Ui.displayMode s =? 3); ui_fields; repeat split.
Qed.

Lemma next_mode_range (d : Z) : 0 <= d <= 3 -> 0 <= Z.rem (d + 1) 4 <= 3.
Proof. intros H. pose proof (Z.rem_bound_pos (d + 1) 4 ltac:(lia) ltac:(lia)). lia. Qed.

(** The part of [handleButtons] that follows the scan. *)
Lemma handleButtons_tail (s : Ui.Sketch) (b1 b2 : bool) :
  let s' :=
    Ui.with_buttonStates b1 b2
      (if Bool.eqb (Ui.lastButton2State s) Ui.HIGH && Bool.eqb b2 Ui.LOW then
         if 200 <? to_u32 (Ui.now s - Ui.lastButton2Press s) then
           Ui.with_lastButton2Press
             (Ui.now (Ui.updateCurrentDisplay
                        (Ui.with_displayMode (Z.rem (Ui.displayMode s + 1) 4) s)))
             (Ui.updateCurrentDisplay
                (Ui.with_displayMode (Z.rem (Ui.displayMode s + 1) 4) s))
         else s
       else s) in
  Ui.machine s' = Ui.machine s /\
  Ui.pins s' = Ui.pins s /\ Ui.reads s' = Ui.reads s /\
  Ui.autoUpdate s' = Ui.autoUpdate s /\ Ui.lastUpdate s' = Ui.lastUpdate s /\
  (0 <= Ui.displayMode s <= 3 -> 0 <= Ui.displayMode s' <= 3).
Proof.
  cbv zeta.
  destruct (Bool.eqb (Ui.lastButton2State s) Ui.HIGH && Bool.eqb b2 Ui.LOW);
    [ | ui_fields; repeat split; intros; lia].
  destruct (200 <? to_u32 (Ui.now s - Ui.lastButton2Press s));
    [ | ui_fields; repeat split; intros; lia].
  destruct (updateCurrentDisplay_frame
              (Ui.with_displayMode (Z.rem (Ui.displayMode s + 1) 4) s))
    as (H1 & H2 & H3 & H4 & H5 & H6).
  ui_fields. ui_fields_in H1. ui_fields_in H2. ui_fields_in H3. ui_fields_in H4.
  ui_fields_in H5. ui_fields_in H6.
  rewrite H1, H2, H3, H4, H5, H6.
  split; [reflexivity | ]. split; [reflexivity | ]. split; [reflexivity | ].
  split; [reflexivity | ]. split; [reflexivity | ].
  apply next_mode_range.
Qed.

(** [handleButtons] when no manual scan is due: the machine is not
    touched. *)
Lemma handleButtons_quiet (s : Ui.Sketch) :
  Ui.scan_due s = false ->
  exists s1 : Ui.Sketch,
    Ui.handleButtons s = Ui.Next s1 /\
    Ui.machine s1 = Ui.machine s /\
    Ui.pins s1 = Ui.pins s /\
    Ui.autoUpdate s1 = Ui.autoUpdate s /\ Ui.lastUpdate s1 = Ui.lastUpdate s /\
    (0 <= Ui.displayMode s <= 3 -> 0 <= Ui.displayMode s1 <= 3).
Proof.
  intros Hscan. unfold Ui.handleButtons. unfold Ui.scan_due in Hscan.
  destruct (to_u32 (Ui.now s - Ui.lastButtonCheck s) <? Ui.BUTTON_DEBOUNCE).
  { exists s. repeat split; intros; lia. }
  cbn [negb andb] in Hscan. cbv zeta. ui_fields. ui_fields_in Hscan.
  match goal with
  | |- context [Ui.andThen ?r _] =>
      replace r
        with (Ui.Next (Ui.with_reads (S (Ui.reads s))
                         (Ui.with_lastButtonCheck (clock (Ui.machine s)) s)))
  end.
  2: { destruct (Bool.eqb (Ui.lastButton1State s) Ui.HIGH
                 && Bool.eqb (fst (Ui.pins s (Ui.reads s))) Ui.LOW) eqn:Hedge;
         [ | reflexivity].
       cbn [andb] in Hscan. rewrite Hscan. reflexivity. }
  cbn [Ui.andThen]. eexists. split; [reflexivity | ].
  match goal with
  | |- context [Ui.with_buttonStates ?b1 ?b2 _] =>
      pose proof (handleButtons_tail
                    (Ui.with_reads (S (Ui.reads s))
                       (Ui.with_lastButtonCheck (clock (Ui.machine s)) s)) b1 b2) as T
  end.
  cbv zeta in T. ui_fields_in T. exact ltac:(
    destruct T as (T1 & T2 & _ & T4 & T5 & T6);
    split; [exact T1 | split; [exact T2 | split; [exact T4 | split; [exact T5 | exact T6]]]]).
Qed.

Lemma wf_with_protocolInitialized (v : bool) (m : Machine) :
  wf_machine m -> wf_machine (with_protocolInitialized v m).
Proof. intros H. exact H. Qed.

(** The protocol functions as the sketch calls them, display update
    included. *)
Lemma sketch_discovery (s : Ui.Sketch) :
  wf_machine (Ui.machine s) ->
  exists (s1 : Ui.Sketch) (rest : list (list byte)),
    Ui.initializeValenceProtocol s = Ui.Next s1 /\
    ready (Ui.machine s1) /\
    protocolInitialized (Ui.machine s1) = true /\
    sent (Ui.machine s1) = sent (Ui.machine s) ++ initSeq :: rest /\
    Forall framed rest /\
    Ui.displayMode s1 = Ui.displayMode s /\
    Ui.pins s1 = Ui.pins s /\
    Ui.autoUpdate s1 = Ui.autoUpdate s /\ Ui.lastUpdate s1 = Ui.lastUpdate s.
Proof.
  intros Hwf.
  destruct (discovery_pass (Ui.machine s) Hwf)
    as (m' & rest & Hrun & Hready & Hinit & _ & _ & Hsent & Hframed).
  unfold Ui.initializeValenceProtocol, Ui.call. rewrite Hrun. cbn [Ui.andThen].
  destruct (updateCurrentDisplay_frame (Ui.with_machine m' s))
    as (H1 & H2 & H3 & _ & H5 & H6).
  ui_fields_in H1. ui_fields_in H2. ui_fields_in H3. ui_fields_in H5. ui_fields_in H6.
  eexists. exists rest. split; [reflexivity | ].
  rewrite H1, H2, H3, H5, H6.
  split; [exact Hready | ]. split; [exact Hinit | ]. split; [exact Hsent | ].
  split; [exact Hframed | ]. repeat split.
Qed.

Lemma sketch_polling (s : Ui.Sketch) :
  ready (Ui.machine s) -> protocolInitialized (Ui.machine s) = true ->
  exists s1 : Ui.Sketch,
    Ui.requestBatteryData s = Ui.Next s1 /\
    ready (Ui.machine s1) /\
    protocolInitialized (Ui.machine s1) = true /\
    sent (Ui.machine s1)
    = sent (Ui.machine s)
      ++ (dataRequest <$> seqZ 0 (Z.min (activeBatteryCount (Ui.machine s)) 4)) /\
    Ui.displayMode s1 = Ui.displayMode s /\
    Ui.pins s1 = Ui.pins s /\
    Ui.autoUpdate s1 = Ui.autoUpdate s /\ Ui.lastUpdate s1 = Ui.lastUpdate s.
Proof.
  intros Hready Hinit.
  destruct (polling_pass (Ui.machine s) Hready Hinit)
    as (m' & Hrun & Hr' & _ & _ & Hinit' & _ & _ & Hsent).
  unfold Ui.requestBatteryData, Ui.call. rewrite Hinit, Hrun. cbn [negb Ui.andThen].
  destruct (updateCurrentDisplay_frame (Ui.with_machine m' s))
    as (H1 & H2 & H3 & _ & H5 & H6).
  ui_fields_in H1. ui_fields_in H2. ui_fields_in H3. ui_fields_in H5. ui_fields_in H6.
  eexists. split; [reflexivity | ].
  rewrite H1, H2, H3, H5, H6.
  split; [exact Hr' | ]. split; [exact Hinit' | ]. split; [exact Hsent | ].
  repeat split.
Qed.

(** [handleButtons] when a manual scan is due: a discovery pass runs,
    whatever the state of the protocol. *)
Lemma handleButtons_scan (s : Ui.Sketch) :
  wf_machine (Ui.machine s) -> Ui.scan_due s = true ->
  exists (s1 : Ui.Sketch) (rest : list (list byte)),
    Ui.handleButtons s = Ui.Next s1 /\
    ready (Ui.machine s1) /\
    protocolInitialized (Ui.machine s1) = true /\
    sent (Ui.machine s1) = sent (Ui.machine s) ++ initSeq :: rest /\
    Forall framed rest /\
    Ui.pins s1 = Ui.pins s /\
    Ui.autoUpdate s1 = Ui.autoUpdate s /\ Ui.lastUpdate s1 = Ui.lastUpdate s /\
    (0 <= Ui.displayMode s <= 3 -> 0 <= Ui.displayMode s1 <= 3).
Proof.
  intros Hwf Hscan. unfold Ui.handleButtons. unfold Ui.scan_due in Hscan.
  destruct (to_u32 (Ui.now s - Ui.lastButtonCheck s) <? Ui.BUTTON_DEBOUNCE);
    [discriminate | ].
  cbn [negb andb] in Hscan. cbv zeta. ui_fields. ui_fields_in Hscan.
  apply andb_true_iff in Hscan. destruct Hscan as [Hedge Hlong].
  rewrite Hedge, Hlong.
  match goal with
  | |- context [Ui.initializeValenceProtocol ?x] =>
      destruct (sketch_discovery x (wf_with_protocolInitialized false _ Hwf))
        as (s1 & rest & Hrun & Hready & Hinit & Hsent & Hframed & Hd1 & Hp1 & Ha1 & Hl1);
      rewrite Hrun
  end.
  ui_fields_in Hsent. ui_fields_in Hd1. ui_fields_in Hp1. ui_fields_in Ha1.
  ui_fields_in Hl1. machine_fields_in Hsent.
  ui_fields.
  eexists. exists rest. split; [reflexivity | ].
  match goal with
  | |- context [Ui.with_buttonStates ?b1 ?b2 (if _ then (if _ then _ else ?s0) else _)] =>
      pose proof (handleButtons_tail s0 b1 b2) as T
  end.
  cbv zeta in T. ui_fields_in T.
  destruct T as (T1 & T2 & _ & T4 & T5 & T6).
  ui_fields.
  split; [rewrite T1; exact Hready | ].
  split; [rewrite T1; exact Hinit | ].
  split; [rewrite T1; exact Hsent | ].
  split; [exact Hframed | ].
  split; [rewrite T2; exact Hp1 | ]. split; [rewrite T4; exact Ha1 | ].
  split; [rewrite T5; exact Hl1 | ].
  intros Hmode. apply T6. rewrite Hd1. exact Hmode.
Qed.

Lemma ticks_frame (n : nat) (m : Machine) :
  sent (Nat.iter n tick m) = sent m /\
  batteries (Nat.iter n tick m) = batteries m /\
  protocolInitialized (Nat.iter n tick m) = protocolInitialized m /\
  activeBatteryCount (Nat.iter n tick m) = activeBatteryCount m /\
  clock (Nat.iter n tick m) = clock_after n (clock m).
Proof. rewrite ticks_eq. repeat split. Qed.

Lemma ready_ticks (n : nat) (m : Machine) : ready m -> ready (Nat.iter n tick m).
Proof.
  intros ((Hb & Ha & Hd & Hcells & Hc) & Hact). rewrite ticks_eq.
  split; [ | exact Hact].
  split; [exact Hb | ]. split; [exact Ha | ]. split; [exact Hd | ].
  split; [exact Hcells | ]. machine_fields. apply clock_after_range. exact Hc.
Qed.

(** The end of [loop]: the display, then 50 ms. *)
Lemma loop_tail (s : Ui.Sketch) :
  exists s' : Ui.Sketch,
    Ui.call (delay 50) (Ui.updateCurrentDisplay s) = Ui.Next s' /\
    Ui.machine s' = Nat.iter 50 tick (Ui.machine s) /\
    Ui.displayMode s' = Ui.displayMode s /\
    Ui.pins s' = Ui.pins s /\
    Ui.autoUpdate s' = Ui.autoUpdate s /\ Ui.lastUpdate s' = Ui.lastUpdate s.
Proof.
  destruct (updateCurrentDisplay_frame s) as (H1 & H2 & H3 & _ & H5 & H6).
  unfold Ui.call, delay, modify. rewrite H1. change (Z.to_nat 50) with 50%nat.
  eexists. split; [reflexivity | ]. ui_fields.
  split; [reflexivity | ]. split; [exact H2 | ]. split; [exact H3 | ].
  split; [exact H5 | exact H6].
Qed.

(** [handleButtons] in a steady state. *)
Lemma handleButtons_spec (s : Ui.Sketch) :
  Ui.steady s ->
  exists (s1 : Ui.Sketch) (ws : list (list byte)),
    Ui.handleButtons s = Ui.Next s1 /\
    Ui.steady s1 /\
    Ui.pins s1 = Ui.pins s /\
    Ui.autoUpdate s1 = Ui.autoUpdate s /\ Ui.lastUpdate s1 = Ui.lastUpdate s /\
    sent (Ui.machine s1) = sent (Ui.machine s) ++ ws /\
    Forall framed ws /\
    ((ws = [] /\ Ui.machine s1 = Ui.machine s) \/
     (exists rest, ws = initSeq :: rest) /\ protocolInitialized (Ui.machine s1) = true).
Proof.
  intros (Hready & Hmode).
  destruct (Ui.scan_due s) eqn:Hscan.
  - destruct (handleButtons_scan s (proj1 Hready) Hscan)
      as (s1 & rest & Hrun & Hr1 & Hinit & Hsent & Hfr & Hp & Ha & Hl & Hm).
    exists s1, (initSeq :: rest). split; [exact Hrun | ].
    split; [split; [exact Hr1 | exact (Hm Hmode)] | ].
    split; [exact Hp | ]. split; [exact Ha | ]. split; [exact Hl | ].
    split; [exact Hsent | ].
    split; [constructor; [exact framed_initSeq | exact Hfr] | ].
    right. split; [exists rest; reflexivity | exact Hinit].
  - destruct (handleButtons_quiet s Hscan) as (s1 & Hrun & Hm1 & Hp & Ha & Hl & Hm).
    exists s1, []. split; [exact Hrun | ].
    split; [split; [rewrite Hm1; exact Hready | exact (Hm Hmode)] | ].
    split; [exact Hp | ]. split; [exact Ha | ]. split; [exact Hl | ].
    split; [rewrite Hm1, app_nil_r; reflexivity | ].
    split; [constructor | ].
    left. split; [reflexivity | exact Hm1].
Qed.

(** The scheduled pass of [loop] in a steady state. *)
Lemma scheduled_pass_spec (s : Ui.Sketch) :
  Ui.steady s ->
  exists (s2 : Ui.Sketch) (ws : list (list byte)),
    (if Ui.autoUpdate s && (Ui.POLL_INTERVAL <? to_u32 (Ui.now s - Ui.lastUpdate s)) then
       Ui.andThen
         (if negb (protocolInitialized (Ui.machine s))
          then Ui.initializeValenceProtocol s
          else Ui.requestBatteryData s)
         (fun s => Ui.Next (Ui.with_lastUpdate (Ui.now s) s))
     else Ui.Next s) = Ui.Next s2 /\
    Ui.steady s2 /\
    Ui.pins s2 = Ui.pins s /\ Ui.autoUpdate s2 = Ui.autoUpdate s /\
    sent (Ui.machine s2) = sent (Ui.machine s) ++ ws /\
    Forall framed ws /\
    (protocolInitialized (Ui.machine s) = true ->
     protocolInitialized (Ui.machine s2) = true) /\
    (protocolInitialized (Ui.machine s) = false ->
     (ws = [] /\ Ui.machine s2 = Ui.machine s) \/
     (exists rest, ws = initSeq :: rest) /\ protocolInitialized (Ui.machine s2) = true) /\
    (Ui.poll_due s = true -> protocolInitialized (Ui.machine s) = false ->
     exists rest, ws = initSeq :: rest).
Proof.
  intros (Hready & Hmode). unfold Ui.poll_due.
  destruct (Ui.autoUpdate s && (Ui.POLL_INTERVAL <? to_u32 (Ui.now s - Ui.lastUpdate s))).
  - destruct (protocolInitialized (Ui.machine s)) eqn:Hinit; cbn [negb].
    + destruct (sketch_polling s Hready Hinit)
        as (s1 & Hrun & Hr' & Hinit' & Hsent & Hd1 & Hp1 & Ha1 & _).
      rewrite Hrun. ui_fields.
      eexists. eexists. split; [reflexivity | ]. unfold Ui.steady. ui_fields.
      split; [split; [exact Hr' | rewrite Hd1; exact Hmode] | ].
      split; [exact Hp1 | ]. split; [exact Ha1 | ].
      split; [exact Hsent | ]. split; [apply framed_requests | ].
      split; [intros _; exact Hinit' | ]. split; discriminate.
    + destruct (sketch_discovery s (proj1 Hready))
        as (s1 & rest & Hrun & Hr' & Hinit' & Hsent & Hfr & Hd1 & Hp1 & Ha1 & _).
      rewrite Hrun. ui_fields.
      eexists. exists (initSeq :: rest). split; [reflexivity | ]. unfold Ui.steady. ui_fields.
      split; [split; [exact Hr' | rewrite Hd1; exact Hmode] | ].
      split; [exact Hp1 | ]. split; [exact Ha1 | ].
      split; [exact Hsent | ].
      split; [constructor; [exact framed_initSeq | exact Hfr] | ].
      split; [discriminate | ].
      split; [ | intros _ _; exists rest; reflexivity].
      intros _. right. split; [exists rest; reflexivity | exact Hinit'].
  - exists s, []. split; [reflexivity | ].
    split; [split; [exact Hready | exact Hmode] | ].
    split; [reflexivity | ]. split; [reflexivity | ].
    split; [rewrite app_nil_r; reflexivity | ]. split; [constructor | ].
    split; [tauto | ]. split; [ | discriminate]. intros _. left. split; reflexivity.
Qed.

(** One pass through [loop] in a steady state: it completes, the state is
    steady again, whatever was written consists of CRC-terminated frames,
    and a machine that was not initialised is either left as it was (50 ms
    older) or has been through a discovery pass that began with the wake-up
    sequence. *)
Lemma loop_spec (s : Ui.Sketch) :
  Ui.steady s ->
  exists (s' : Ui.Sketch) (ws : list (list byte)),
    Ui.loop s = Ui.Next s' /\
    Ui.steady s' /\
    Ui.pins s' = Ui.pins s /\ Ui.autoUpdate s' = Ui.autoUpdate s /\
    sent (Ui.machine s') = sent (Ui.machine s) ++ ws /\
    Forall framed ws /\
    (protocolInitialized (Ui.machine s) = false ->
     (ws = [] /\ protocolInitialized (Ui.machine s') = false) \/
     (exists rest, ws = initSeq :: rest)).
Proof.
  intros Hsteady.
  destruct (handleButtons_spec s Hsteady)
    as (s1 & ws1 & Hrun1 & Hst1 & Hp1 & Ha1 & _ & Hsent1 & Hfr1 & Hshape1).
  destruct (scheduled_pass_spec s1 Hst1)
    as (s2 & ws2 & Hrun2 & Hst2 & Hp2 & Ha2 & Hsent2 & Hfr2 & Hkeep2 & Hshape2 & _).
  destruct (loop_tail s2) as (s3 & Hrun3 & Hm3 & Hd3 & Hp3 & Ha3 & _).
  destruct (ticks_frame 50 (Ui.machine s2)) as (Hts & _ & Hti & _).
  exists s3, (ws1 ++ ws2).
  split.
  { unfold Ui.loop. rewrite Hrun1. cbn [Ui.andThen]. rewrite Hrun2. cbn [Ui.andThen].
    exact Hrun3. }
  split.
  { destruct Hst2 as (Hr2 & Hmode2). split.
    - rewrite Hm3. apply ready_ticks. exact Hr2.
    - rewrite Hd3. exact Hmode2. }
  split; [congruence | ]. split; [congruence | ].
  split; [rewrite Hm3, Hts, Hsent2, Hsent1, app_assoc; reflexivity | ].
  split; [apply Forall_app; split; assumption | ].
  intros Hinit. rewrite Hm3, Hti.
  destruct Hshape1 as [(-> & Hm1) | ((rest & ->) & _)].
  - rewrite Hm1 in Hshape2. destruct (Hshape2 Hinit) as [(-> & Hm2) | ((rest & ->) & _)].
    + left. split; [reflexivity | ]. rewrite Hm2. exact Hinit.
    + right. exists rest. reflexivity.
  - right. exists (rest ++ ws2). reflexivity.
Qed.

(** Any number of passes through [loop]. *)
Lemma loops_spec (n : nat) (s : Ui.Sketch) :
  Ui.steady s ->
  exists (s' : Ui.Sketch) (ws : list (list byte)),
    Ui.loops n s = Ui.Next s' /\
    Ui.steady s' /\
    Ui.pins s' = Ui.pins s /\ Ui.autoUpdate s' = Ui.autoUpdate s /\
    sent (Ui.machine s') = sent (Ui.machine s) ++ ws /\
    Forall framed ws /\
    (protocolInitialized (Ui.machine s) = false ->
     (ws = [] /\ protocolInitialized (Ui.machine s') = false) \/
     (exists rest, ws = initSeq :: rest)).
Proof.
  revert s. induction n as [|n IH]; intros s Hsteady.
  - exists s, []. split; [reflexivity | ]. split; [exact Hsteady | ].
    split; [reflexivity | ]. split; [reflexivity | ].
    split; [rewrite app_nil_r; reflexivity | ]. split; [constructor | ].
    intros Hinit. left. split; [reflexivity | exact Hinit].
  - destruct (loop_spec s Hsteady)
      as (s1 & ws1 & Hrun1 & Hst1 & Hp1 & Ha1 & Hsent1 & Hfr1 & Hshape1).
    destruct (IH s1 Hst1) as (s2 & ws2 & Hrun2 & Hst2 & Hp2 & Ha2 & Hsent2 & Hfr2 & Hshape2).
    exists s2, (ws1 ++ ws2).
    split; [cbn [Ui.loops]; rewrite Hrun1; exact Hrun2 | ].
    split; [exact Hst2 | ]. split; [congruence | ]. split; [congruence | ].
    split; [rewrite Hsent2, Hsent1, app_assoc; reflexivity | ].
    split; [apply Forall_app; split; assumption | ].
    intros Hinit. destruct (Hshape1 Hinit) as [(-> & Hinit1) | (rest & ->)].
    + exact (Hshape2 Hinit1).
    + right. exists (rest ++ ws2). reflexivity.
Qed.

Lemma reset_loop_eq (m : Machine) :
  length (batteries m) = 4%nat -> length (batteryIDsAssigned m) = 4%nat ->
  length (discoveredBatteryIDs m) = 4%nat ->
  Ui.reset_loop 4 0 m
  = Done tt (with_discoveredBatteryIDs (replicate 4 EmptyString)
               (with_batteryIDsAssigned (replicate 4 false)
                  (with_batteries
                     ((fun b => set_batteryID EmptyString (set_lastUpdate 0 (set_valid false b)))
                        <$> batteries m) m))).
Proof.
  intros H1 H2 H3.
  destruct m as [bs n p asg dsc c rx ln s de en dr]. cbn [batteries batteryIDsAssigned
    discoveredBatteryIDs] in *.
  destruct (length4 bs H1) as (b0 & b1 & b2 & b3 & ->).
  destruct (length4 asg H2) as (a0 & a1 & a2 & a3 & ->).
  destruct (length4 dsc H3) as (d0 & d1 & d2 & d3 & ->).
  reflexivity.
Qed.

(** What [setup] leaves, on a machine with arrays of the declared sizes: no
    slot is valid, no identifier is known, nothing has been written, and
    three seconds have passed. *)
Lemma setup_spec (m : Machine) (p : nat -> bool * bool) :
  ready m ->
  exists s1 : Ui.Sketch,
    Ui.setup (Ui.power_on m p) = Ui.Next s1 /\
    Ui.steady s1 /\
    Ui.pins s1 = p /\ Ui.autoUpdate s1 = true /\ Ui.lastUpdate s1 = 0 /\
    sent (Ui.machine s1) = sent m /\
    protocolInitialized (Ui.machine s1) = protocolInitialized m /\
    clock (Ui.machine s1) = clock_after 3000 (clock m) /\
    Forall (fun b => valid b = false) (batteries (Ui.machine s1)).
Proof.
  intros ((Hb & Ha & Hd & Hcells & Hc) & Hact).
  unfold Ui.setup, Ui.power_on. unfold Ui.call at 1. ui_fields.
  change (0 <=? RS485_DE) with true. cbn [when].
  rewrite bind_run. unfold digitalWrite_DE, modify. cbv beta.
  rewrite reset_loop_eq by assumption. ui_fields.
  unfold Ui.call. ui_fields. rewrite delay_eq. change (Z.to_nat 3000) with 3000%nat.
  eexists. split; [reflexivity | ]. unfold Ui.steady, ready. ui_fields. machine_fields.
  split.
  { split; [ | lia]. split; [ | exact Hact].
    unfold wf_machine. machine_fields.
    split; [rewrite length_fmap; exact Hb | ]. split; [reflexivity | ].
    split; [reflexivity | ].
    split; [ | apply clock_after_range; exact Hc].
    apply Forall_fmap. eapply Forall_impl; [exact Hcells | ].
    intros b Hbl. exact Hbl. }
  repeat split.
  apply Forall_fmap. apply Forall_forall. intros b _. reflexivity.
Qed.

(** A pass through [loop] in which neither a manual scan nor a scheduled
    pass is due. *)
Lemma loop_quiet (s : Ui.Sketch) :
  Ui.scan_due s = false -> Ui.poll_due s = false ->
  exists s' : Ui.Sketch,
    Ui.loop s = Ui.Next s' /\
    Ui.machine s' = Nat.iter 50 tick (Ui.machine s) /\
    Ui.pins s' = Ui.pins s /\
    Ui.autoUpdate s' = Ui.autoUpdate s /\ Ui.lastUpdate s' = Ui.lastUpdate s /\
    (0 <= Ui.displayMode s <= 3 -> 0 <= Ui.displayMode s' <= 3).
Proof.
  intros Hscan Hpoll.
  destruct (handleButtons_quiet s Hscan) as (s1 & Hrun1 & Hm1 & Hp1 & Ha1 & Hl1 & Hd1).
  destruct (loop_tail s1) as (s2 & Hrun2 & Hm2 & Hd2 & Hp2 & Ha2 & Hl2).
  exists s2. split.
  { unfold Ui.loop. rewrite Hrun1. cbn [Ui.andThen].
    unfold Ui.poll_due in Hpoll. unfold Ui.now in *. rewrite Ha1, Hl1, Hm1, Hpoll.
    cbn [Ui.andThen]. exact Hrun2. }
  split; [rewrite Hm2, Hm1; reflexivity | ].
  split; [congruence | ]. split; [congruence | ]. split; [congruence | ].
  intros H. rewrite Hd2. exact (Hd1 H).
Qed.

Lemma clock_after_small (n : nat) (c : Z) :
  0 <= c -> c + Z.of_nat n < 4294967296 -> clock_after n c = c + Z.of_nat n.
Proof.
  intros Hc. induction n as [|n IH]; intros H; [change (clock_after 0 c) with c; lia | ].
  change (clock_after (S n) c) with (to_u32 (clock_after n c + 1)).
  rewrite IH by lia. rewrite to_u32_small by lia. lia.
Qed.

(** Passes through [loop] while button 1 is up and less than five seconds
    have passed on the clock since [lastUpdate] was set to 0. *)
Lemma loops_quiet (n : nat) (s : Ui.Sketch) :
  (forall k, fst (Ui.pins s k) = Ui.HIGH) ->
  Ui.lastUpdate s = 0 ->
  0 <= clock (Ui.machine s) ->
  clock (Ui.machine s) + 50 * Z.of_nat n <= 5050 ->
  (0 <= Ui.displayMode s <= 3) ->
  exists s' : Ui.Sketch,
    Ui.loops n s = Ui.Next s' /\
    Ui.machine s' = Nat.iter (50 * n) tick (Ui.machine s) /\
    Ui.pins s' = Ui.pins s /\
    Ui.autoUpdate s' = Ui.autoUpdate s /\ Ui.lastUpdate s' = 0 /\
    (0 <= Ui.displayMode s' <= 3).
Proof.
  revert s. induction n as [|n IH]; intros s Hpins Hlast Hc0 Hc Hmode.
  - exists s. split; [reflexivity | ]. repeat split; try assumption; lia.
  - assert (Hscan : Ui.scan_due s = false).
    { unfold Ui.scan_due. rewrite Hpins. cbn [Ui.HIGH Ui.LOW Bool.eqb].
      rewrite andb_false_r. reflexivity. }
    assert (Hpoll : Ui.poll_due s = false).
    { unfold Ui.poll_due, Ui.now, Ui.POLL_INTERVAL. rewrite Hlast, Z.sub_0_r.
      rewrite to_u32_small by lia.
      replace (5000 <? clock (Ui.machine s)) with false by (symmetry; apply Z.ltb_ge; lia).
      apply andb_false_r. }
    destruct (loop_quiet s Hscan Hpoll) as (s1 & Hrun1 & Hm1 & Hp1 & Ha1 & Hl1 & Hd1).
    assert (Hclk1 : clock (Ui.machine s1) = clock (Ui.machine s) + 50).
    { rewrite Hm1. destruct (ticks_frame 50 (Ui.machine s)) as (_ & _ & _ & _ & ->).
      rewrite clock_after_small by lia. reflexivity. }
    destruct (IH s1) as (s2 & Hrun2 & Hm2 & Hp2 & Ha2 & Hl2 & Hd2).
    { intros k. rewrite Hp1. apply Hpins. }
    { congruence. }
    { lia. }
    { lia. }
    { exact (Hd1 Hmode). }
    exists s2. split; [cbn [Ui.loops]; rewrite Hrun1; exact Hrun2 | ].
    split.
    { rewrite Hm2, Hm1. replace (50 * S n)%nat with (50 * n + 50)%nat by lia.
      symmetry. apply Nat.iter_add. }
    split; [congruence | ]. split; [congruence | ]. split; [exact Hl2 | exact Hd2].
Qed.

Lemma loops_snoc (n : nat) (s : Ui.Sketch) :
  Ui.loops (S n) s = Ui.andThen (Ui.loops n s) Ui.loop.
Proof.
  revert s. induction n as [|n IH]; intros s.
  - cbn [Ui.loops Ui.andThen]. destruct (Ui.loop s); reflexivity.
  - change (Ui.loops (S (S n)) s) with (Ui.andThen (Ui.loop s) (Ui.loops (S n))).
    change (Ui.loops (S n) s) with (Ui.andThen (Ui.loop s) (Ui.loops n)).
    destruct (Ui.loop s) as [s1| | ]; cbn [Ui.andThen]; [apply IH | reflexivity ..].
Qed.

Lemma ready_boot (ln : list (list byte)) : ready (Sample.boot ln).
Proof.
  split; [ | discriminate].
  unfold wf_machine. cbn [Sample.boot batteries batteryIDsAssigned discoveredBatteryIDs clock].
  repeat split; try reflexivity; try lia. repeat constructor.
Qed.



(** X17.  The sketch never polls before it has run discovery: from
    power-on, after [setup] and any number of passes through [loop], either
    nothing has been written to the bus or the first write is the wake-up
    sequence. *)
Theorem bus_opens_with_wakeup (n : nat) (m : Machine) (p : nat -> bool * bool) :
  ready m -> protocolInitialized m = false ->
  exists s' : Ui.Sketch,
    Ui.run n (Ui.power_on m p) = Ui.Next s' /\
    (writes m (Ui.machine s') = [] \/
     exists rest, writes m (Ui.machine s') = initSeq :: rest).
Proof.
  intros Hready Hinit.
  destruct (setup_spec m p Hready) as (s1 & Hrun1 & Hst1 & _ & _ & _ & Hs1 & Hi1 & _).
  destruct (loops_spec n s1 Hst1) as (s2 & ws & Hrun2 & _ & _ & _ & Hs2 & _ & Hshape).
  exists s2. split; [unfold Ui.run; rewrite Hrun1; exact Hrun2 | ].
  rewrite Hs1 in Hs2. rewrite (writes_app _ _ _ Hs2).
  rewrite Hi1 in Hshape. destruct (Hshape Hinit) as [(-> & _) | Hw].
  - left. reflexivity.
  - right. exact Hw.
Qed.

Lemma bus_opens_with_wakeup_witness :
  ready (Sample.boot (Sample.answer_at_1 Sample.id_response)) /\
  protocolInitialized (Sample.boot (Sample.answer_at_1 Sample.id_response)) = false /\
  exists s' : Ui.Sketch,
    Ui.run 200 (Ui.power_on (Sample.boot (Sample.answer_at_1 Sample.id_response))
                            Sample_ui.released) = Ui.Next s' /\
    (writes (Sample.boot (Sample.answer_at_1 Sample.id_response)) (Ui.machine s') = [] \/
     exists rest,
       writes (Sample.boot (Sample.answer_at_1 Sample.id_response)) (Ui.machine s')
       = initSeq :: rest).
Proof.
  split; [apply ready_boot | ]. split; [reflexivity | ].
  exact (bus_opens_with_wakeup 200 _ Sample_ui.released (ready_boot _) eq_refl).
Defined.

(** X18.  Everything the sketch ever writes to the bus, in [setup] and in
    any number of passes through [loop], manual scans included, consists of
    frames that end with the CRC of their preceding bytes. *)
Theorem bus_traffic_is_framed (n : nat) (m : Machine) (p : nat -> bool * bool) :
  ready m ->
  exists s' : Ui.Sketch,
    Ui.run n (Ui.power_on m p) = Ui.Next s' /\
    Forall framed (writes m (Ui.machine s')).
Proof.
  intros Hready.
  destruct (setup_spec m p Hready) as (s1 & Hrun1 & Hst1 & _ & _ & _ & Hs1 & _).
  destruct (loops_spec n s1 Hst1) as (s2 & ws & Hrun2 & _ & _ & _ & Hs2 & Hfr & _).
  exists s2. split; [unfold Ui.run; rewrite Hrun1; exact Hrun2 | ].
  rewrite Hs1 in Hs2. rewrite (writes_app _ _ _ Hs2). exact Hfr.
Qed.

Lemma bus_traffic_is_framed_witness :
  ready (Sample.boot []) /\
  exists s' : Ui.Sketch,
    Ui.run 300 (Ui.power_on (Sample.boot []) Sample_ui.mode_pressed) = Ui.Next s' /\
    Forall framed (writes (Sample.boot []) (Ui.machine s')).
Proof.
  split; [apply ready_boot | ].
  exact (bus_traffic_is_framed 300 _ Sample_ui.mode_pressed (ready_boot _)).
Defined.

(** X19.  A pass through [loop] in which no manual scan is due and the
    polling interval has not elapsed leaves the protocol alone: nothing is
    written, no slot changes, and the machine is the one it was, 50 ms
    older. *)
Theorem quiet_pass (s : Ui.Sketch) :
  Ui.scan_due s = false -> Ui.poll_due s = false ->
  exists s' : Ui.Sketch,
    Ui.loop s = Ui.Next s' /\
    Ui.machine s' = Nat.iter 50 tick (Ui.machine s) /\
    sent (Ui.machine s') = sent (Ui.machine s) /\
    batteries (Ui.machine s') = batteries (Ui.machine s) /\
    Ui.lastUpdate s' = Ui.lastUpdate s.
Proof.
  intros Hscan Hpoll.
  destruct (loop_quiet s Hscan Hpoll) as (s' & Hrun & Hm & _ & _ & Hl & _).
  destruct (ticks_frame 50 (Ui.machine s)) as (Hs & Hb & _).
  exists s'. rewrite Hm. repeat split; assumption.
Qed.

Lemma quiet_pass_witness :
  Ui.scan_due (Sample_ui.settled Sample_ui.released) = false /\
  Ui.poll_due (Sample_ui.settled Sample_ui.released) = false /\
  exists s' : Ui.Sketch,
    Ui.loop (Sample_ui.settled Sample_ui.released) = Ui.Next s' /\
    Ui.machine s' = Nat.iter 50 tick (Ui.machine (Sample_ui.settled Sample_ui.released)) /\
    sent (Ui.machine s') = sent (Ui.machine (Sample_ui.settled Sample_ui.released)) /\
    batteries (Ui.machine s')
    = batteries (Ui.machine (Sample_ui.settled Sample_ui.released)) /\
    Ui.lastUpdate s' = Ui.lastUpdate (Sample_ui.settled Sample_ui.released).
Proof.
  assert (H1 : Ui.scan_due (Sample_ui.settled Sample_ui.released) = false)
    by (vm_compute; reflexivity).
  assert (H2 : Ui.poll_due (Sample_ui.settled Sample_ui.released) = false)
    by (vm_compute; reflexivity).
  split; [exact H1 | ]. split; [exact H2 | ].
  exact (quiet_pass _ H1 H2).
Defined.

(** X20.  A press of button 1 that [handleButtons] accepts starts a
    discovery pass at once, whether or not the protocol is initialised: the
    pass through [loop] completes, what it writes begins with the wake-up
    sequence, and the protocol is initialised afterwards. *)
Theorem manual_scan_rediscovers (s : Ui.Sketch) :
  Ui.steady s -> Ui.scan_due s = true ->
  exists (s' : Ui.Sketch) (rest : list (list byte)),
    Ui.loop s = Ui.Next s' /\
    writes (Ui.machine s) (Ui.machine s') = initSeq :: rest /\
    protocolInitialized (Ui.machine s') = true /\
    Ui.steady s'.
Proof.
  intros Hsteady Hscan.
  destruct (handleButtons_scan s (proj1 (proj1 Hsteady)) Hscan)
    as (s1 & rest & Hrun1 & Hr1 & Hinit1 & Hsent1 & _ & _ & _ & _ & Hd1).
  assert (Hst1 : Ui.steady s1) by (split; [exact Hr1 | exact (Hd1 (proj2 Hsteady))]).
  destruct (scheduled_pass_spec s1 Hst1)
    as (s2 & ws2 & Hrun2 & Hst2 & _ & _ & Hsent2 & _ & Hkeep2 & _).
  destruct (loop_tail s2) as (s3 & Hrun3 & Hm3 & Hd3 & _).
  destruct (ticks_frame 50 (Ui.machine s2)) as (Hts & _ & Hti & _).
  exists s3, (rest ++ ws2).
  split.
  { unfold Ui.loop. rewrite Hrun1. cbn [Ui.andThen]. rewrite Hrun2. cbn [Ui.andThen].
    exact Hrun3. }
  split.
  { apply writes_app. rewrite Hm3, Hts, Hsent2, Hsent1, <- app_assoc. reflexivity. }
  split; [rewrite Hm3, Hti; exact (Hkeep2 Hinit1) | ].
  destruct Hst2 as (Hr2 & Hmode2). split.
  - rewrite Hm3. apply ready_ticks. exact Hr2.
  - rewrite Hd3. exact Hmode2.
Qed.

Lemma manual_scan_rediscovers_witness :
  Ui.steady (Sample_ui.settled Sample_ui.scan_pressed) /\
  Ui.scan_due (Sample_ui.settled Sample_ui.scan_pressed) = true /\
  exists (s' : Ui.Sketch) (rest : list (list byte)),
    Ui.loop (Sample_ui.settled Sample_ui.scan_pressed) = Ui.Next s' /\
    writes (Ui.machine (Sample_ui.settled Sample_ui.scan_pressed)) (Ui.machine s')
    = initSeq :: rest /\
    protocolInitialized (Ui.machine s') = true /\
    Ui.steady s'.
Proof.
  assert (H1 : Ui.steady (Sample_ui.settled Sample_ui.scan_pressed)).
  { split; [exact ready_polled | cbn; lia]. }
  assert (H2 : Ui.scan_due (Sample_ui.settled Sample_ui.scan_pressed) = true)
    by (vm_compute; reflexivity).
  split; [exact H1 | ]. split; [exact H2 | ].
  exact (manual_scan_rediscovers _ H1 H2).
Defined.

(** X21.  With button 1 left alone, the sketch keeps off the bus for the
    first five seconds: [setup] takes three seconds, each of the first 41
    passes through [loop] only lets 50 ms go by, and the 42nd pass, at
    5050 ms on the clock, runs the first discovery. *)
Theorem first_discovery_after_five_seconds (m : Machine) (p : nat -> bool * bool) :
  ready m -> protocolInitialized m = false -> clock m = 0 ->
  (forall k, fst (p k) = Ui.HIGH) ->
  (forall n, (n <= 41)%nat ->
     exists s' : Ui.Sketch,
       Ui.run n (Ui.power_on m p) = Ui.Next s' /\
       sent (Ui.machine s') = sent m /\
       clock (Ui.machine s') = 3000 + 50 * Z.of_nat n) /\
  exists (s' : Ui.Sketch) (rest : list (list byte)),
    Ui.run 42 (Ui.power_on m p) = Ui.Next s' /\
    sent (Ui.machine s') = sent m ++ initSeq :: rest.
Proof.
  intros Hready Hinit Hclk Hpins.
  destruct (setup_spec m p Hready)
    as (s1 & Hrun1 & Hst1 & Hp1 & Ha1 & Hl1 & Hs1 & Hi1 & Hc1 & _).
  rewrite Hclk, clock_after_small in Hc1 by lia. change (0 + Z.of_nat 3000) with 3000 in Hc1.
  assert (Hquiet : forall n, (n <= 41)%nat ->
            exists s' : Ui.Sketch,
              Ui.loops n s1 = Ui.Next s' /\
              Ui.machine s' = Nat.iter (50 * n) tick (Ui.machine s1) /\
              Ui.pins s' = Ui.pins s1 /\
              Ui.autoUpdate s' = Ui.autoUpdate s1 /\ Ui.lastUpdate s' = 0 /\
              (0 <= Ui.displayMode s' <= 3)).
  { intros n Hn. apply loops_quiet.
    - intros k. rewrite Hp1. apply Hpins.
    - exact Hl1.
    - lia.
    - lia.
    - exact (proj2 Hst1). }
  split.
  - intros n Hn. destruct (Hquiet n Hn) as (s2 & Hrun2 & Hm2 & _).
    exists s2. split; [unfold Ui.run; rewrite Hrun1; exact Hrun2 | ].
    rewrite Hm2. destruct (ticks_frame (50 * n) (Ui.machine s1)) as (-> & _ & _ & _ & ->).
    split; [exact Hs1 | ]. rewrite Hc1, clock_after_small by lia. lia.
  - destruct (Hquiet 41%nat (le_n _)) as (s2 & Hrun2 & Hm2 & Hp2 & Ha2 & Hl2 & Hd2).
    destruct (ticks_frame (50 * 41) (Ui.machine s1)) as (Hts & _ & Hti & _ & Htc).
    rewrite <- Hm2 in Hts, Hti, Htc.
    rewrite Hc1, clock_after_small in Htc by lia.
    assert (Hst2 : Ui.steady s2).
    { split; [rewrite Hm2; apply ready_ticks; exact (proj1 Hst1) | exact Hd2]. }
    assert (Hscan : Ui.scan_due s2 = false).
    { unfold Ui.scan_due. rewrite Hp2, Hp1, Hpins. cbn [Ui.HIGH Ui.LOW Bool.eqb].
      rewrite andb_false_r. reflexivity. }
    destruct (handleButtons_quiet s2 Hscan) as (s3 & Hrun3 & Hm3 & Hp3 & Ha3 & Hl3 & Hd3).
    assert (Hst3 : Ui.steady s3).
    { split; [rewrite Hm3; exact (proj1 Hst2) | exact (Hd3 Hd2)]. }
    destruct (scheduled_pass_spec s3 Hst3)
      as (s4 & ws & Hrun4 & _ & _ & _ & Hsent4 & _ & _ & _ & Hdue).
    destruct Hdue as (rest & ->).
    { unfold Ui.poll_due, Ui.now, Ui.POLL_INTERVAL.
      rewrite Ha3, Ha2, Ha1, Hl3, Hl2, Hm3, Htc. reflexivity. }
    { rewrite Hm3, Hti, Hi1. exact Hinit. }
    destruct (loop_tail s4) as (s5 & Hrun5 & Hm5 & _).
    exists s5, rest. split.
    + unfold Ui.run. rewrite Hrun1. cbn [Ui.andThen].
      rewrite loops_snoc, Hrun2. cbn [Ui.andThen].
      unfold Ui.loop. rewrite Hrun3. cbn [Ui.andThen]. rewrite Hrun4. cbn [Ui.andThen].
      exact Hrun5.
    + rewrite Hm5. destruct (ticks_frame 50 (Ui.machine s4)) as (-> & _).
      rewrite Hsent4, Hm3, Hts, Hs1. reflexivity.
Qed.

Lemma first_discovery_after_five_seconds_witness :
  ready (Sample.boot []) /\ protocolInitialized (Sample.boot []) = false /\
  clock (Sample.boot []) = 0 /\
  (forall k, fst (Sample_ui.released k) = Ui.HIGH) /\
  (forall n, (n <= 41)%nat ->
     exists s' : Ui.Sketch,
       Ui.run n (Ui.power_on (Sample.boot []) Sample_ui.released) = Ui.Next s' /\
       sent (Ui.machine s') = sent (Sample.boot []) /\
       clock (Ui.machine s') = 3000 + 50 * Z.of_nat n) /\
  exists (s' : Ui.Sketch) (rest : list (list byte)),
    Ui.run 42 (Ui.power_on (Sample.boot []) Sample_ui.released) = Ui.Next s' /\
    sent (Ui.machine s') = sent (Sample.boot []) ++ initSeq :: rest.
Proof.
  assert (H4 : forall k, fst (Sample_ui.released k) = Ui.HIGH) by (intros k; reflexivity).
  split; [apply ready_boot | ]. split; [reflexivity | ]. split; [reflexivity | ].
  split; [exact H4 | ].
  exact (first_discovery_after_five_seconds (Sample.boot []) Sample_ui.released
           (ready_boot _) eq_refl eq_refl H4).
Defined.
